(** * X-Mem: the latency worker

    A shallow embedding of [LatencyWorker::run] (src/LatencyWorker.cpp) and
    the properties of its run protocol: configuration snapshot, affinity and
    priority sequencing, priming, the two timed measurement modes, overhead
    subtraction, anomaly detection and result publication.

    The worker talks to the outside through a handful of primitives (lock,
    timer, affinity, priority, priming read, kernel call).  They are kept
    abstract: a [Machine] is whatever hardware and operating-system state
    they act on, and an [Env] gives their behaviour.  Every primitive call
    made by [run] is also appended to a chronological list of [Event]s, so
    that ordering properties can be stated on what the worker did. *)

From Stdlib Require Import ZArith List Bool Lia.
Import ListNotations.
Local Open Scope Z_scope.

(** ** Machine integers *)

(** [uint64_t] arithmetic wraps around modulo 2^64. *)
Definition wrap64 (z : Z) : Z := z mod 2 ^ 64.
Definition add64 (a b : Z) : Z := wrap64 (a + b).
Definition sub64 (a b : Z) : Z := wrap64 (a - b).
Definition mul64 (a b : Z) : Z := wrap64 (a * b).

(** Conversion of a [uint64_t] to [double]: the value of the nearest
    binary64 number, ties to even (the default rounding of the x86-64
    targets of the program).  Integers below 2^53 are represented exactly;
    above, the unit in the last place is [2 ^ (log2 n - 52)].  The result is
    again an integer, so it is kept in [Z]. *)
Definition to_double (n : Z) : Z :=
  if n <? 2 ^ 53 then n
  else
    let ulp := 2 ^ (Z.log2 n - 52) in
    let q := n / ulp in
    let r := n mod ulp in
    let q' := if 2 * r <? ulp then q
              else if ulp <? 2 * r then q + 1
              else if Z.even q then q else q + 1 in
    q' * ulp.

(** [a < 0.5 * e] with [a] and [e] of type [uint64_t] (line 180): both are
    converted to [double]; multiplying by 0.5 is exact, so the comparison is
    [to_double a < to_double e / 2]. *)
Definition lt_half_double (a e : Z) : bool := 2 * to_double a <? to_double e.

(** ** Build configuration *)

(** The two measurement modes are selected by the preprocessor. *)
Inductive Mode : Set :=
| USE_TIME_BASED_BENCHMARKS
| USE_SIZE_BASED_BENCHMARKS.

(** ** The worker object *)

(** Members read by [run]: the configuration written by the controller.
    A [RandomFunction] pointer is kept as its address; 0 is [NULL]. *)
Record WorkerConfig : Set := mkConfig {
  _mem_array : Z;
  _len : Z;
  _passes_per_iteration : Z;
  _cpu_affinity : Z;
  __kernel_fptr : Z;
  __kernel_dummy_fptr : Z
}.

(** Members written by [run]: the published result. *)
Record WorkerResult : Set := mkResult {
  _adjusted_ticks : Z;
  _elapsed_ticks : Z;
  _elapsed_dummy_ticks : Z;
  _warning : bool;
  _bytes_per_pass : Z;
  _completed : bool;
  _passes : Z
}.

(** The result members, as names: what a store event refers to. *)
Inductive Field : Set :=
| F_adjusted_ticks
| F_elapsed_ticks
| F_elapsed_dummy_ticks
| F_warning
| F_bytes_per_pass
| F_completed
| F_passes.

(** The variables on the stack of [run] (lines 77-95 and 114). *)
Record Locals : Set := mkLocals {
  cpu_affinity : Z;
  kernel_fptr : Z;
  kernel_dummy_fptr : Z;
  next_address : Z;
  bytes_per_pass : Z;
  passes : Z;
  p : Z;
  start_tick : Z;
  stop_tick : Z;
  elapsed_ticks : Z;
  elapsed_dummy_ticks : Z;
  adjusted_ticks : Z;
  warning : bool;
  mem_array : Z;
  len : Z;
  target_ticks : Z;
  locked : bool
}.

(** ** Events *)

(** Which call site invokes a kernel: the measured one or the dummy one. *)
Inductive Role : Set := RealKernel | DummyKernel.

Inductive CerrMsg : Set :=
| FailedToLockThread (cpu : Z)
| FailedToBoostPriority
| FailedToRevertPriority.

Inductive Event : Set :=
| EvAcquireLock (ok : bool)
| EvReleaseLock
| EvLockThreadToCpu (cpu : Z) (ok : bool)
| EvUnlockThread
| EvBoostPriority (ok : bool)
| EvRevertPriority (ok : bool)
| EvCerr (msg : CerrMsg)
| EvPrime (start_address end_address : Z)
| EvStartTimer (tick : Z)
| EvStopTimer (tick : Z)
| EvKernel (role : Role) (fptr address length : Z)
| EvStore (field : Field).

(** ** Environment *)

Section Environment.

Variable Machine : Type.

(** Everything [run] uses and does not define.  The constants and macros
    come from common.h, the primitives from the platform layer, the lock
    from the base class.  [invoke fptr address length] is a call of the
    function at [fptr]: it gives the chain pointer left in [next_address]
    and the machine after the call.  [size_mem_array] and [size_len] stand
    for what the names [mem_array] and [len] denote in a size-based build,
    where [run] does not declare them (lines 91-95 are compiled in a
    time-based build only).  [controller] is what the owner of the worker
    writes into the shared configuration once the worker has released the
    lock. *)
Record Env : Type := mkEnv {
  mode : Mode;
  g_ticks_per_sec : Z;
  BENCHMARK_DURATION_SEC : Z;
  MIN_ELAPSED_TICKS : Z;
  LATENCY_BENCHMARK_UNROLL_LENGTH : Z;
  size_mem_array : Z;
  size_len : Z;
  _acquireLock : Z -> Machine -> bool * Machine;
  _releaseLock : Machine -> Machine;
  lock_thread_to_cpu : Z -> Machine -> bool * Machine;
  unlock_thread_to_numa_node : Machine -> Machine;
  boostSchedulingPriority : Machine -> bool * Machine;
  revertSchedulingPriority : Machine -> bool * Machine;
  forwSequentialRead_Word64 : Z -> Z -> Machine -> Machine;
  start_timer : Machine -> Z * Machine;
  stop_timer : Machine -> Z * Machine;
  invoke : Z -> Z -> Z -> Machine -> Z * Machine;
  controller : WorkerConfig -> WorkerConfig
}.

(** The state of a run: the machine, the worker object, the stack of [run]
    and the events so far, oldest first. *)
Record St : Type := mkSt {
  mach : Machine;
  cfg : WorkerConfig;
  res : WorkerResult;
  loc : Locals;
  trace : list Event
}.

End Environment.

Arguments mkSt {Machine}.
Arguments mach {Machine}.
Arguments cfg {Machine}.
Arguments res {Machine}.
Arguments loc {Machine}.
Arguments trace {Machine}.
Arguments mode {Machine}.
Arguments g_ticks_per_sec {Machine}.
Arguments BENCHMARK_DURATION_SEC {Machine}.
Arguments MIN_ELAPSED_TICKS {Machine}.
Arguments LATENCY_BENCHMARK_UNROLL_LENGTH {Machine}.
Arguments size_mem_array {Machine}.
Arguments size_len {Machine}.
Arguments _acquireLock {Machine}.
Arguments _releaseLock {Machine}.
Arguments lock_thread_to_cpu {Machine}.
Arguments unlock_thread_to_numa_node {Machine}.
Arguments boostSchedulingPriority {Machine}.
Arguments revertSchedulingPriority {Machine}.
Arguments forwSequentialRead_Word64 {Machine}.
Arguments start_timer {Machine}.
Arguments stop_timer {Machine}.
Arguments invoke {Machine}.
Arguments controller {Machine}.

(** ** Outcomes *)

(** A run returns, or calls through a [NULL] function pointer ([Fault]), or
    is still looping when the fuel of the model is spent. *)
Inductive outcome (A : Type) : Type :=
| Ret (a : A)
| Fault
| OutOfFuel.

Arguments Ret {A}.
Arguments Fault {A}.
Arguments OutOfFuel {A}.

Definition bind {A B : Type} (o : outcome A) (k : A -> outcome B) : outcome B :=
  match o with
  | Ret a => k a
  | Fault => Fault
  | OutOfFuel => OutOfFuel
  end.

Definition omap {A B : Type} (f : A -> B) (o : outcome A) : outcome B :=
  match o with
  | Ret a => Ret (f a)
  | Fault => Fault
  | OutOfFuel => OutOfFuel
  end.

Notation "x <- o ;; k" := (bind o (fun x => k))
  (at level 61, o at next level, right associativity).

(** ** Assignments *)

Definition set_next_address (v : Z) (l : Locals) : Locals :=
  mkLocals (cpu_affinity l) (kernel_fptr l) (kernel_dummy_fptr l) v
    (bytes_per_pass l) (passes l) (p l) (start_tick l) (stop_tick l)
    (elapsed_ticks l) (elapsed_dummy_ticks l) (adjusted_ticks l) (warning l)
    (mem_array l) (len l) (target_ticks l) (locked l).

Definition set_passes (v : Z) (l : Locals) : Locals :=
  mkLocals (cpu_affinity l) (kernel_fptr l) (kernel_dummy_fptr l)
    (next_address l) (bytes_per_pass l) v (p l) (start_tick l) (stop_tick l)
    (elapsed_ticks l) (elapsed_dummy_ticks l) (adjusted_ticks l) (warning l)
    (mem_array l) (len l) (target_ticks l) (locked l).

Definition set_p (v : Z) (l : Locals) : Locals :=
  mkLocals (cpu_affinity l) (kernel_fptr l) (kernel_dummy_fptr l)
    (next_address l) (bytes_per_pass l) (passes l) v (start_tick l)
    (stop_tick l) (elapsed_ticks l) (elapsed_dummy_ticks l) (adjusted_ticks l)
    (warning l) (mem_array l) (len l) (target_ticks l) (locked l).

Definition set_start_tick (v : Z) (l : Locals) : Locals :=
  mkLocals (cpu_affinity l) (kernel_fptr l) (kernel_dummy_fptr l)
    (next_address l) (bytes_per_pass l) (passes l) (p l) v (stop_tick l)
    (elapsed_ticks l) (elapsed_dummy_ticks l) (adjusted_ticks l) (warning l)
    (mem_array l) (len l) (target_ticks l) (locked l).

Definition set_stop_tick (v : Z) (l : Locals) : Locals :=
  mkLocals (cpu_affinity l) (kernel_fptr l) (kernel_dummy_fptr l)
    (next_address l) (bytes_per_pass l) (passes l) (p l) (start_tick l) v
    (elapsed_ticks l) (elapsed_dummy_ticks l) (adjusted_ticks l) (warning l)
    (mem_array l) (len l) (target_ticks l) (locked l).

Definition set_elapsed_ticks (v : Z) (l : Locals) : Locals :=
  mkLocals (cpu_affinity l) (kernel_fptr l) (kernel_dummy_fptr l)
    (next_address l) (bytes_per_pass l) (passes l) (p l) (start_tick l)
    (stop_tick l) v (elapsed_dummy_ticks l) (adjusted_ticks l) (warning l)
    (mem_array l) (len l) (target_ticks l) (locked l).

Definition set_elapsed_dummy_ticks (v : Z) (l : Locals) : Locals :=
  mkLocals (cpu_affinity l) (kernel_fptr l) (kernel_dummy_fptr l)
    (next_address l) (bytes_per_pass l) (passes l) (p l) (start_tick l)
    (stop_tick l) (elapsed_ticks l) v (adjusted_ticks l) (warning l)
    (mem_array l) (len l) (target_ticks l) (locked l).

Definition set_adjusted_ticks (v : Z) (l : Locals) : Locals :=
  mkLocals (cpu_affinity l) (kernel_fptr l) (kernel_dummy_fptr l)
    (next_address l) (bytes_per_pass l) (passes l) (p l) (start_tick l)
    (stop_tick l) (elapsed_ticks l) (elapsed_dummy_ticks l) v (warning l)
    (mem_array l) (len l) (target_ticks l) (locked l).

Definition set_warning (v : bool) (l : Locals) : Locals :=
  mkLocals (cpu_affinity l) (kernel_fptr l) (kernel_dummy_fptr l)
    (next_address l) (bytes_per_pass l) (passes l) (p l) (start_tick l)
    (stop_tick l) (elapsed_ticks l) (elapsed_dummy_ticks l) (adjusted_ticks l)
    v (mem_array l) (len l) (target_ticks l) (locked l).

Definition set_locked (v : bool) (l : Locals) : Locals :=
  mkLocals (cpu_affinity l) (kernel_fptr l) (kernel_dummy_fptr l)
    (next_address l) (bytes_per_pass l) (passes l) (p l) (start_tick l)
    (stop_tick l) (elapsed_ticks l) (elapsed_dummy_ticks l) (adjusted_ticks l)
    (warning l) (mem_array l) (len l) (target_ticks l) v.

Section Run.

Context {Machine : Type}.
Variable E : Env Machine.

Local Abbreviation State := (St Machine).

Definition set_mach (m : Machine) (s : State) : State :=
  mkSt m (cfg s) (res s) (loc s) (trace s).

Definition set_cfg (c : WorkerConfig) (s : State) : State :=
  mkSt (mach s) c (res s) (loc s) (trace s).

Definition set_res (r : WorkerResult) (s : State) : State :=
  mkSt (mach s) (cfg s) r (loc s) (trace s).

Definition set_loc (l : Locals) (s : State) : State :=
  mkSt (mach s) (cfg s) (res s) l (trace s).

Definition log (e : Event) (s : State) : State :=
  mkSt (mach s) (cfg s) (res s) (loc s) (trace s ++ [e]).

Definition assign (f : Locals -> Locals) (s : State) : State :=
  set_loc (f (loc s)) s.

(** ** [LatencyWorker::run], phase by phase *)

(** Lines 77-95: the declarations.  [target_ticks] exists in a time-based
    build only, where it is the 64-bit product of the calibrated tick rate
    and the benchmark duration. *)
Definition declarations : Locals :=
  match mode E with
  | USE_TIME_BASED_BENCHMARKS =>
      mkLocals 0 0 0 0 0 0 0 0 0 0 0 0 false 0 0
        (mul64 (g_ticks_per_sec E) (BENCHMARK_DURATION_SEC E)) false
  | USE_SIZE_BASED_BENCHMARKS =>
      mkLocals 0 0 0 0 0 0 0 0 0 0 0 0 false
        (size_mem_array E) (size_len E) 0 false
  end.

(** Lines 99-109: the copies made under the lock. *)
Definition copy_config (c : WorkerConfig) (l : Locals) : Locals :=
  match mode E with
  | USE_TIME_BASED_BENCHMARKS =>
      mkLocals (_cpu_affinity c) (__kernel_fptr c) (__kernel_dummy_fptr c)
        (next_address l) (mul64 (LATENCY_BENCHMARK_UNROLL_LENGTH E) 8)
        (passes l) (p l) (start_tick l) (stop_tick l) (elapsed_ticks l)
        (elapsed_dummy_ticks l) (adjusted_ticks l) (warning l)
        (_mem_array c) (_len c) (target_ticks l) (locked l)
  | USE_SIZE_BASED_BENCHMARKS =>
      mkLocals (_cpu_affinity c) (__kernel_fptr c) (__kernel_dummy_fptr c)
        (next_address l) (mul64 (LATENCY_BENCHMARK_UNROLL_LENGTH E) 8)
        (_passes_per_iteration c) (p l) (start_tick l) (stop_tick l)
        (elapsed_ticks l) (elapsed_dummy_ticks l) (adjusted_ticks l)
        (warning l) (mem_array l) (len l) (target_ticks l) (locked l)
  end.

(** Lines 98-111: the configuration is copied under the lock, when the lock
    is obtained. *)
Definition snapshot (s : State) : State :=
  let a := _acquireLock E (-1) (mach s) in
  let s := log (EvAcquireLock (fst a)) (set_mach (snd a) s) in
  if fst a then
    let s := assign (copy_config (cfg s)) s in
    log EvReleaseLock (set_mach (_releaseLock E (mach s)) s)
  else s.

(** From here on the lock is free, and the controller may write the shared
    configuration. *)
Definition controller_writes (s : State) : State :=
  set_cfg (controller E (cfg s)) s.

(** Lines 114-116. *)
Definition set_processor_affinity (s : State) : State :=
  let cpu := cpu_affinity (loc s) in
  let r := lock_thread_to_cpu E cpu (mach s) in
  let s := log (EvLockThreadToCpu cpu (fst r)) (set_mach (snd r) s) in
  let s := assign (set_locked (fst r)) s in
  if fst r then s else log (EvCerr (FailedToLockThread cpu)) s.

(** Lines 119-127. *)
Definition increase_scheduling_priority (s : State) : State :=
  let r := boostSchedulingPriority E (mach s) in
  let s := log (EvBoostPriority (fst r)) (set_mach (snd r) s) in
  if fst r then s else log (EvCerr FailedToBoostPriority) s.

(** Lines 130-134: one pass of the priming loop. *)
Definition prime_pass (s : State) : State :=
  let prime_start_address := mem_array (loc s) in
  let prime_end_address := add64 (mem_array (loc s)) (len (loc s)) in
  log (EvPrime prime_start_address prime_end_address)
    (set_mach (forwSequentialRead_Word64 E prime_start_address
                 prime_end_address (mach s)) s).

Definition prime_memory (s : State) : State :=
  prime_pass (prime_pass (prime_pass (prime_pass s))).

(** One call of [fptr] on [(next_address, &next_address, length)].  The callee
    may store a new chain pointer through its second argument. *)
Definition call_kernel (role : Role) (fptr length : Z) (s : State)
  : outcome State :=
  if fptr =? 0 then Fault
  else
    let addr := next_address (loc s) in
    let r := invoke E fptr addr length (mach s) in
    Ret (assign (set_next_address (wrap64 (fst r)))
           (log (EvKernel role fptr addr length) (set_mach (snd r) s))).

(** Modelled from the spec: the macro [UNROLL256] of common.h, which is not
    part of the sources at hand; section 4.4 describes a fixed unrolled
    batch of 256 kernel invocations. *)
Fixpoint unroll (n : nat) (stmt : State -> outcome State) (s : State)
  : outcome State :=
  match n with
  | O => Ret s
  | S n' => s' <- stmt s ;; unroll n' stmt s'
  end.

Definition UNROLL256 := unroll 256.

Definition read_start_timer (s : State) : State :=
  let r := start_timer E (mach s) in
  let t := wrap64 (fst r) in
  assign (set_start_tick t) (log (EvStartTimer t) (set_mach (snd r) s)).

Definition read_stop_timer (s : State) : State :=
  let r := stop_timer E (mach s) in
  let t := wrap64 (fst r) in
  assign (set_stop_tick t) (log (EvStopTimer t) (set_mach (snd r) s)).

(** Lines 141-145 and 151-155: one timed batch.  The two loops of a
    time-based build have the same body, up to the kernel called and the
    variables that accumulate the ticks and count the passes. *)
Definition real_batch (s : State) : outcome State :=
  let s := read_start_timer s in
  s <- UNROLL256
         (fun s => call_kernel RealKernel (kernel_fptr (loc s)) 0 s) s ;;
  let s := read_stop_timer s in
  let s := assign (fun l => set_elapsed_ticks
             (add64 (elapsed_ticks l)
                (sub64 (stop_tick l) (start_tick l))) l) s in
  Ret (assign (fun l => set_passes (add64 (passes l) 256) l) s).

Definition dummy_batch (s : State) : outcome State :=
  let s := read_start_timer s in
  s <- UNROLL256
         (fun s => call_kernel DummyKernel (kernel_dummy_fptr (loc s)) 0 s) s ;;
  let s := read_stop_timer s in
  let s := assign (fun l => set_elapsed_dummy_ticks
             (add64 (elapsed_dummy_ticks l)
                (sub64 (stop_tick l) (start_tick l))) l) s in
  Ret (assign (fun l => set_p (add64 (p l) 256) l) s).

(** Lines 140-146: [while (elapsed_ticks < target_ticks)]. *)
Fixpoint real_loop (fuel : nat) (s : State) : outcome State :=
  if elapsed_ticks (loc s) <? target_ticks (loc s) then
    match fuel with
    | O => OutOfFuel
    | S fuel' => s' <- real_batch s ;; real_loop fuel' s'
    end
  else Ret s.

(** Lines 150-156: [while (p < passes)]. *)
Fixpoint dummy_loop (fuel : nat) (s : State) : outcome State :=
  if p (loc s) <? passes (loc s) then
    match fuel with
    | O => OutOfFuel
    | S fuel' => s' <- dummy_batch s ;; dummy_loop fuel' s'
    end
  else Ret s.

(** Lines 137-157. *)
Definition time_based_benchmark (fuel : nat) (s : State) : outcome State :=
  let s := assign (fun l => set_next_address (mem_array l) l) s in
  s <- real_loop fuel s ;;
  let s := assign (fun l => set_next_address (mem_array l) l) s in
  dummy_loop fuel s.

(** Lines 163-164 and 171-172: [for (...; p < passes; p++)], entered after
    [p = 0]. *)
Fixpoint for_passes (fuel : nat) (role : Role) (s : State) : outcome State :=
  if p (loc s) <? passes (loc s) then
    match fuel with
    | O => OutOfFuel
    | S fuel' =>
        let fptr := match role with
                    | RealKernel => kernel_fptr (loc s)
                    | DummyKernel => kernel_dummy_fptr (loc s)
                    end in
        s' <- call_kernel role fptr (len (loc s)) s ;;
        for_passes fuel' role (assign (fun l => set_p (add64 (p l) 1) l) s')
    end
  else Ret s.

(** Lines 159-175.  The elapsed ticks are accumulated as
    [start_tick - stop_tick]; the dummy run starts from the member
    [_mem_array], not from the local [mem_array]. *)
Definition size_based_benchmark (fuel : nat) (s : State) : outcome State :=
  let s := assign (fun l => set_next_address (mem_array l) l) s in
  let s := read_start_timer s in
  s <- for_passes fuel RealKernel (assign (set_p 0) s) ;;
  let s := read_stop_timer s in
  let s := assign (fun l => set_elapsed_ticks
             (add64 (elapsed_ticks l)
                (sub64 (start_tick l) (stop_tick l))) l) s in
  let s := assign (set_next_address (_mem_array (cfg s))) s in
  let s := read_start_timer s in
  s <- for_passes fuel DummyKernel (assign (set_p 0) s) ;;
  let s := read_stop_timer s in
  Ret (assign (fun l => set_elapsed_dummy_ticks
         (add64 (elapsed_dummy_ticks l)
            (sub64 (start_tick l) (stop_tick l))) l) s).

Definition run_benchmark (fuel : nat) (s : State) : outcome State :=
  match mode E with
  | USE_TIME_BASED_BENCHMARKS => time_based_benchmark fuel s
  | USE_SIZE_BASED_BENCHMARKS => size_based_benchmark fuel s
  end.

(** Line 177. *)
Definition subtract_overhead (s : State) : State :=
  assign (fun l => set_adjusted_ticks
            (sub64 (elapsed_ticks l) (elapsed_dummy_ticks l)) l) s.

(** Line 180: the condition of the warning. *)
Definition looks_fishy (l : Locals) : bool :=
  (elapsed_dummy_ticks l >=? elapsed_ticks l)
  || (elapsed_ticks l <? MIN_ELAPSED_TICKS E)
  || lt_half_double (adjusted_ticks l) (elapsed_ticks l).

(** Lines 180-181. *)
Definition warn_if_fishy (s : State) : State :=
  if looks_fishy (loc s) then assign (set_warning true) s else s.

(** Lines 184-185. *)
Definition unset_processor_affinity (s : State) : State :=
  if locked (loc s)
  then log EvUnlockThread (set_mach (unlock_thread_to_numa_node E (mach s)) s)
  else s.

(** Lines 188-194. *)
Definition revert_thread_priority (s : State) : State :=
  let r := revertSchedulingPriority E (mach s) in
  let s := log (EvRevertPriority (fst r)) (set_mach (snd r) s) in
  if fst r then s else log (EvCerr FailedToRevertPriority) s.

(** The object after a store to one result member. *)
Definition stored (f : Field) (l : Locals) (r : WorkerResult) : WorkerResult :=
  match f with
  | F_adjusted_ticks =>
      mkResult (adjusted_ticks l) (_elapsed_ticks r) (_elapsed_dummy_ticks r)
        (_warning r) (_bytes_per_pass r) (_completed r) (_passes r)
  | F_elapsed_ticks =>
      mkResult (_adjusted_ticks r) (elapsed_ticks l) (_elapsed_dummy_ticks r)
        (_warning r) (_bytes_per_pass r) (_completed r) (_passes r)
  | F_elapsed_dummy_ticks =>
      mkResult (_adjusted_ticks r) (_elapsed_ticks r) (elapsed_dummy_ticks l)
        (_warning r) (_bytes_per_pass r) (_completed r) (_passes r)
  | F_warning =>
      mkResult (_adjusted_ticks r) (_elapsed_ticks r) (_elapsed_dummy_ticks r)
        (warning l) (_bytes_per_pass r) (_completed r) (_passes r)
  | F_bytes_per_pass =>
      mkResult (_adjusted_ticks r) (_elapsed_ticks r) (_elapsed_dummy_ticks r)
        (_warning r) (bytes_per_pass l) (_completed r) (_passes r)
  | F_completed =>
      mkResult (_adjusted_ticks r) (_elapsed_ticks r) (_elapsed_dummy_ticks r)
        (_warning r) (_bytes_per_pass r) true (_passes r)
  | F_passes =>
      mkResult (_adjusted_ticks r) (_elapsed_ticks r) (_elapsed_dummy_ticks r)
        (_warning r) (_bytes_per_pass r) (_completed r) (passes l)
  end.

(** A store to one result member, from the variable of the same name. *)
Definition store (f : Field) (s : State) : State :=
  log (EvStore f) (set_res (stored f (loc s) (res s)) s).

(** Lines 197-206, in the order of the source. *)
Definition update_object_state (s : State) : State :=
  let a := _acquireLock E (-1) (mach s) in
  let s := log (EvAcquireLock (fst a)) (set_mach (snd a) s) in
  if fst a then
    let s := store F_adjusted_ticks s in
    let s := store F_elapsed_ticks s in
    let s := store F_elapsed_dummy_ticks s in
    let s := store F_warning s in
    let s := store F_bytes_per_pass s in
    let s := store F_completed s in
    let s := store F_passes s in
    log EvReleaseLock (set_mach (_releaseLock E (mach s)) s)
  else s.

(** Lines 97-134: what [run] does before the benchmark. *)
Definition prologue (s : State) : State :=
  prime_memory
    (increase_scheduling_priority
       (set_processor_affinity (controller_writes (snapshot s)))).

(** Lines 177-206: what [run] does after the benchmark. *)
Definition epilogue (s : State) : State :=
  update_object_state
    (revert_thread_priority
       (unset_processor_affinity (warn_if_fishy (subtract_overhead s)))).

(** [LatencyWorker::run], on a machine [m] and a worker object
    [(c, r)]. *)
Definition run (fuel : nat) (m : Machine) (c : WorkerConfig) (r : WorkerResult)
  : outcome State :=
  s <- run_benchmark fuel (prologue (mkSt m c r declarations [])) ;;
  Ret (epilogue s).

End Run.

(** The same environment, the controller writing [ctl] instead. *)
Definition with_controller {Machine : Type}
    (ctl : WorkerConfig -> WorkerConfig) (E : Env Machine) : Env Machine :=
  mkEnv Machine (mode E) (g_ticks_per_sec E) (BENCHMARK_DURATION_SEC E)
    (MIN_ELAPSED_TICKS E) (LATENCY_BENCHMARK_UNROLL_LENGTH E)
    (size_mem_array E) (size_len E) (_acquireLock E) (_releaseLock E)
    (lock_thread_to_cpu E) (unlock_thread_to_numa_node E)
    (boostSchedulingPriority E) (revertSchedulingPriority E)
    (forwSequentialRead_Word64 E) (start_timer E) (stop_timer E) (invoke E)
    ctl.

(** A state of the run, the shared configuration apart. *)
Definition apart_from_cfg {Machine : Type} (s : St Machine)
  : Machine * WorkerResult * Locals * list Event :=
  (mach s, res s, loc s, trace s).

(** ** Reading a trace *)

Definition is_prime (e : Event) : bool :=
  match e with EvPrime _ _ => true | _ => false end.

Definition is_timer (e : Event) : bool :=
  match e with EvStartTimer _ | EvStopTimer _ => true | _ => false end.

Definition is_store (e : Event) : bool :=
  match e with EvStore _ => true | _ => false end.




Definition is_call (role : Role) (e : Event) : bool :=
  match e, role with
  | EvKernel RealKernel _ _ _, RealKernel => true
  | EvKernel DummyKernel _ _ _, DummyKernel => true
  | _, _ => false
  end.

Definition count (f : Event -> bool) (tr : list Event) : nat :=
  length (filter f tr).

(** The outcomes of the attempts to take the lock, in order. *)
Fixpoint acquisitions (tr : list Event) : list bool :=
  match tr with
  | [] => []
  | EvAcquireLock ok :: tr' => ok :: acquisitions tr'
  | _ :: tr' => acquisitions tr'
  end.

(** The outcome of the second attempt to take the lock, the one of the
    publication. *)
Definition lock_at_publication (tr : list Event) : option bool :=
  nth_error (acquisitions tr) 1.

(** A measured interval: what lies between a read of the timer by
    [start_timer] and the next read by [stop_timer].  While the interval is
    open [ticks] holds the start tick, once closed the ticks elapsed. *)
Record Interval : Set := mkInterval {
  ticks : Z;
  real_calls : nat;
  dummy_calls : nat;
  priming_reads : nat
}.

Definition within (e : Event) (i : Interval) : Interval :=
  match e with
  | EvKernel RealKernel _ _ _ =>
      mkInterval (ticks i) (S (real_calls i)) (dummy_calls i) (priming_reads i)
  | EvKernel DummyKernel _ _ _ =>
      mkInterval (ticks i) (real_calls i) (S (dummy_calls i)) (priming_reads i)
  | EvPrime _ _ =>
      mkInterval (ticks i) (real_calls i) (dummy_calls i) (S (priming_reads i))
  | _ => i
  end.

Definition close (t : Z) (i : Interval) : Interval :=
  mkInterval (sub64 t (ticks i)) (real_calls i) (dummy_calls i)
    (priming_reads i).

(** The measured intervals of a trace, [cur] being the interval open at its
    beginning, if any. *)
Fixpoint measured (cur : option Interval) (tr : list Event) : list Interval :=
  match tr with
  | [] => []
  | EvStartTimer t :: tr' => measured (Some (mkInterval t 0 0 0)) tr'
  | EvStopTimer t :: tr' =>
      match cur with
      | Some i => close t i :: measured None tr'
      | None => measured None tr'
      end
  | e :: tr' => measured (option_map (within e) cur) tr'
  end.

(** The interval left open at the end of a trace. *)
Fixpoint still_open (cur : option Interval) (tr : list Event)
  : option Interval :=
  match tr with
  | [] => cur
  | EvStartTimer t :: tr' => still_open (Some (mkInterval t 0 0 0)) tr'
  | EvStopTimer t :: tr' => still_open None tr'
  | e :: tr' => still_open (option_map (within e) cur) tr'
  end.

(** [n] more calls of a kernel within an interval. *)
Definition calls_in (role : Role) (n : nat) (i : Interval) : Interval :=
  match role with
  | RealKernel =>
      mkInterval (ticks i) (n + real_calls i) (dummy_calls i) (priming_reads i)
  | DummyKernel =>
      mkInterval (ticks i) (real_calls i) (n + dummy_calls i) (priming_reads i)
  end.

(** A batch of a time-based build, as an interval. *)
Definition batch_of (role : Role) (d : Z) : Interval :=
  match role with
  | RealKernel => mkInterval d 256 0 0
  | DummyKernel => mkInterval d 0 256 0
  end.

Definition total (ds : list Z) : Z := fold_right Z.add 0 ds.

(** The events of lines 197-206 when the lock is obtained. *)
Definition publication : list Event :=
  [EvAcquireLock true; EvStore F_adjusted_ticks; EvStore F_elapsed_ticks;
   EvStore F_elapsed_dummy_ticks; EvStore F_warning; EvStore F_bytes_per_pass;
   EvStore F_completed; EvStore F_passes; EvReleaseLock].

(** The events of lines 98-127, given the outcomes of the three calls. *)
Definition before_priming (ok pinned boosted : bool) (cpu : Z) : list Event :=
  (EvAcquireLock ok :: if ok then [EvReleaseLock] else [])
  ++ (EvLockThreadToCpu cpu pinned
        :: if pinned then [] else [EvCerr (FailedToLockThread cpu)])
  ++ (EvBoostPriority boosted
        :: if boosted then [] else [EvCerr FailedToBoostPriority]).

(** The events of lines 184-206, given whether the thread was pinned and
    the outcomes of the two calls. *)
Definition after_benchmark (pinned reverted ok : bool) : list Event :=
  (if pinned then [EvUnlockThread] else [])
  ++ (EvRevertPriority reverted
        :: if reverted then [] else [EvCerr FailedToRevertPriority])
  ++ (if ok then publication else [EvAcquireLock false]).

(** Events of the benchmark proper: timer reads and kernel calls. *)
Definition is_measurement (e : Event) : bool :=
  match e with
  | EvStartTimer _ | EvStopTimer _ | EvKernel _ _ _ _ => true
  | _ => false
  end.

(** The variables the benchmark does not assign. *)
Definition setup (l : Locals) :=
  (cpu_affinity l, kernel_fptr l, kernel_dummy_fptr l, bytes_per_pass l,
   mem_array l, len l, target_ticks l, locked l, warning l, adjusted_ticks l).

Definition in_range (z : Z) : Prop := 0 <= z < 2 ^ 64.

Definition ranged (l : Locals) : Prop :=
  in_range (elapsed_ticks l) /\ in_range (elapsed_dummy_ticks l).

(** [s'] is reached from [s] by timer reads, kernel calls and assignments
    to the loop variables only. *)
Definition measures {Machine : Type} (s s' : St Machine) : Prop :=
  exists seg,
    trace s' = trace s ++ seg
    /\ Forall (fun e => is_measurement e = true) seg
    /\ cfg s' = cfg s
    /\ res s' = res s
    /\ setup (loc s') = setup (loc s)
    /\ (ranged (loc s) -> ranged (loc s')).

(** A sequence of whole batches of a time-based build, with the ticks each
    one took. *)
Inductive batches (role : Role) : list Event -> list Z -> Prop :=
| batches_nil : batches role [] []
| batches_snoc seg ds t0 calls t1 :
    batches role seg ds ->
    length calls = 256%nat ->
    Forall (fun e => is_call role e = true) calls ->
    batches role (seg ++ EvStartTimer t0 :: calls ++ [EvStopTimer t1])
      (ds ++ [sub64 t1 t0]).

(** ** A synthetic machine *)

(** A machine with deterministic costs, for running the model: a tick
    counter, and the outcomes of the attempts to take the lock still to
    come (an attempt succeeds when the list is exhausted). *)
Record Sim : Set := mkSim {
  clock : Z;
  lock_outcomes : list bool
}.

Definition tick (d : Z) (m : Sim) : Sim :=
  mkSim (clock m + d) (lock_outcomes m).

Definition sim_acquire (m : Sim) : bool * Sim :=
  match lock_outcomes m with
  | [] => (true, m)
  | ok :: rest => (ok, mkSim (clock m) rest)
  end.

(** [cost fptr address] is what one call of the kernel at [fptr] costs,
    [chase fptr address] the chain pointer it stores; a read of the timer
    by [start_timer] costs [timer_cost], a priming read one tick.  The
    unroll length is 512, and the names [mem_array] and [len] of a
    size-based build denote the region [4096, 4096 + 1024). *)
Definition sim_env (md : Mode) (tps duration min_ticks : Z)
    (pin boost revert : bool) (cost chase : Z -> Z -> Z) (timer_cost : Z)
    (ctl : WorkerConfig -> WorkerConfig) : Env Sim :=
  mkEnv Sim md tps duration min_ticks 512 4096 1024
    (fun _ m => sim_acquire m)
    (fun m => m)
    (fun _ m => (pin, m))
    (fun m => m)
    (fun m => (boost, m))
    (fun m => (revert, m))
    (fun _ _ m => tick 1 m)
    (fun m => (clock m, tick timer_cost m))
    (fun m => (clock m, m))
    (fun fptr address _ m => (chase fptr address, tick (cost fptr address) m))
    ctl.

Definition no_writes (c : WorkerConfig) : WorkerConfig := c.

Definition blank : WorkerResult := mkResult 0 0 0 false 0 false 0.

(** ** Scenarios on the synthetic machine *)

(** A worker on the region [4096, 4096 + 1024), 10 passes per iteration,
    CPU 3, the real kernel at address 1 and the dummy kernel at address 2.
    The real kernel advances the chain pointer by one word, the dummy
    kernel leaves it. *)
Definition demo_config : WorkerConfig := mkConfig 4096 1024 10 3 1 2.

Definition demo_chase (fptr address : Z) : Z :=
  if fptr =? 1 then address + 8 else address.

Definition flat_cost (real dummy : Z) (fptr address : Z) : Z :=
  if fptr =? 1 then real else dummy.

(** A time-based build calibrated at 1000 ticks per second, 4 seconds. *)
Definition time_env (pin : bool) (real dummy timer_cost : Z) : Env Sim :=
  sim_env USE_TIME_BASED_BENCHMARKS 1000 4 500 pin true true
    (flat_cost real dummy) demo_chase timer_cost no_writes.

(** A size-based build, the controller writing [ctl] during the run. *)
Definition size_env (cost : Z -> Z -> Z)
    (ctl : WorkerConfig -> WorkerConfig) : Env Sim :=
  sim_env USE_SIZE_BASED_BENCHMARKS 1000 4 500 true true true
    cost demo_chase 0 ctl.

(** The controller moves the region while the worker runs. *)
Definition move_region (c : WorkerConfig) : WorkerConfig :=
  mkConfig 8192 (_len c) (_passes_per_iteration c) (_cpu_affinity c)
    (__kernel_fptr c) (__kernel_dummy_fptr c).

(** A dummy kernel whose cost depends on where it is started. *)
Definition placed_cost (fptr address : Z) : Z :=
  if fptr =? 1 then 1000 else if address =? 4096 then 100 else 700.

(** The kernel pointer a call site uses. *)
Definition role_fptr (role : Role) (l : Locals) : Z :=
  match role with
  | RealKernel => kernel_fptr l
  | DummyKernel => kernel_dummy_fptr l
  end.

(** The length a build passes to the kernels: 0 at lines 142 and 152, what
    [len] denotes at lines 164 and 172. *)
Definition length_argument (md : Mode) (l : Locals) : Z :=
  match md with
  | USE_TIME_BASED_BENCHMARKS => 0
  | USE_SIZE_BASED_BENCHMARKS => len l
  end.

(** A kernel call made through [fr] or [fd], according to its role, that
    pointer not being [NULL], with [n] as its length. *)
Definition called_with (fr fd n : Z) (e : Event) : Prop :=
  match e with
  | EvKernel role fptr _ length =>
      fptr = match role with RealKernel => fr | DummyKernel => fd end
      /\ fptr <> 0 /\ length = n
  | _ => True
  end.

(** The calls [s'] has made since [s] went through the pointers and with
    the length that [s] holds. *)
Definition calls_of {Machine : Type} (n : Locals -> Z) (s s' : St Machine)
  : Prop :=
  exists seg,
    trace s' = trace s ++ seg
    /\ Forall (called_with (kernel_fptr (loc s)) (kernel_dummy_fptr (loc s))
                 (n (loc s))) seg.

(** ** Best-effort steps and the lock, in a trace *)

(** A best-effort step and, when it fails, the warning printed after it. *)
Definition attempt (e : Event) (msg : CerrMsg) (ok : bool) : list Event :=
  e :: if ok then [] else [EvCerr msg].

(** The calls to the affinity and priority primitives, and the warnings. *)
Definition is_step (e : Event) : bool :=
  match e with
  | EvLockThreadToCpu _ _ | EvBoostPriority _ | EvRevertPriority _
  | EvCerr _ => true
  | _ => false
  end.



(** * Properties *)

(** ** Arithmetic *)

Lemma wrap64_range (z : Z) : in_range (wrap64 z).
Proof. unfold in_range, wrap64. apply Z.mod_pos_bound. lia. Qed.

Lemma wrap64_small (z : Z) : in_range z -> wrap64 z = z.
Proof. unfold in_range, wrap64. intros H. apply Z.mod_small. exact H. Qed.

Lemma wrap64_add_l (a b : Z) : wrap64 (wrap64 a + b) = wrap64 (a + b).
Proof. unfold wrap64. apply Zplus_mod_idemp_l. Qed.

Lemma wrap64_add_r (a b : Z) : wrap64 (a + wrap64 b) = wrap64 (a + b).
Proof. unfold wrap64. apply Zplus_mod_idemp_r. Qed.

Lemma sub64_exact (a b : Z) :
  in_range a -> in_range b -> b <= a -> sub64 a b = a - b.
Proof.
  unfold in_range, sub64. intros Ha Hb Hle. apply wrap64_small.
  unfold in_range. lia.
Qed.

Lemma wrap64_mul256_mod (n : Z) : wrap64 (256 * n) mod 256 = 0.
Proof.
  unfold wrap64.
  replace (2 ^ 64) with (256 * 2 ^ 56) by reflexivity.
  rewrite Zmult_mod_distr_l.
  rewrite Z.mul_comm. apply Z_mod_mult.
Qed.

Lemma to_double_exact (n : Z) : n <= 2 ^ 53 -> to_double n = n.
Proof.
  intros H. unfold to_double.
  destruct (n <? 2 ^ 53) eqn:Hlt; [reflexivity|].
  apply Z.ltb_ge in Hlt. assert (n = 2 ^ 53) by lia. subst n. reflexivity.
Qed.

Lemma lt_half_double_exact (a e : Z) :
  a <= e -> e <= 2 ^ 53 -> (lt_half_double a e = true <-> 2 * a < e).
Proof.
  intros Ha He. unfold lt_half_double.
  rewrite !to_double_exact by lia. apply Z.ltb_lt.
Qed.

(** ** Outcomes *)

Lemma bind_Ret {A B : Type} (o : outcome A) (k : A -> outcome B) (b : B) :
  bind o k = Ret b -> exists a, o = Ret a /\ k a = Ret b.
Proof.
  destruct o as [a| |]; simpl; intros H; try discriminate.
  exists a. split; [reflexivity|exact H].
Qed.

(** ** The benchmark only measures *)

Lemma setup_eq (l l' : Locals) :
  setup l' = setup l ->
  cpu_affinity l' = cpu_affinity l
  /\ mem_array l' = mem_array l
  /\ len l' = len l
  /\ target_ticks l' = target_ticks l
  /\ locked l' = locked l
  /\ warning l' = warning l
  /\ kernel_fptr l' = kernel_fptr l
  /\ kernel_dummy_fptr l' = kernel_dummy_fptr l.
Proof. unfold setup. intros H. inversion H. repeat split; assumption. Qed.

Section Measures.

Context {Machine : Type}.
Variable E : Env Machine.

Local Abbreviation State := (St Machine).

Lemma measures_refl (s : State) : measures s s.
Proof.
  exists []. rewrite app_nil_r. split; [reflexivity|].
  split; [constructor|]. tauto.
Qed.

Lemma measures_trans (s1 s2 s3 : State) :
  measures s1 s2 -> measures s2 s3 -> measures s1 s3.
Proof.
  intros (g1 & T1 & F1 & C1 & R1 & S1 & G1) (g2 & T2 & F2 & C2 & R2 & S2 & G2).
  exists (g1 ++ g2).
  split; [rewrite T2, T1, app_assoc; reflexivity|].
  split; [apply Forall_app; split; assumption|].
  split; [congruence|]. split; [congruence|]. split; [congruence|].
  intros H. apply G2, G1, H.
Qed.

Lemma measures_assign (f : Locals -> Locals) (s : State) :
  setup (f (loc s)) = setup (loc s) ->
  (ranged (loc s) -> ranged (f (loc s))) ->
  measures s (assign f s).
Proof.
  intros Hs Hr. exists []. simpl. rewrite app_nil_r.
  split; [reflexivity|]. split; [constructor|]. tauto.
Qed.

Lemma measures_start (s : State) : measures s (read_start_timer E s).
Proof.
  unfold read_start_timer.
  exists [EvStartTimer (wrap64 (fst (start_timer E (mach s))))].
  simpl. split; [reflexivity|].
  split; [constructor; [reflexivity|constructor]|]. tauto.
Qed.

Lemma measures_stop (s : State) : measures s (read_stop_timer E s).
Proof.
  unfold read_stop_timer.
  exists [EvStopTimer (wrap64 (fst (stop_timer E (mach s))))].
  simpl. split; [reflexivity|].
  split; [constructor; [reflexivity|constructor]|]. tauto.
Qed.

Lemma measures_call (role : Role) (fptr length : Z) (s s' : State) :
  call_kernel E role fptr length s = Ret s' -> measures s s'.
Proof.
  unfold call_kernel. destruct (fptr =? 0); [discriminate|].
  intros H. injection H as <-.
  exists [EvKernel role fptr (next_address (loc s)) length].
  simpl. split; [reflexivity|].
  split; [constructor; [reflexivity|constructor]|]. tauto.
Qed.

Lemma measures_unroll (stmt : State -> outcome State) :
  (forall s s', stmt s = Ret s' -> measures s s') ->
  forall n s s', unroll n stmt s = Ret s' -> measures s s'.
Proof.
  intros Hstmt. induction n as [|n IH]; simpl; intros s s' H.
  - injection H as <-. apply measures_refl.
  - apply bind_Ret in H. destruct H as (s1 & H1 & H2).
    eapply measures_trans; [apply Hstmt; exact H1 | apply IH; exact H2].
Qed.

(** Peels the straight-line steps off the end of the reached state. *)
Ltac peel :=
  repeat match goal with
  | |- measures ?s ?s => apply measures_refl
  | |- measures _ (assign ?f ?t) =>
      apply (measures_trans _ t);
      [| apply (measures_assign f t);
         [reflexivity
         | unfold ranged; simpl; intros [? ?]; split;
           solve [assumption | apply wrap64_range] ] ]
  | |- measures _ (read_start_timer _ ?t) =>
      apply (measures_trans _ t); [| apply measures_start]
  | |- measures _ (read_stop_timer _ ?t) =>
      apply (measures_trans _ t); [| apply measures_stop]
  end.

Lemma measures_real_batch (s s' : State) :
  real_batch E s = Ret s' -> measures s s'.
Proof.
  unfold real_batch. intros H. apply bind_Ret in H.
  destruct H as (s1 & H1 & H2). injection H2 as <-. peel.
  apply (measures_trans _ (read_start_timer E s)); [peel|].
  eapply measures_unroll; [|exact H1].
  intros a b. apply measures_call.
Qed.

Lemma measures_dummy_batch (s s' : State) :
  dummy_batch E s = Ret s' -> measures s s'.
Proof.
  unfold dummy_batch. intros H. apply bind_Ret in H.
  destruct H as (s1 & H1 & H2). injection H2 as <-. peel.
  apply (measures_trans _ (read_start_timer E s)); [peel|].
  eapply measures_unroll; [|exact H1].
  intros a b. apply measures_call.
Qed.

Lemma measures_real_loop (fuel : nat) :
  forall s s' : State, real_loop E fuel s = Ret s' -> measures s s'.
Proof.
  induction fuel as [|fuel IH]; simpl; intros s s' H;
    destruct (elapsed_ticks (loc s) <? target_ticks (loc s));
    try discriminate; try (injection H as <-; apply measures_refl).
  apply bind_Ret in H. destruct H as (s1 & H1 & H2).
  eapply measures_trans;
    [apply measures_real_batch; exact H1 | apply IH; exact H2].
Qed.

Lemma measures_dummy_loop (fuel : nat) :
  forall s s' : State, dummy_loop E fuel s = Ret s' -> measures s s'.
Proof.
  induction fuel as [|fuel IH]; simpl; intros s s' H;
    destruct (p (loc s) <? passes (loc s));
    try discriminate; try (injection H as <-; apply measures_refl).
  apply bind_Ret in H. destruct H as (s1 & H1 & H2).
  eapply measures_trans;
    [apply measures_dummy_batch; exact H1 | apply IH; exact H2].
Qed.

Lemma measures_for_passes (role : Role) (fuel : nat) :
  forall s s' : State, for_passes E fuel role s = Ret s' -> measures s s'.
Proof.
  induction fuel as [|fuel IH]; simpl; intros s s' H;
    destruct (p (loc s) <? passes (loc s));
    try discriminate; try (injection H as <-; apply measures_refl).
  apply bind_Ret in H. destruct H as (s1 & H1 & H2).
  eapply measures_trans; [eapply measures_call; exact H1|].
  eapply measures_trans; [|apply IH; exact H2]. peel.
Qed.

Lemma measures_time_based (fuel : nat) (s s' : State) :
  time_based_benchmark E fuel s = Ret s' -> measures s s'.
Proof.
  unfold time_based_benchmark. intros H. apply bind_Ret in H.
  destruct H as (s1 & H1 & H2).
  eapply measures_trans; [|eapply measures_dummy_loop; exact H2]. peel.
  eapply measures_trans; [|eapply measures_real_loop; exact H1]. peel.
Qed.

Lemma measures_size_based (fuel : nat) (s s' : State) :
  size_based_benchmark E fuel s = Ret s' -> measures s s'.
Proof.
  unfold size_based_benchmark. intros H. apply bind_Ret in H.
  destruct H as (s1 & H1 & H). apply bind_Ret in H.
  destruct H as (s2 & H2 & H). injection H as <-. peel.
  eapply measures_trans; [|eapply measures_for_passes; exact H2]. peel.
  eapply measures_trans; [|eapply measures_for_passes; exact H1]. peel.
Qed.

Lemma measures_run_benchmark (fuel : nat) (s s' : State) :
  run_benchmark E fuel s = Ret s' -> measures s s'.
Proof.
  unfold run_benchmark. destruct (mode E).
  - apply measures_time_based.
  - apply measures_size_based.
Qed.

End Measures.

(** ** The lock *)

Lemma acquisitions_app (a b : list Event) :
  acquisitions (a ++ b) = acquisitions a ++ acquisitions b.
Proof.
  induction a as [|e a IH]; [reflexivity|].
  destruct e; simpl; rewrite IH; reflexivity.
Qed.

Lemma acquisitions_measurement (a : list Event) :
  Forall (fun e => is_measurement e = true) a -> acquisitions a = [].
Proof.
  induction 1 as [|e a He _ IH]; [reflexivity|].
  destruct e; try discriminate He; exact IH.
Qed.

(** ** Before and after the benchmark *)

Section Phases.

Context {Machine : Type}.
Variable E : Env Machine.

Local Abbreviation State := (St Machine).

Lemma snapshot_spec (s : State) :
  let ok := fst (_acquireLock E (-1) (mach s)) in
  trace (snapshot E s)
  = trace s ++ (EvAcquireLock ok :: if ok then [EvReleaseLock] else [])
  /\ loc (snapshot E s) = (if ok then copy_config E (cfg s) (loc s) else loc s)
  /\ res (snapshot E s) = res s
  /\ cfg (snapshot E s) = cfg s.
Proof.
  unfold snapshot. destruct (fst (_acquireLock E (-1) (mach s))); simpl.
  - rewrite <- app_assoc. auto.
  - auto.
Qed.

Lemma controller_writes_spec (s : State) :
  trace (controller_writes E s) = trace s
  /\ loc (controller_writes E s) = loc s
  /\ res (controller_writes E s) = res s
  /\ cfg (controller_writes E s) = controller E (cfg s).
Proof. unfold controller_writes. simpl. auto. Qed.

Lemma set_processor_affinity_spec (s : State) :
  let cpu := cpu_affinity (loc s) in
  let pinned := fst (lock_thread_to_cpu E cpu (mach s)) in
  trace (set_processor_affinity E s)
  = trace s ++ (EvLockThreadToCpu cpu pinned
                  :: if pinned then [] else [EvCerr (FailedToLockThread cpu)])
  /\ loc (set_processor_affinity E s) = set_locked pinned (loc s)
  /\ res (set_processor_affinity E s) = res s
  /\ cfg (set_processor_affinity E s) = cfg s.
Proof.
  unfold set_processor_affinity.
  destruct (fst (lock_thread_to_cpu E (cpu_affinity (loc s)) (mach s))); simpl.
  - auto.
  - rewrite <- app_assoc. auto.
Qed.

Lemma increase_scheduling_priority_spec (s : State) :
  let boosted := fst (boostSchedulingPriority E (mach s)) in
  trace (increase_scheduling_priority E s)
  = trace s ++ (EvBoostPriority boosted
                  :: if boosted then [] else [EvCerr FailedToBoostPriority])
  /\ loc (increase_scheduling_priority E s) = loc s
  /\ res (increase_scheduling_priority E s) = res s
  /\ cfg (increase_scheduling_priority E s) = cfg s.
Proof.
  unfold increase_scheduling_priority.
  destruct (fst (boostSchedulingPriority E (mach s))); simpl.
  - auto.
  - rewrite <- app_assoc. auto.
Qed.

Lemma prime_pass_spec (s : State) :
  trace (prime_pass E s)
  = trace s ++ [EvPrime (mem_array (loc s))
                  (add64 (mem_array (loc s)) (len (loc s)))]
  /\ loc (prime_pass E s) = loc s
  /\ res (prime_pass E s) = res s
  /\ cfg (prime_pass E s) = cfg s.
Proof. unfold prime_pass. simpl. auto. Qed.

Lemma prime_memory_spec (s : State) :
  trace (prime_memory E s)
  = trace s ++ repeat (EvPrime (mem_array (loc s))
                         (add64 (mem_array (loc s)) (len (loc s)))) 4
  /\ loc (prime_memory E s) = loc s
  /\ res (prime_memory E s) = res s
  /\ cfg (prime_memory E s) = cfg s.
Proof.
  unfold prime_memory.
  set (s1 := prime_pass E s).
  set (s2 := prime_pass E s1).
  set (s3 := prime_pass E s2).
  destruct (prime_pass_spec s) as (T1 & L1 & R1 & C1).
  fold s1 in T1, L1, R1, C1.
  destruct (prime_pass_spec s1) as (T2 & L2 & R2 & C2).
  fold s2 in T2, L2, R2, C2.
  destruct (prime_pass_spec s2) as (T3 & L3 & R3 & C3).
  fold s3 in T3, L3, R3, C3.
  destruct (prime_pass_spec s3) as (T4 & L4 & R4 & C4).
  rewrite T4, T3, T2, T1, L4, R4, C4, L3, R3, C3, L2, R2, C2, L1, R1, C1.
  rewrite <- !app_assoc. simpl. auto.
Qed.

(** The prologue: the snapshot, the pinning, the boost, then four priming
    reads of the region held in [mem_array] and [len]. *)
Lemma prologue_spec (s : State) :
  exists ok pinned boosted,
    ok = fst (_acquireLock E (-1) (mach s))
    /\ loc (prologue E s)
       = set_locked pinned
           (if ok then copy_config E (cfg s) (loc s) else loc s)
    /\ trace (prologue E s)
       = trace s
         ++ before_priming ok pinned boosted (cpu_affinity (loc (prologue E s)))
         ++ repeat (EvPrime (mem_array (loc (prologue E s)))
                      (add64 (mem_array (loc (prologue E s)))
                         (len (loc (prologue E s))))) 4
    /\ res (prologue E s) = res s
    /\ cfg (prologue E s) = controller E (cfg s).
Proof.
  unfold prologue.
  set (s1 := snapshot E s).
  set (s2 := controller_writes E s1).
  set (s3 := set_processor_affinity E s2).
  set (s4 := increase_scheduling_priority E s3).
  destruct (snapshot_spec s) as (T1 & L1 & R1 & C1).
  fold s1 in T1, L1, R1, C1.
  destruct (controller_writes_spec s1) as (T2 & L2 & R2 & C2).
  fold s2 in T2, L2, R2, C2.
  destruct (set_processor_affinity_spec s2) as (T3 & L3 & R3 & C3).
  fold s3 in T3, L3, R3, C3.
  destruct (increase_scheduling_priority_spec s3) as (T4 & L4 & R4 & C4).
  fold s4 in T4, L4, R4, C4.
  destruct (prime_memory_spec s4) as (T5 & L5 & R5 & C5).
  exists (fst (_acquireLock E (-1) (mach s))),
    (fst (lock_thread_to_cpu E (cpu_affinity (loc s2)) (mach s2))),
    (fst (boostSchedulingPriority E (mach s3))).
  split; [reflexivity|].
  split; [rewrite L5, L4, L3, L2, L1; reflexivity|].
  split.
  - rewrite T5, T4, T3, T2, T1, L5, L4, L3. unfold before_priming.
    rewrite <- !app_assoc. reflexivity.
  - split; [congruence|]. rewrite C5, C4, C3, C2, C1. reflexivity.
Qed.

Lemma subtract_overhead_spec (s : State) :
  trace (subtract_overhead s) = trace s
  /\ loc (subtract_overhead s)
     = set_adjusted_ticks
         (sub64 (elapsed_ticks (loc s)) (elapsed_dummy_ticks (loc s))) (loc s)
  /\ res (subtract_overhead s) = res s.
Proof. unfold subtract_overhead. simpl. auto. Qed.

Lemma warn_if_fishy_spec (s : State) :
  trace (warn_if_fishy E s) = trace s
  /\ loc (warn_if_fishy E s)
     = set_warning (warning (loc s) || looks_fishy E (loc s)) (loc s)
  /\ res (warn_if_fishy E s) = res s.
Proof.
  unfold warn_if_fishy. destruct (looks_fishy E (loc s)); simpl.
  - rewrite orb_true_r. auto.
  - rewrite orb_false_r. destruct (loc s); auto.
Qed.

Lemma unset_processor_affinity_spec (s : State) :
  trace (unset_processor_affinity E s)
  = trace s ++ (if locked (loc s) then [EvUnlockThread] else [])
  /\ loc (unset_processor_affinity E s) = loc s
  /\ res (unset_processor_affinity E s) = res s.
Proof.
  unfold unset_processor_affinity. destruct (locked (loc s)); simpl.
  - auto.
  - rewrite app_nil_r. auto.
Qed.

Lemma revert_thread_priority_spec (s : State) :
  let reverted := fst (revertSchedulingPriority E (mach s)) in
  trace (revert_thread_priority E s)
  = trace s ++ (EvRevertPriority reverted
                  :: if reverted then [] else [EvCerr FailedToRevertPriority])
  /\ loc (revert_thread_priority E s) = loc s
  /\ res (revert_thread_priority E s) = res s.
Proof.
  unfold revert_thread_priority.
  destruct (fst (revertSchedulingPriority E (mach s))); simpl.
  - auto.
  - rewrite <- app_assoc. auto.
Qed.

Lemma update_object_state_spec (s : State) :
  let ok := fst (_acquireLock E (-1) (mach s)) in
  trace (update_object_state E s)
  = trace s ++ (if ok then publication else [EvAcquireLock false])
  /\ loc (update_object_state E s) = loc s
  /\ res (update_object_state E s)
     = (if ok
        then mkResult (adjusted_ticks (loc s)) (elapsed_ticks (loc s))
               (elapsed_dummy_ticks (loc s)) (warning (loc s))
               (bytes_per_pass (loc s)) true (passes (loc s))
        else res s).
Proof.
  unfold update_object_state.
  destruct (fst (_acquireLock E (-1) (mach s))); simpl.
  - rewrite <- !app_assoc. auto.
  - auto.
Qed.

(** The epilogue: the subtraction, the warning, the release of the pin when
    there is one, the revert, the publication. *)
Lemma epilogue_spec (s : State) :
  exists reverted ok,
    loc (epilogue E s)
    = (let l := set_adjusted_ticks
                  (sub64 (elapsed_ticks (loc s)) (elapsed_dummy_ticks (loc s)))
                  (loc s) in
       set_warning (warning l || looks_fishy E l) l)
    /\ trace (epilogue E s)
       = trace s ++ after_benchmark (locked (loc s)) reverted ok
    /\ res (epilogue E s)
       = (if ok
          then mkResult (adjusted_ticks (loc (epilogue E s)))
                 (elapsed_ticks (loc (epilogue E s)))
                 (elapsed_dummy_ticks (loc (epilogue E s)))
                 (warning (loc (epilogue E s)))
                 (bytes_per_pass (loc (epilogue E s))) true
                 (passes (loc (epilogue E s)))
          else res s).
Proof.
  unfold epilogue.
  set (s1 := subtract_overhead s).
  set (s2 := warn_if_fishy E s1).
  set (s3 := unset_processor_affinity E s2).
  set (s4 := revert_thread_priority E s3).
  destruct (subtract_overhead_spec s) as (T1 & L1 & R1).
  fold s1 in T1, L1, R1.
  destruct (warn_if_fishy_spec s1) as (T2 & L2 & R2). fold s2 in T2, L2, R2.
  destruct (unset_processor_affinity_spec s2) as (T3 & L3 & R3).
  fold s3 in T3, L3, R3.
  destruct (revert_thread_priority_spec s3) as (T4 & L4 & R4).
  fold s4 in T4, L4, R4.
  destruct (update_object_state_spec s4) as (T5 & L5 & R5).
  exists (fst (revertSchedulingPriority E (mach s3))),
    (fst (_acquireLock E (-1) (mach s4))).
  split; [rewrite L5, L4, L3, L2, L1; reflexivity|].
  split.
  - rewrite T5, T4, T3, T2, T1, L2, L1. unfold after_benchmark.
    rewrite <- !app_assoc. reflexivity.
  - rewrite R5, L5, R4, R3, R2, R1. reflexivity.
Qed.

Lemma prologue_trace (s : State) :
  exists ok pinned boosted,
    trace (prologue E s)
    = trace s
      ++ before_priming ok pinned boosted (cpu_affinity (loc (prologue E s)))
      ++ repeat (EvPrime (mem_array (loc (prologue E s)))
                   (add64 (mem_array (loc (prologue E s)))
                      (len (loc (prologue E s))))) 4
    /\ ok = fst (_acquireLock E (-1) (mach s))
    /\ pinned = locked (loc (prologue E s)).
Proof.
  destruct (prologue_spec s) as (ok & pinned & boosted & Hok & L & T & _).
  exists ok, pinned, boosted. split; [exact T|]. split; [exact Hok|].
  rewrite L. reflexivity.
Qed.

(** What the prologue leaves in the variables and in the object. *)
Lemma prologue_state (s : State) :
  res (prologue E s) = res s
  /\ cfg (prologue E s) = controller E (cfg s)
  /\ elapsed_ticks (loc (prologue E s)) = elapsed_ticks (loc s)
  /\ elapsed_dummy_ticks (loc (prologue E s)) = elapsed_dummy_ticks (loc s)
  /\ p (loc (prologue E s)) = p (loc s)
  /\ target_ticks (loc (prologue E s)) = target_ticks (loc s)
  /\ warning (loc (prologue E s)) = warning (loc s)
  /\ (mode E = USE_TIME_BASED_BENCHMARKS ->
      passes (loc (prologue E s)) = passes (loc s))
  /\ (mode E = USE_SIZE_BASED_BENCHMARKS ->
      mem_array (loc (prologue E s)) = mem_array (loc s)
      /\ len (loc (prologue E s)) = len (loc s)).
Proof.
  destruct (prologue_spec s) as (ok & pinned & boosted & _ & L & _ & R & C).
  rewrite L, R, C. unfold copy_config.
  destruct ok, (mode E); simpl; repeat split; try reflexivity;
    intros; discriminate.
Qed.

(** The region primed is the one of the configuration, in a time-based
    build whose snapshot was taken. *)
Lemma prologue_region (s : State) :
  mode E = USE_TIME_BASED_BENCHMARKS ->
  fst (_acquireLock E (-1) (mach s)) = true ->
  mem_array (loc (prologue E s)) = _mem_array (cfg s)
  /\ len (loc (prologue E s)) = _len (cfg s).
Proof.
  intros Hm Hok.
  destruct (prologue_spec s) as (ok & pinned & boosted & Ho & L & _).
  rewrite L, Ho, Hok. unfold copy_config. rewrite Hm. split; reflexivity.
Qed.

Lemma epilogue_trace (s : State) :
  exists reverted ok,
    trace (epilogue E s)
    = trace s ++ after_benchmark (locked (loc s)) reverted ok
    /\ res (epilogue E s)
       = (if ok
          then mkResult (adjusted_ticks (loc (epilogue E s)))
                 (elapsed_ticks (loc (epilogue E s)))
                 (elapsed_dummy_ticks (loc (epilogue E s)))
                 (warning (loc (epilogue E s)))
                 (bytes_per_pass (loc (epilogue E s))) true
                 (passes (loc (epilogue E s)))
          else res s).
Proof.
  destruct (epilogue_spec s) as (reverted & ok & _ & T & R).
  exists reverted, ok. split; assumption.
Qed.

(** The variables at the end of [run]. *)
Lemma epilogue_locals (s : State) :
  let l := loc (epilogue E s) in
  adjusted_ticks l = sub64 (elapsed_ticks (loc s)) (elapsed_dummy_ticks (loc s))
  /\ warning l = (warning (loc s) || looks_fishy E l)%bool
  /\ elapsed_ticks l = elapsed_ticks (loc s)
  /\ elapsed_dummy_ticks l = elapsed_dummy_ticks (loc s)
  /\ passes l = passes (loc s)
  /\ p l = p (loc s)
  /\ target_ticks l = target_ticks (loc s)
  /\ mem_array l = mem_array (loc s)
  /\ len l = len (loc s)
  /\ locked l = locked (loc s)
  /\ cpu_affinity l = cpu_affinity (loc s).
Proof.
  destruct (epilogue_spec s) as (reverted & ok & L & _).
  cbv zeta in *. rewrite L. unfold looks_fishy. simpl.
  repeat split; reflexivity.
Qed.

Lemma declarations_zero :
  elapsed_ticks (declarations E) = 0
  /\ elapsed_dummy_ticks (declarations E) = 0
  /\ passes (declarations E) = 0
  /\ p (declarations E) = 0
  /\ warning (declarations E) = false.
Proof. unfold declarations. destruct (mode E); repeat split; reflexivity. Qed.

(** The anatomy of a run that returns: the prologue, the events of the
    benchmark, the epilogue, and what is left in the object. *)
Lemma run_anatomy (fuel : nat) (m : Machine) (c : WorkerConfig)
    (r : WorkerResult) (s' : State) :
  run E fuel m c r = Ret s' ->
  exists s0 s1 seg ok pinned boosted reverted ok2,
    s0 = prologue E (mkSt m c r (declarations E) [])
    /\ run_benchmark E fuel s0 = Ret s1
    /\ s' = epilogue E s1
    /\ trace s0
       = before_priming ok pinned boosted (cpu_affinity (loc s'))
         ++ repeat (EvPrime (mem_array (loc s'))
                      (add64 (mem_array (loc s')) (len (loc s')))) 4
    /\ trace s1 = trace s0 ++ seg
    /\ Forall (fun e => is_measurement e = true) seg
    /\ trace s' = trace s1 ++ after_benchmark pinned reverted ok2
    /\ ok = fst (_acquireLock E (-1) m)
    /\ pinned = locked (loc s')
    /\ res s'
       = (if ok2
          then mkResult (adjusted_ticks (loc s')) (elapsed_ticks (loc s'))
                 (elapsed_dummy_ticks (loc s')) (warning (loc s'))
                 (bytes_per_pass (loc s')) true (passes (loc s'))
          else r)
    /\ ranged (loc s')
    /\ adjusted_ticks (loc s')
       = sub64 (elapsed_ticks (loc s')) (elapsed_dummy_ticks (loc s'))
    /\ warning (loc s') = looks_fishy E (loc s')
    /\ acquisitions (trace s') = [ok; ok2].
Proof.
  unfold run. intros H. apply bind_Ret in H. destruct H as (s1 & H1 & H2).
  injection H2 as <-.
  set (s0 := prologue E (mkSt m c r (declarations E) [])) in *.
  destruct (measures_run_benchmark E fuel s0 s1 H1)
    as (seg & T1 & F1 & C1 & R1 & S1 & G1).
  destruct (prologue_trace (mkSt m c r (declarations E) []))
    as (ok & pinned & boosted & T0 & Hok & Hpin).
  cbv zeta in *.
  destruct (prologue_state (mkSt m c r (declarations E) []))
    as (R0 & _ & E0 & D0 & _ & _ & W0 & _).
  destruct (epilogue_trace s1) as (reverted & ok2 & T2 & R2).
  cbv zeta in *.
  destruct (epilogue_locals s1)
    as (A2 & W2 & E2 & D2 & P2 & _ & _ & M2 & L2 & K2 & U2).
  destruct declarations_zero as (Z1 & Z2 & _ & _ & Z5).
  fold s0 in T0, Hpin, R0, E0, D0, W0.
  cbn [trace res loc mach cfg app] in T0, R0, E0, D0, W0, Hok.
  destruct (setup_eq _ _ S1) as (S1a & S1e & S1f & _ & S1h & S1i & _).
  exists s0, s1, seg, ok, pinned, boosted, reverted, ok2.
  split; [reflexivity|]. split; [exact H1|]. split; [reflexivity|].
  split; [rewrite T0, M2, L2, U2, S1a, S1e, S1f; reflexivity|].
  split; [exact T1|]. split; [exact F1|].
  split; [rewrite T2, Hpin, S1h; reflexivity|].
  split; [exact Hok|]. split; [rewrite Hpin, K2, S1h; reflexivity|].
  split; [rewrite R2, R1, R0; reflexivity|].
  split.
  { unfold ranged. rewrite E2, D2. apply G1. unfold ranged, in_range.
    rewrite E0, D0, Z1, Z2. lia. }
  split; [rewrite A2, E2, D2; reflexivity|].
  split; [rewrite W2, S1i, W0, Z5; reflexivity|].
  rewrite T2, T1, T0, !acquisitions_app, (acquisitions_measurement seg F1).
  clear. destruct (locked (loc s1)), ok, pinned, boosted, reverted, ok2;
    reflexivity.
Qed.

End Phases.
(** ** Measured intervals of a trace *)

Lemma measured_app (a b : list Event) :
  forall cur, measured cur (a ++ b)
              = measured cur a ++ measured (still_open cur a) b.
Proof.
  induction a as [|e a IH]; intros cur; [reflexivity|].
  destruct e; simpl; try apply IH.
  destruct cur; simpl; rewrite IH; reflexivity.
Qed.

Lemma still_open_app (a b : list Event) :
  forall cur, still_open cur (a ++ b) = still_open (still_open cur a) b.
Proof.
  induction a as [|e a IH]; intros cur; [reflexivity|].
  destruct e; simpl; apply IH.
Qed.

(** Outside the benchmark no interval is opened. *)
Lemma measured_quiet (a : list Event) :
  Forall (fun e => is_timer e = false) a ->
  measured None a = [] /\ still_open None a = None.
Proof.
  induction 1 as [|e a He _ IH]; [split; reflexivity|].
  destruct e; simpl in *; try discriminate; exact IH.
Qed.

Lemma measured_calls (role : Role) (calls : list Event) (t1 : Z) :
  Forall (fun e => is_call role e = true) calls ->
  forall i,
    measured (Some i) (calls ++ [EvStopTimer t1])
    = [close t1 (calls_in role (length calls) i)]
    /\ still_open (Some i) (calls ++ [EvStopTimer t1]) = None.
Proof.
  induction 1 as [|e calls He _ IH]; intros i.
  - destruct role, i; split; reflexivity.
  - destruct e as [ | | | | | | | | | |r f a l| ];
      try (destruct role; discriminate He).
    destruct (IH (within (EvKernel r f a l) i)) as [M O].
    cbn [measured still_open option_map app]. rewrite M, O.
    split; [|reflexivity].
    destruct role, r; try discriminate He; destruct i; simpl;
      rewrite Nat.add_succ_r; reflexivity.
Qed.

Lemma count_app (f : Event -> bool) (a b : list Event) :
  count f (a ++ b) = (count f a + count f b)%nat.
Proof. unfold count. rewrite filter_app, length_app. reflexivity. Qed.

Lemma count_none (f : Event -> bool) (a : list Event) :
  Forall (fun e => f e = false) a -> count f a = 0%nat.
Proof.
  unfold count. induction 1 as [|e a He _ IH]; [reflexivity|].
  simpl. rewrite He. exact IH.
Qed.


Lemma total_snoc (ds : list Z) (d : Z) : total (ds ++ [d]) = total ds + d.
Proof.
  unfold total. induction ds as [|x ds IH]; simpl; [lia|]. rewrite IH. lia.
Qed.

(** Whole batches are measured whole: one interval of 256 calls each. *)
Lemma batches_measured (role : Role) (seg : list Event) (ds : list Z) :
  batches role seg ds ->
  measured None seg = map (batch_of role) ds /\ still_open None seg = None.
Proof.
  induction 1 as [|seg ds t0 calls t1 _ [IHm IHo] Hlen Hcalls].
  - split; reflexivity.
  - rewrite measured_app, still_open_app, IHm, IHo, map_app. simpl.
    destruct (measured_calls role calls t1 Hcalls (mkInterval t0 0 0 0))
      as [M O].
    rewrite M, O, Hlen. split; [|reflexivity].
    destruct role; reflexivity.
Qed.


Lemma batches_measurement (role : Role) (seg : list Event) (ds : list Z) :
  batches role seg ds -> Forall (fun e => is_measurement e = true) seg.
Proof.
  induction 1 as [|seg ds t0 calls t1 _ IH Hlen Hcalls]; [constructor|].
  apply Forall_app. split; [exact IH|]. constructor; [reflexivity|].
  apply Forall_app. split; [|repeat constructor].
  eapply Forall_impl; [|exact Hcalls]. intros e He.
  destruct e; try (destruct role; discriminate He). reflexivity.
Qed.

(** ** The loops of a time-based build *)

Section TimeBased.

Context {Machine : Type}.
Variable E : Env Machine.

Local Abbreviation State := (St Machine).

(** An unrolled sequence of calls makes that many calls, and assigns
    [next_address] only. *)
Lemma unroll_calls (role : Role) (fp : Locals -> Z) (length_arg : Z) :
  forall (n : nat) (s s' : State),
    unroll n (fun s => call_kernel E role (fp (loc s)) length_arg s) s
    = Ret s' ->
    exists calls,
      trace s' = trace s ++ calls
      /\ length calls = n
      /\ Forall (fun e => is_call role e = true) calls
      /\ loc s' = set_next_address (next_address (loc s')) (loc s).
Proof.
  induction n as [|n IH]; simpl; intros s s' H.
  - injection H as <-. exists []. rewrite app_nil_r.
    repeat split; auto. destruct (loc s); reflexivity.
  - apply bind_Ret in H. destruct H as (s1 & H1 & H2).
    destruct (IH _ _ H2) as (calls & T & L & F & Q).
    unfold call_kernel in H1. destruct (fp (loc s) =? 0); [discriminate|].
    injection H1 as <-. simpl in T, Q.
    exists (EvKernel role (fp (loc s)) (next_address (loc s)) length_arg
              :: calls).
    split; [rewrite T, <- app_assoc; reflexivity|].
    split; [simpl; rewrite L; reflexivity|].
    split; [constructor; [destruct role; reflexivity | exact F]|].
    rewrite Q. reflexivity.
Qed.

Lemma real_batch_spec (s s' : State) :
  real_batch E s = Ret s' ->
  exists t0 calls t1,
    trace s' = trace s ++ EvStartTimer t0 :: calls ++ [EvStopTimer t1]
    /\ length calls = 256%nat
    /\ Forall (fun e => is_call RealKernel e = true) calls
    /\ elapsed_ticks (loc s')
       = add64 (elapsed_ticks (loc s)) (sub64 t1 t0)
    /\ passes (loc s') = add64 (passes (loc s)) 256
    /\ p (loc s') = p (loc s)
    /\ elapsed_dummy_ticks (loc s') = elapsed_dummy_ticks (loc s)
    /\ target_ticks (loc s') = target_ticks (loc s).
Proof.
  unfold real_batch, UNROLL256. intros H. apply bind_Ret in H.
  destruct H as (s1 & H1 & H2). injection H2 as <-.
  destruct (unroll_calls _ _ _ _ _ _ H1) as (calls & T & L & F & Q).
  exists (wrap64 (fst (start_timer E (mach s)))), calls,
    (wrap64 (fst (stop_timer E (mach s1)))).
  simpl. rewrite T, Q. simpl. rewrite <- !app_assoc. simpl.
  repeat split; auto.
Qed.

Lemma dummy_batch_spec (s s' : State) :
  dummy_batch E s = Ret s' ->
  exists t0 calls t1,
    trace s' = trace s ++ EvStartTimer t0 :: calls ++ [EvStopTimer t1]
    /\ length calls = 256%nat
    /\ Forall (fun e => is_call DummyKernel e = true) calls
    /\ elapsed_dummy_ticks (loc s')
       = add64 (elapsed_dummy_ticks (loc s)) (sub64 t1 t0)
    /\ p (loc s') = add64 (p (loc s)) 256
    /\ passes (loc s') = passes (loc s)
    /\ elapsed_ticks (loc s') = elapsed_ticks (loc s)
    /\ target_ticks (loc s') = target_ticks (loc s).
Proof.
  unfold dummy_batch, UNROLL256. intros H. apply bind_Ret in H.
  destruct H as (s1 & H1 & H2). injection H2 as <-.
  destruct (unroll_calls _ _ _ _ _ _ H1) as (calls & T & L & F & Q).
  exists (wrap64 (fst (start_timer E (mach s)))), calls,
    (wrap64 (fst (stop_timer E (mach s1)))).
  simpl. rewrite T, Q. simpl. rewrite <- !app_assoc. simpl.
  repeat split; auto.
Qed.

(** The first loop: batches of the real kernel until the accumulated ticks
    reach the target. *)
Lemma real_loop_spec (fuel : nat) :
  forall (s s' : State) (t seg0 : list Event) (ds0 : list Z),
    real_loop E fuel s = Ret s' ->
    trace s = t ++ seg0 ->
    batches RealKernel seg0 ds0 ->
    elapsed_ticks (loc s) = wrap64 (total ds0) ->
    passes (loc s) = wrap64 (256 * Z.of_nat (length ds0)) ->
    exists seg ds,
      trace s' = t ++ seg
      /\ batches RealKernel seg ds
      /\ elapsed_ticks (loc s') = wrap64 (total ds)
      /\ passes (loc s') = wrap64 (256 * Z.of_nat (length ds))
      /\ target_ticks (loc s') <= elapsed_ticks (loc s')
      /\ p (loc s') = p (loc s)
      /\ elapsed_dummy_ticks (loc s') = elapsed_dummy_ticks (loc s)
      /\ target_ticks (loc s') = target_ticks (loc s).
Proof.
  induction fuel as [|fuel IH]; intros s s' t seg0 ds0 H T B He Hp;
    simpl in H;
    destruct (elapsed_ticks (loc s) <? target_ticks (loc s)) eqn:Hc;
    try discriminate.
  - injection H as <-. apply Z.ltb_ge in Hc. exists seg0, ds0. auto 10.
  - apply bind_Ret in H. destruct H as (s1 & H1 & H2).
    destruct (real_batch_spec _ _ H1)
      as (t0 & calls & t1 & T1 & L & F & He1 & Hp1 & Hq1 & Hd1 & Ht1).
    destruct (IH s1 s' t (seg0 ++ EvStartTimer t0 :: calls ++ [EvStopTimer t1])
                (ds0 ++ [sub64 t1 t0]) H2)
      as (seg & ds & T' & B' & He' & Hp' & Hx & Hq' & Hd' & Ht').
    + rewrite T1, T, <- app_assoc. reflexivity.
    + constructor; assumption.
    + rewrite He1, He, total_snoc. unfold add64. apply wrap64_add_l.
    + rewrite Hp1, Hp, length_app. simpl length. unfold add64.
      rewrite wrap64_add_l. f_equal. lia.
    + exists seg, ds. repeat split; auto; congruence.
  - injection H as <-. apply Z.ltb_ge in Hc. exists seg0, ds0. auto 10.
Qed.

(** The second loop: batches of the dummy kernel until [p] reaches the
    recorded number of passes, which it meets exactly. *)
Lemma dummy_loop_spec (fuel : nat) :
  forall (s s' : State) (t seg0 : list Event) (ds0 : list Z),
    dummy_loop E fuel s = Ret s' ->
    trace s = t ++ seg0 ->
    batches DummyKernel seg0 ds0 ->
    elapsed_dummy_ticks (loc s) = wrap64 (total ds0) ->
    p (loc s) = 256 * Z.of_nat (length ds0) ->
    p (loc s) <= passes (loc s) ->
    passes (loc s) mod 256 = 0 ->
    passes (loc s) < 2 ^ 64 ->
    exists seg ds,
      trace s' = t ++ seg
      /\ batches DummyKernel seg ds
      /\ elapsed_dummy_ticks (loc s') = wrap64 (total ds)
      /\ p (loc s') = 256 * Z.of_nat (length ds)
      /\ p (loc s') = passes (loc s')
      /\ passes (loc s') = passes (loc s)
      /\ elapsed_ticks (loc s') = elapsed_ticks (loc s)
      /\ target_ticks (loc s') = target_ticks (loc s).
Proof.
  induction fuel as [|fuel IH];
    intros s s' t seg0 ds0 H T B Hd Hp Hle Hm Hb; simpl in H;
    destruct (p (loc s) <? passes (loc s)) eqn:Hc; try discriminate.
  - injection H as <-. apply Z.ltb_ge in Hc. exists seg0, ds0.
    repeat split; auto. lia.
  - apply Z.ltb_lt in Hc. apply bind_Ret in H. destruct H as (s1 & H1 & H2).
    destruct (dummy_batch_spec _ _ H1)
      as (t0 & calls & t1 & T1 & L & F & Hd1 & Hp1 & Hq1 & He1 & Ht1).
    assert (Hstep : p (loc s) + 256 <= passes (loc s)).
    { pose proof (Z.div_mod (passes (loc s)) 256 ltac:(lia)) as Hdm.
      rewrite Hm in Hdm. lia. }
    assert (Hp1' : p (loc s1) = p (loc s) + 256).
    { rewrite Hp1. unfold add64. apply wrap64_small. unfold in_range. lia. }
    destruct (IH s1 s' t (seg0 ++ EvStartTimer t0 :: calls ++ [EvStopTimer t1])
                (ds0 ++ [sub64 t1 t0]) H2)
      as (seg & ds & T' & B' & Hd' & Hp' & Hx & Hq' & He' & Ht').
    + rewrite T1, T, <- app_assoc. reflexivity.
    + constructor; assumption.
    + rewrite Hd1, Hd, total_snoc. unfold add64. apply wrap64_add_l.
    + rewrite Hp1', Hp, length_app. simpl length. lia.
    + rewrite Hq1. lia.
    + rewrite Hq1. exact Hm.
    + rewrite Hq1. exact Hb.
    + exists seg, ds. repeat split; auto; congruence.
  - injection H as <-. apply Z.ltb_ge in Hc. exists seg0, ds0.
    repeat split; auto. lia.
Qed.

(** *** Termination *)

(** A batch returns when its kernel pointer is not [NULL]. *)
Lemma unroll_returns (role : Role) (fp : Locals -> Z) (length_arg : Z) :
  (forall v l, fp (set_next_address v l) = fp l) ->
  forall (n : nat) (s : State),
    fp (loc s) <> 0 ->
    exists s',
      unroll n (fun s => call_kernel E role (fp (loc s)) length_arg s) s
      = Ret s'.
Proof.
  intros Hfp. induction n as [|n IH]; intros s Hs.
  - exists s. reflexivity.
  - cbn [unroll]. unfold call_kernel at 1.
    destruct (fp (loc s) =? 0) eqn:Hz; [apply Z.eqb_eq in Hz; contradiction|].
    cbn [bind]. apply IH. cbn [loc assign set_loc log set_mach].
    rewrite Hfp. exact Hs.
Qed.

Lemma real_batch_returns (s : State) :
  kernel_fptr (loc s) <> 0 -> exists s', real_batch E s = Ret s'.
Proof.
  intros Hs. unfold real_batch, UNROLL256.
  destruct (unroll_returns RealKernel kernel_fptr 0 (fun _ _ => eq_refl) 256
              (read_start_timer E s) Hs) as [s1 H1].
  rewrite H1. cbn [bind]. eexists. reflexivity.
Qed.

Lemma dummy_batch_returns (s : State) :
  kernel_dummy_fptr (loc s) <> 0 -> exists s', dummy_batch E s = Ret s'.
Proof.
  intros Hs. unfold dummy_batch, UNROLL256.
  destruct (unroll_returns DummyKernel kernel_dummy_fptr 0
              (fun _ _ => eq_refl) 256 (read_start_timer E s) Hs) as [s1 H1].
  rewrite H1. cbn [bind]. eexists. reflexivity.
Qed.

(** The second loop returns, given fuel for the batches still to run:
    [p] and [passes] are multiples of 256, so that [p] does not step over
    [passes]. *)
Lemma dummy_loop_terminates (fuel : nat) :
  forall (s : State) (a b : Z),
    kernel_dummy_fptr (loc s) <> 0 ->
    p (loc s) = 256 * a ->
    passes (loc s) = 256 * b ->
    0 <= a ->
    passes (loc s) < 2 ^ 64 ->
    b - a <= Z.of_nat fuel ->
    exists s', dummy_loop E fuel s = Ret s'.
Proof.
  induction fuel as [|fuel IH]; intros s a b Hk Hp Hq Ha Hb Hf;
    cbn [dummy_loop];
    destruct (p (loc s) <? passes (loc s)) eqn:Hc;
    try (exists s; reflexivity).
  - apply Z.ltb_lt in Hc. exfalso. lia.
  - apply Z.ltb_lt in Hc.
    destruct (dummy_batch_returns s Hk) as [s1 H1]. rewrite H1. cbn [bind].
    destruct (dummy_batch_spec _ _ H1)
      as (t0 & calls & t1 & _ & _ & _ & _ & Hp1 & Hq1 & _).
    destruct (measures_dummy_batch E _ _ H1) as (_ & _ & _ & _ & _ & S1 & _).
    destruct (setup_eq _ _ S1) as (_ & _ & _ & _ & _ & _ & _ & K1).
    unfold add64 in Hp1. rewrite wrap64_small in Hp1
      by (unfold in_range; lia).
    apply (IH s1 (a + 1) b).
    + rewrite K1. exact Hk.
    + lia.
    + rewrite Hq1. exact Hq.
    + lia.
    + rewrite Hq1. exact Hb.
    + lia.
Qed.

(** The first loop returns when every batch does and adds ticks; [J] is
    what is known of the states the loop goes through. *)
Lemma real_loop_terminates (J : State -> Prop) :
  (forall s, J s ->
             elapsed_ticks (loc s) < target_ticks (loc s) ->
             exists s', real_batch E s = Ret s'
                        /\ J s'
                        /\ elapsed_ticks (loc s) < elapsed_ticks (loc s')) ->
  forall (fuel : nat) (s : State),
    J s ->
    target_ticks (loc s) - elapsed_ticks (loc s) <= Z.of_nat fuel ->
    exists s', real_loop E fuel s = Ret s' /\ J s'.
Proof.
  intros Hstep. induction fuel as [|fuel IH]; intros s Hs Hf; cbn [real_loop];
    destruct (elapsed_ticks (loc s) <? target_ticks (loc s)) eqn:Hc;
    try (exists s; split; [reflexivity | exact Hs]).
  - apply Z.ltb_lt in Hc. exfalso. lia.
  - apply Z.ltb_lt in Hc.
    destruct (Hstep s Hs Hc) as (s1 & H1 & J1 & Hlt). rewrite H1. cbn [bind].
    destruct (real_batch_spec _ _ H1)
      as (t0 & calls & t1 & _ & _ & _ & _ & _ & _ & _ & Ht1).
    apply IH; [exact J1|]. rewrite Ht1. lia.
Qed.

(** More fuel does not change what the first loop returns. *)
Lemma real_loop_fuel_mono (fuel : nat) :
  forall (s a : State),
    real_loop E fuel s = Ret a ->
    forall k, real_loop E (fuel + k) s = Ret a.
Proof.
  induction fuel as [|fuel IH]; intros s a H k.
  - cbn [real_loop] in H.
    destruct (elapsed_ticks (loc s) <? target_ticks (loc s)) eqn:Hc;
      [discriminate|].
    destruct k; cbn [real_loop Nat.add]; rewrite Hc; exact H.
  - cbn [real_loop Nat.add] in H |- *.
    destruct (elapsed_ticks (loc s) <? target_ticks (loc s)); [|exact H].
    apply bind_Ret in H. destruct H as (s1 & H1 & H2).
    rewrite H1. cbn [bind]. apply IH. exact H2.
Qed.

End TimeBased.

(** ** The anatomy of a time-based run *)

Lemma before_priming_quiet (ok pinned boosted : bool) (cpu a b : Z) :
  Forall (fun e => is_measurement e = false)
    (before_priming ok pinned boosted cpu ++ repeat (EvPrime a b) 4).
Proof. destruct ok, pinned, boosted; simpl; repeat constructor. Qed.

Lemma after_benchmark_quiet (pinned reverted ok : bool) :
  Forall (fun e => is_measurement e = false)
    (after_benchmark pinned reverted ok).
Proof. destruct pinned, reverted, ok; simpl; repeat constructor. Qed.

Section TimeBasedRun.

Context {Machine : Type}.
Variable E : Env Machine.
Hypothesis time_based : mode E = USE_TIME_BASED_BENCHMARKS.

Lemma time_based_anatomy (fuel : nat) (m : Machine) (c : WorkerConfig)
    (r : WorkerResult) (s' : St Machine) :
  run E fuel m c r = Ret s' ->
  exists pre post seg_r seg_d ds_r ds_d,
    trace s' = pre ++ (seg_r ++ seg_d) ++ post
    /\ Forall (fun e => is_measurement e = false) pre
    /\ Forall (fun e => is_measurement e = false) post
    /\ batches RealKernel seg_r ds_r
    /\ batches DummyKernel seg_d ds_d
    /\ elapsed_ticks (loc s') = wrap64 (total ds_r)
    /\ elapsed_dummy_ticks (loc s') = wrap64 (total ds_d)
    /\ passes (loc s') = wrap64 (256 * Z.of_nat (length ds_r))
    /\ passes (loc s') = 256 * Z.of_nat (length ds_d)
    /\ p (loc s') = passes (loc s')
    /\ target_ticks (loc s')
       = mul64 (g_ticks_per_sec E) (BENCHMARK_DURATION_SEC E)
    /\ target_ticks (loc s') <= elapsed_ticks (loc s').
Proof.
  intros H.
  destruct (run_anatomy E _ _ _ _ _ H)
    as (s0 & s1 & seg & ok & pinned & boosted & reverted & ok2 & Hs0 & Hb
        & Hs' & T0 & _ & _ & T2 & _).
  destruct (prologue_state E (mkSt m c r (declarations E) []))
    as (_ & _ & E0 & D0 & P0 & G0 & _ & Q0 & _).
  rewrite <- Hs0 in E0, D0, P0, G0, Q0. specialize (Q0 time_based).
  cbn [loc] in E0, D0, P0, G0, Q0.
  destruct (declarations_zero E) as (Z1 & Z2 & Z3 & Z4 & _).
  rewrite Z1 in E0. rewrite Z2 in D0. rewrite Z3 in Q0. rewrite Z4 in P0.
  assert (G : target_ticks (declarations E)
              = mul64 (g_ticks_per_sec E) (BENCHMARK_DURATION_SEC E)).
  { unfold declarations. rewrite time_based. reflexivity. }
  rewrite G in G0.
  unfold run_benchmark in Hb. rewrite time_based in Hb.
  unfold time_based_benchmark in Hb. apply bind_Ret in Hb.
  destruct Hb as (sr & Hr & Hd).
  destruct (real_loop_spec E fuel _ sr (trace s0) [] [] Hr)
    as (seg_r & ds_r & Tr & Br & Er & Pr & Xr & Qr & Dr & Gr).
  { cbn [trace assign set_loc]. rewrite app_nil_r. reflexivity. }
  { constructor. }
  { exact E0. }
  { exact Q0. }
  cbn [loc assign set_loc set_next_address p elapsed_dummy_ticks target_ticks]
    in Qr, Dr, Gr.
  destruct (dummy_loop_spec E fuel _ s1 (trace s0 ++ seg_r) [] [] Hd)
    as (seg_d & ds_d & Td & Bd & Dd & Pd & Xd & Qd & Ed & Gd).
  { cbn [trace assign set_loc]. rewrite app_nil_r. exact Tr. }
  { constructor. }
  { cbn [loc assign set_loc set_next_address elapsed_dummy_ticks].
    rewrite Dr. exact D0. }
  { cbn [loc assign set_loc set_next_address p]. rewrite Qr. exact P0. }
  { cbn [loc assign set_loc set_next_address p passes]. rewrite Qr, P0, Pr.
    apply wrap64_range. }
  { cbn [loc assign set_loc set_next_address passes]. rewrite Pr.
    apply wrap64_mul256_mod. }
  { cbn [loc assign set_loc set_next_address passes]. rewrite Pr.
    apply wrap64_range. }
  cbn [loc assign set_loc set_next_address passes elapsed_ticks target_ticks]
    in Qd, Ed, Gd.
  destruct (epilogue_locals E s1)
    as (_ & _ & E2 & D2 & P2 & Q2 & G2 & _).
  rewrite <- Hs' in E2, D2, P2, Q2, G2. cbv zeta in E2, D2, P2, Q2, G2.
  exists (trace s0), (after_benchmark pinned reverted ok2), seg_r, seg_d,
    ds_r, ds_d.
  split; [rewrite T2, Td, <- !app_assoc; reflexivity|].
  split; [rewrite T0; apply before_priming_quiet|].
  split; [apply after_benchmark_quiet|].
  split; [exact Br|]. split; [exact Bd|].
  split; [congruence|]. split; [congruence|]. split; [congruence|].
  split; [congruence|]. split; [congruence|]. split; [congruence|].
  rewrite G2, E2, Gd, Ed. exact Xr.
Qed.

(** X1.  A time-based run returns, given enough fuel, when every batch of
    the real kernel returns and adds ticks and the dummy kernel is not
    [NULL]. *)
Lemma time_based_run_returns (J : St Machine -> Prop) (m : Machine)
    (c : WorkerConfig) (r : WorkerResult) :
  (forall s, J s ->
             elapsed_ticks (loc s) < target_ticks (loc s) ->
             exists s', real_batch E s = Ret s'
                        /\ J s'
                        /\ elapsed_ticks (loc s) < elapsed_ticks (loc s')) ->
  (forall s, J s -> kernel_dummy_fptr (loc s) <> 0) ->
  J (assign (fun l => set_next_address (mem_array l) l)
       (prologue E (mkSt m c r (declarations E) []))) ->
  exists fuel s', run E fuel m c r = Ret s'.
Proof.
  intros Hstep Hdummy J0.
  set (s0 := prologue E (mkSt m c r (declarations E) [])) in *.
  set (s0' := assign (fun l => set_next_address (mem_array l) l) s0) in *.
  destruct (prologue_state E (mkSt m c r (declarations E) []))
    as (_ & _ & E0 & _ & P0 & _ & _ & Q0 & _).
  fold s0 in E0, P0, Q0. specialize (Q0 time_based). cbn [loc] in E0, P0, Q0.
  destruct (declarations_zero E) as (Z1 & _ & Z3 & Z4 & _).
  rewrite Z1 in E0. rewrite Z3 in Q0. rewrite Z4 in P0.
  set (fuel1 := Z.to_nat (target_ticks (loc s0') - elapsed_ticks (loc s0'))).
  destruct (real_loop_terminates E J Hstep fuel1 s0' J0) as (a & Ha & Ja);
    [unfold fuel1; lia|].
  destruct (real_loop_spec E fuel1 s0' a (trace s0') [] [] Ha)
    as (seg & ds & _ & _ & _ & Pa & _ & Qa & _).
  { rewrite app_nil_r. reflexivity. }
  { constructor. }
  { exact E0. }
  { exact Q0. }
  cbn [loc assign set_loc set_next_address p] in Qa.
  set (a' := assign (fun l => set_next_address (mem_array l) l) a).
  set (b := Z.of_nat (length ds)) in *.
  pose proof (wrap64_range (256 * b)) as Hr. unfold in_range in Hr.
  pose proof (wrap64_mul256_mod b) as Hmod.
  pose proof (Z.div_mod (wrap64 (256 * b)) 256 ltac:(lia)) as Hdm.
  rewrite Hmod in Hdm.
  set (fuel2 := Z.to_nat (wrap64 (256 * b) / 256)).
  destruct (dummy_loop_terminates E (fuel1 + fuel2) a' 0
              (wrap64 (256 * b) / 256)) as (s1 & Hs1).
  { apply (Hdummy a Ja). }
  { cbn [a' loc assign set_loc set_next_address p]. rewrite Qa. exact P0. }
  { cbn [a' loc assign set_loc set_next_address passes]. rewrite Pa. lia. }
  { lia. }
  { cbn [a' loc assign set_loc set_next_address passes]. rewrite Pa. lia. }
  { unfold fuel2. lia. }
  exists (fuel1 + fuel2)%nat, (epilogue E s1).
  unfold run, run_benchmark. rewrite time_based. unfold time_based_benchmark.
  fold s0 s0'. rewrite (real_loop_fuel_mono E fuel1 s0' a Ha fuel2).
  cbn [bind]. fold a'. rewrite Hs1. reflexivity.
Qed.

End TimeBasedRun.

(** * The claims *)

(** ** Overhead subtraction *)

(** C1.  In every completed run whose dummy ticks are below its real ticks,
    the published adjusted ticks are exactly the published elapsed ticks
    minus the published elapsed dummy ticks. *)
Theorem adjusted_ticks_exact {Machine : Type} (E : Env Machine) (fuel : nat)
    (m : Machine) (c : WorkerConfig) (r : WorkerResult) (s' : St Machine) :
  run E fuel m c r = Ret s' ->
  _completed r = false ->
  _completed (res s') = true ->
  _elapsed_dummy_ticks (res s') < _elapsed_ticks (res s') ->
  _adjusted_ticks (res s')
  = _elapsed_ticks (res s') - _elapsed_dummy_ticks (res s').
Proof.
  intros H Hr Hc Hlt.
  destruct (run_anatomy E _ _ _ _ _ H)
    as (s0 & s1 & seg & ok & pinned & boosted & reverted & ok2 & _ & _ & _
        & _ & _ & _ & _ & _ & _ & R2 & [Ge Gd] & A & _).
  destruct ok2; [|rewrite R2 in Hc; congruence].
  rewrite R2 in Hlt |- *. simpl in Hlt |- *.
  rewrite A. apply sub64_exact; [exact Ge | exact Gd | lia].
Qed.

(** On the synthetic machine: two batches of 2560 real ticks, two of 256
    dummy ticks. *)
Lemma adjusted_ticks_exact_witness :
  exists s',
    run (time_env true 10 1 0) 4 (mkSim 0 []) demo_config blank = Ret s'
    /\ _elapsed_dummy_ticks (res s') < _elapsed_ticks (res s')
    /\ _adjusted_ticks (res s') = 4608.
Proof.
  eexists. split; [vm_compute; reflexivity|]. split; [reflexivity|].
  change 4608 with (5120 - 512).
  apply (adjusted_ticks_exact (time_env true 10 1 0) 4 (mkSim 0 [])
           demo_config blank);
    vm_compute; reflexivity.
Defined.

(** ** Anomaly detection *)

(** C2, as the code has it.  Once the benchmark has returned, the run
    returns: it releases the pin if it holds one, reverts the priority and
    tries to publish, whatever the warning, which aborts nothing, reruns
    nothing and withholds nothing.  When the lock of the publication is
    obtained, the published warning is set exactly when the dummy ticks
    reach the real ticks, or the real ticks are below [MIN_ELAPSED_TICKS],
    or [adjusted_ticks < 0.5 * elapsed_ticks] as line 180 evaluates it, in
    double precision; up to 2^53 elapsed ticks this is the comparison of
    the exact values. *)
Theorem warning_flag_published {Machine : Type} (E : Env Machine)
    (fuel : nat) (m : Machine) (c : WorkerConfig) (r : WorkerResult)
    (s1 : St Machine) :
  run_benchmark E fuel (prologue E (mkSt m c r (declarations E) [])) = Ret s1 ->
  exists s' reverted ok,
    run E fuel m c r = Ret s'
    /\ trace s' = trace s1 ++ after_benchmark (locked (loc s')) reverted ok
    /\ lock_at_publication (trace s') = Some ok
    /\ (ok = true ->
        _completed (res s') = true
        /\ (_warning (res s') = true <->
            _elapsed_dummy_ticks (res s') >= _elapsed_ticks (res s')
            \/ _elapsed_ticks (res s') < MIN_ELAPSED_TICKS E
            \/ lt_half_double (_adjusted_ticks (res s'))
                 (_elapsed_ticks (res s')) = true)
        /\ (_elapsed_ticks (res s') <= 2 ^ 53 ->
            (_warning (res s') = true <->
             _elapsed_dummy_ticks (res s') >= _elapsed_ticks (res s')
             \/ _elapsed_ticks (res s') < MIN_ELAPSED_TICKS E
             \/ 2 * _adjusted_ticks (res s') < _elapsed_ticks (res s')))).
Proof.
  intros Hb0.
  assert (H : run E fuel m c r = Ret (epilogue E s1)).
  { unfold run. rewrite Hb0. reflexivity. }
  remember (epilogue E s1) as s' eqn:Es'.
  destruct (run_anatomy E _ _ _ _ _ H)
    as (s0 & s1' & seg & ok & pinned & boosted & reverted & ok2 & Hs0 & Hb & _
        & _ & _ & _ & T2 & _ & Hpin & R2 & [Ge Gd] & A & W & Q).
  subst s0. rewrite Hb0 in Hb. injection Hb as <-.
  exists s', reverted, ok2. subst pinned.
  split; [exact H|]. split; [exact T2|].
  split; [unfold lock_at_publication; rewrite Q; reflexivity|].
  intros ->. rewrite R2. cbn [_completed _warning _elapsed_dummy_ticks
    _elapsed_ticks _adjusted_ticks].
  split; [reflexivity|].
  assert (Hw : warning (loc s') = true <->
               elapsed_dummy_ticks (loc s') >= elapsed_ticks (loc s')
               \/ elapsed_ticks (loc s') < MIN_ELAPSED_TICKS E
               \/ lt_half_double (adjusted_ticks (loc s'))
                    (elapsed_ticks (loc s')) = true).
  { rewrite W. unfold looks_fishy. rewrite !orb_true_iff, Z.geb_le, Z.ltb_lt.
    rewrite Z.ge_le_iff. tauto. }
  split; [exact Hw|].
  intros Hsmall. rewrite Hw.
  destruct (Z_le_gt_dec (elapsed_ticks (loc s')) (elapsed_dummy_ticks (loc s')))
    as [Hle|Hgt].
  - split; intros _; left; lia.
  - assert (Ha : adjusted_ticks (loc s')
                 = elapsed_ticks (loc s') - elapsed_dummy_ticks (loc s')).
    { rewrite A. apply sub64_exact; [exact Ge | exact Gd | lia]. }
    unfold in_range in Gd.
    rewrite (lt_half_double_exact (adjusted_ticks (loc s'))
               (elapsed_ticks (loc s'))) by lia.
    tauto.
Qed.

(** Beyond 2^53 the conversions to [double] round: 2^60 + 1 converts to
    2^60, half of which is not above 2^59. *)
Remark lt_half_double_rounds :
  lt_half_double (2 ^ 59) (2 ^ 60 + 1) = false /\ 2 * 2 ^ 59 < 2 ^ 60 + 1.
Proof. split; reflexivity. Qed.

(** The claim as worded, with the comparison of the exact values, fails
    beyond 2^53 ticks.  On the synthetic machine a call of the real kernel
    takes 2^52 ticks, a call of the dummy kernel 2^51 and a read of the
    timer one: one batch gives 2^60 + 1 real ticks and 2^59 + 1 dummy
    ticks.  The adjusted ticks, 2^59, are below half of the real ticks, and
    no warning is published. *)
Lemma warning_misses_rounded_half :
  exists s',
    run (time_env true (2 ^ 52) (2 ^ 51) 1) 1 (mkSim 0 []) demo_config blank
    = Ret s'
    /\ lock_at_publication (trace s') = Some true
    /\ _elapsed_ticks (res s') = 2 ^ 60 + 1
    /\ _elapsed_dummy_ticks (res s') = 2 ^ 59 + 1
    /\ _adjusted_ticks (res s') = 2 ^ 59
    /\ 2 * _adjusted_ticks (res s') < _elapsed_ticks (res s')
    /\ _warning (res s') = false.
Proof.
  eexists. split; [vm_compute; reflexivity|].
  repeat split; vm_compute; reflexivity.
Qed.

(** On the synthetic machine, the dummy kernel twice as slow as the real
    one: the benchmark returns, the run goes on to publish, and the
    warning is published. *)
Lemma warning_flag_published_witness :
  exists s1 s',
    run_benchmark (time_env true 10 20 0) 4
      (prologue (time_env true 10 20 0)
         (mkSt (mkSim 0 []) demo_config blank
            (declarations (time_env true 10 20 0)) [])) = Ret s1
    /\ run (time_env true 10 20 0) 4 (mkSim 0 []) demo_config blank = Ret s'
    /\ _completed (res s') = true
    /\ _warning (res s') = true.
Proof.
  assert (Hb : exists s1,
             run_benchmark (time_env true 10 20 0) 4
               (prologue (time_env true 10 20 0)
                  (mkSt (mkSim 0 []) demo_config blank
                     (declarations (time_env true 10 20 0)) [])) = Ret s1)
    by (eexists; vm_compute; reflexivity).
  destruct Hb as [s1 Hb]. exists s1.
  destruct (warning_flag_published (time_env true 10 20 0) 4 (mkSim 0 [])
              demo_config blank s1 Hb)
    as (s' & reverted & ok & Hrun & _ & L & P).
  exists s'. split; [exact Hb|]. split; [exact Hrun|].
  assert (Hc : exists s,
             run (time_env true 10 20 0) 4 (mkSim 0 []) demo_config blank
             = Ret s
             /\ lock_at_publication (trace s) = Some true
             /\ _elapsed_ticks (res s) <= _elapsed_dummy_ticks (res s)).
  { eexists. split; [vm_compute; reflexivity|].
    split; [vm_compute; reflexivity|]. vm_compute. discriminate. }
  destruct Hc as (s & Hs & Ls & Ds).
  rewrite Hrun in Hs. injection Hs as <-.
  rewrite L in Ls. injection Ls as ->.
  destruct (P eq_refl) as (C & W & _).
  split; [exact C|]. apply W. left. lia.
Defined.

(** ** The duration-bounded mode *)

(** C3.  In a time-based build the pass count a run ends with is a multiple
    of 256, and the real ticks accumulated when the first loop is left have
    reached the target, the product of [g_ticks_per_sec] and
    [BENCHMARK_DURATION_SEC] as line 94 forms it, in 64 bits (the product
    itself when it fits); these are the values published when the lock is
    obtained. *)
Theorem duration_bounded_exit {Machine : Type} (E : Env Machine) (fuel : nat)
    (m : Machine) (c : WorkerConfig) (r : WorkerResult) (s' : St Machine) :
  mode E = USE_TIME_BASED_BENCHMARKS ->
  run E fuel m c r = Ret s' ->
  passes (loc s') mod 256 = 0
  /\ mul64 (g_ticks_per_sec E) (BENCHMARK_DURATION_SEC E)
     <= elapsed_ticks (loc s')
  /\ (in_range (g_ticks_per_sec E * BENCHMARK_DURATION_SEC E) ->
      g_ticks_per_sec E * BENCHMARK_DURATION_SEC E <= elapsed_ticks (loc s'))
  /\ (lock_at_publication (trace s') = Some true ->
      _passes (res s') = passes (loc s')
      /\ _elapsed_ticks (res s') = elapsed_ticks (loc s')).
Proof.
  intros Hm H.
  destruct (time_based_anatomy E Hm _ _ _ _ _ H)
    as (pre & post & seg_r & seg_d & ds_r & ds_d & _ & _ & _ & _ & _ & _ & _
        & Pr & _ & _ & G & X).
  split; [rewrite Pr; apply wrap64_mul256_mod|].
  split; [rewrite <- G; exact X|].
  split.
  { intros Hr. rewrite <- (wrap64_small _ Hr). fold (mul64 (g_ticks_per_sec E)
      (BENCHMARK_DURATION_SEC E)). rewrite <- G. exact X. }
  destruct (run_anatomy E _ _ _ _ _ H)
    as (s0 & s1 & seg & ok & pinned & boosted & reverted & ok2 & _ & _ & _
        & _ & _ & _ & _ & _ & _ & R2 & _ & _ & _ & Q).
  unfold lock_at_publication. rewrite Q. intros L. injection L as ->.
  rewrite R2. split; reflexivity.
Qed.

(** On the synthetic machine: 512 passes, 5120 ticks for a target of
    4000. *)
Lemma duration_bounded_exit_witness :
  exists s',
    run (time_env true 10 1 0) 4 (mkSim 0 []) demo_config blank = Ret s'
    /\ passes (loc s') = 512
    /\ 4000 <= elapsed_ticks (loc s').
Proof.
  eexists. split; [vm_compute; reflexivity|]. split; [reflexivity|].
  match goal with
  | |- context [loc ?s] =>
      assert (Hrun : run (time_env true 10 1 0) 4 (mkSim 0 []) demo_config
                       blank = Ret s) by (vm_compute; reflexivity);
      destruct (duration_bounded_exit (time_env true 10 1 0) _ _ _ _ _ eq_refl
                  Hrun) as (_ & X & _)
  end.
  exact X.
Defined.



(** ** Priming *)

Lemma within_unprimed (e : Event) (i : Interval) :
  is_prime e = false -> priming_reads (within e i) = priming_reads i.
Proof.
  destruct e; intros He; try discriminate He; try reflexivity.
  destruct role; reflexivity.
Qed.

Lemma measured_unprimed (tr : list Event) :
  Forall (fun e => is_prime e = false) tr ->
  forall cur,
    (forall i, cur = Some i -> priming_reads i = 0%nat) ->
    Forall (fun i => priming_reads i = 0%nat) (measured cur tr).
Proof.
  induction 1 as [|e tr He _ IH]; intros cur Hcur; [constructor|].
  assert (Hin : forall i, option_map (within e) cur = Some i ->
                          priming_reads i = 0%nat).
  { intros i Hi. destruct cur as [j|]; [|discriminate Hi].
    injection Hi as <-. rewrite within_unprimed by exact He.
    apply Hcur. reflexivity. }
  destruct e; try discriminate He; cbn [measured]; try (apply IH; exact Hin).
  - apply IH. intros i Hi. injection Hi as <-. reflexivity.
  - destruct cur as [j|].
    + constructor; [simpl; apply Hcur; reflexivity|].
      apply IH. intros i Hi. discriminate Hi.
    + apply IH. intros i Hi. discriminate Hi.
Qed.

(** The four passes of lines 130-134 apply the sequential read to the
    machine, each over the region held in [mem_array] and [len]. *)
Lemma prime_memory_mach {Machine : Type} (E : Env Machine) (s : St Machine) :
  mach (prime_memory E s)
  = Nat.iter 4
      (forwSequentialRead_Word64 E (mem_array (loc s))
         (add64 (mem_array (loc s)) (len (loc s))))
      (mach s).
Proof. reflexivity. Qed.

(** C9, as the code has it.  Every run makes exactly four priming reads,
    each a sequential read over the whole region it holds in [mem_array]
    and [len], applied to the machine the boost of the priority has left,
    before it reads the timer for the first time, and none of them lies in
    a measured interval.  In a time-based build that region is the one of
    the configuration when the snapshot was taken, and the empty region at
    [NULL] when it was not; in a size-based build it is what the names
    [mem_array] and [len] denote there. *)
Theorem priming_before_timing {Machine : Type} (E : Env Machine) (fuel : nat)
    (m : Machine) (c : WorkerConfig) (r : WorkerResult) (s' : St Machine) :
  run E fuel m c r = Ret s' ->
  exists pre post,
    trace s'
    = pre
      ++ repeat (EvPrime (mem_array (loc s'))
                   (add64 (mem_array (loc s')) (len (loc s')))) 4
      ++ post
    /\ count is_timer pre = 0%nat
    /\ count is_prime pre = 0%nat
    /\ count is_prime post = 0%nat
    /\ Forall (fun i => priming_reads i = 0%nat) (measured None (trace s'))
    /\ (mode E = USE_TIME_BASED_BENCHMARKS ->
        fst (_acquireLock E (-1) m) = true ->
        mem_array (loc s') = _mem_array c /\ len (loc s') = _len c)
    /\ (mode E = USE_SIZE_BASED_BENCHMARKS ->
        mem_array (loc s') = size_mem_array E /\ len (loc s') = size_len E)
    /\ (mode E = USE_TIME_BASED_BENCHMARKS ->
        fst (_acquireLock E (-1) m) = false ->
        mem_array (loc s') = 0 /\ len (loc s') = 0)
    /\ mach (prologue E (mkSt m c r (declarations E) []))
       = Nat.iter 4
           (forwSequentialRead_Word64 E (mem_array (loc s'))
              (add64 (mem_array (loc s')) (len (loc s'))))
           (mach (increase_scheduling_priority E
                    (set_processor_affinity E
                       (controller_writes E
                          (snapshot E (mkSt m c r (declarations E) [])))))).
Proof.
  intros H.
  destruct (run_anatomy E _ _ _ _ _ H)
    as (s0 & s1 & seg & ok & pinned & boosted & reverted & ok2 & Hs0 & Hb & Hs'
        & T0 & T1 & F1 & T2 & _).
  set (primes := repeat (EvPrime (mem_array (loc s'))
                           (add64 (mem_array (loc s')) (len (loc s')))) 4)
    in *.
  set (pre := before_priming ok pinned boosted (cpu_affinity (loc s'))) in *.
  set (post := seg ++ after_benchmark pinned reverted ok2).
  assert (T : trace s' = pre ++ primes ++ post).
  { rewrite T2, T1, T0. unfold post. rewrite <- !app_assoc. reflexivity. }
  assert (Fpost : Forall (fun e => is_prime e = false) post).
  { apply Forall_app. split.
    - eapply Forall_impl; [|exact F1]. intros e He.
      destruct e; try discriminate He; reflexivity.
    - destruct pinned, reverted, ok2; repeat constructor. }
  assert (Fpre : Forall (fun e => is_timer e = false) (pre ++ primes)).
  { subst pre primes. destruct ok, pinned, boosted; repeat constructor. }
  exists pre, post.
  split; [exact T|].
  split; [subst pre; destruct ok, pinned, boosted; reflexivity|].
  split; [subst pre; destruct ok, pinned, boosted; reflexivity|].
  split; [apply count_none; exact Fpost|].
  split.
  { rewrite T, app_assoc, measured_app.
    destruct (measured_quiet _ Fpre) as [M O]. rewrite M, O.
    apply measured_unprimed; [exact Fpost|]. intros i Hi. discriminate Hi. }
  destruct (measures_run_benchmark E _ _ _ Hb) as (_ & _ & _ & _ & _ & S1 & _).
  destruct (setup_eq _ _ S1) as (_ & M1 & L1 & _).
  destruct (epilogue_locals E s1)
    as (_ & _ & _ & _ & _ & _ & _ & M2 & L2 & _).
  cbv zeta in M2, L2. rewrite <- Hs' in M2, L2.
  split.
  { intros Hm Hok.
    destruct (prologue_region E (mkSt m c r (declarations E) []) Hm Hok)
      as [M0 L0].
    rewrite <- Hs0 in M0, L0. cbn [cfg] in M0, L0. split; congruence. }
  split.
  { intros Hm.
    destruct (prologue_state E (mkSt m c r (declarations E) []))
      as (_ & _ & _ & _ & _ & _ & _ & _ & Hsz).
    destruct (Hsz Hm) as [M0 L0]. rewrite <- Hs0 in M0, L0.
    cbn [loc] in M0, L0. unfold declarations in M0, L0. rewrite Hm in M0, L0.
    cbn [mem_array len] in M0, L0. split; congruence. }
  split.
  { intros Hm Hno.
    destruct (prologue_spec E (mkSt m c r (declarations E) []))
      as (ok0 & pinned0 & boosted0 & Ho & L0 & _).
    cbn [mach loc] in Ho, L0. rewrite Hno in Ho. subst ok0.
    rewrite <- Hs0 in L0.
    assert (M0 : mem_array (loc s0) = 0 /\ len (loc s0) = 0).
    { rewrite L0. unfold declarations. rewrite Hm. split; reflexivity. }
    destruct M0 as [M0 L0']. split; congruence. }
  assert (P : prologue E (mkSt m c r (declarations E) [])
              = prime_memory E
                  (increase_scheduling_priority E
                     (set_processor_affinity E
                        (controller_writes E
                           (snapshot E (mkSt m c r (declarations E) []))))))
    by reflexivity.
  destruct (prime_memory_spec E
              (increase_scheduling_priority E
                 (set_processor_affinity E
                    (controller_writes E
                       (snapshot E (mkSt m c r (declarations E) []))))))
    as (_ & Lp & _).
  rewrite <- P, <- Hs0 in Lp.
  rewrite P, prime_memory_mach, <- Lp, M2, L2, M1, L1. reflexivity.
Qed.

(** The claim as worded, over the entire memory region, fails when the
    snapshot is not taken.  On the synthetic machine, a time-based build
    with a target of zero ticks whose first attempt to take the lock
    fails: the run returns and publishes, having primed the empty region
    at [NULL] four times, not the region [4096, 4096 + 1024) of its
    configuration. *)
Lemma priming_misses_region_without_snapshot :
  exists s',
    run (sim_env USE_TIME_BASED_BENCHMARKS 0 4 500 true true true
           (flat_cost 10 1) demo_chase 0 no_writes)
      0 (mkSim 0 [false]) demo_config blank = Ret s'
    /\ filter is_prime (trace s') = repeat (EvPrime 0 0) 4
    /\ _mem_array demo_config = 4096
    /\ _len demo_config = 1024
    /\ lock_at_publication (trace s') = Some true
    /\ _completed (res s') = true.
Proof.
  eexists. split; [vm_compute; reflexivity|].
  repeat split; vm_compute; reflexivity.
Qed.

(** On the synthetic machine: four priming reads of the configured
    region, a tick each. *)
Lemma priming_before_timing_witness :
  exists s',
    run (time_env true 10 1 0) 4 (mkSim 0 []) demo_config blank = Ret s'
    /\ count is_prime (trace s') = 4%nat
    /\ mem_array (loc s') = _mem_array demo_config
    /\ clock (mach (prologue (time_env true 10 1 0)
                      (mkSt (mkSim 0 []) demo_config blank
                         (declarations (time_env true 10 1 0)) []))) = 4.
Proof.
  eexists. split; [vm_compute; reflexivity|]. split; [reflexivity|].
  match goal with
  | |- context [loc ?s] =>
      assert (Hrun : run (time_env true 10 1 0) 4 (mkSim 0 []) demo_config
                       blank = Ret s) by (vm_compute; reflexivity);
      destruct (priming_before_timing (time_env true 10 1 0) _ _ _ _ _ Hrun)
        as (pre & post & _ & _ & _ & _ & _ & R & _ & _ & M)
  end.
  split; [apply (R eq_refl eq_refl)|].
  rewrite M. vm_compute. reflexivity.
Defined.

(** ** Affinity and priority *)




(** ** Publication *)

(** C8, as the code has it.  When the lock of the publication is obtained,
    the run ends with the seven stores of the result between the
    acquisition and the release, in the order of the source: the completed
    flag is the sixth, the pass count is stored after it, and nothing of the
    result is stored outside the lock. *)
Theorem publication_under_lock {Machine : Type} (E : Env Machine)
    (fuel : nat) (m : Machine) (c : WorkerConfig) (r : WorkerResult)
    (s' : St Machine) :
  run E fuel m c r = Ret s' ->
  lock_at_publication (trace s') = Some true ->
  exists before,
    trace s' = before ++ publication
    /\ count is_store before = 0%nat
    /\ res s'
       = mkResult (adjusted_ticks (loc s')) (elapsed_ticks (loc s'))
           (elapsed_dummy_ticks (loc s')) (warning (loc s'))
           (bytes_per_pass (loc s')) true (passes (loc s')).
Proof.
  intros H L.
  destruct (run_anatomy E _ _ _ _ _ H)
    as (s0 & s1 & seg & ok & pinned & boosted & reverted & ok2 & _ & _ & _
        & T0 & T1 & F1 & T2 & _ & _ & R2 & _ & _ & _ & Q).
  unfold lock_at_publication in L. rewrite Q in L. injection L as ->.
  exists (trace s1
          ++ (if pinned then [EvUnlockThread] else [])
          ++ (EvRevertPriority reverted
                :: if reverted then [] else [EvCerr FailedToRevertPriority])).
  split.
  { rewrite T2. unfold after_benchmark. rewrite <- !app_assoc. reflexivity. }
  split; [|exact R2].
  rewrite T1, T0, !count_app, (count_none is_store seg).
  - destruct ok, pinned, boosted, reverted; reflexivity.
  - eapply Forall_impl; [|exact F1].
    intros e He; destruct e; try discriminate He; reflexivity.
Qed.

(** The last three events of a run that publishes: the completed flag is
    set, then the pass count is stored, then the lock is released. *)
Lemma passes_stored_after_completed :
  exists s',
    run (time_env true 10 1 0) 4 (mkSim 0 []) demo_config blank = Ret s'
    /\ skipn (length (trace s') - 3) (trace s')
       = [EvStore F_completed; EvStore F_passes; EvReleaseLock].
Proof.
  eexists. split; vm_compute; reflexivity.
Qed.

(** On the synthetic machine: a run that obtains both locks. *)
Lemma publication_under_lock_witness :
  exists s',
    run (time_env true 10 1 0) 4 (mkSim 0 []) demo_config blank = Ret s'
    /\ lock_at_publication (trace s') = Some true
    /\ exists before, trace s' = before ++ publication.
Proof.
  eexists. split; [vm_compute; reflexivity|].
  split; [vm_compute; reflexivity|].
  match goal with
  | |- context [trace ?s] =>
      assert (Hrun : run (time_env true 10 1 0) 4 (mkSim 0 []) demo_config
                       blank = Ret s) by (vm_compute; reflexivity);
      assert (Hlock : lock_at_publication (trace s) = Some true)
        by (vm_compute; reflexivity);
      destruct (publication_under_lock (time_env true 10 1 0) _ _ _ _ _ Hrun
                  Hlock) as (before & T & _)
  end.
  exists before. exact T.
Defined.

(** C10.  When the lock of the publication is not obtained, the run stores
    nothing: the result in the object is the one it started with, and the
    completed flag, if it was false, is false still. *)
Theorem publication_all_or_nothing {Machine : Type} (E : Env Machine)
    (fuel : nat) (m : Machine) (c : WorkerConfig) (r : WorkerResult)
    (s' : St Machine) :
  run E fuel m c r = Ret s' ->
  lock_at_publication (trace s') = Some false ->
  count is_store (trace s') = 0%nat
  /\ res s' = r
  /\ (_completed r = false -> _completed (res s') = false).
Proof.
  intros H L.
  destruct (run_anatomy E _ _ _ _ _ H)
    as (s0 & s1 & seg & ok & pinned & boosted & reverted & ok2 & _ & _ & _
        & T0 & T1 & F1 & T2 & _ & _ & R2 & _ & _ & _ & Q).
  unfold lock_at_publication in L. rewrite Q in L. injection L as ->.
  split; [|split; [exact R2 | rewrite R2; intros Hc; exact Hc]].
  rewrite T2, T1, T0, !count_app, (count_none is_store seg).
  - destruct ok, pinned, boosted, reverted; reflexivity.
  - eapply Forall_impl; [|exact F1].
    intros e He; destruct e; try discriminate He; reflexivity.
Qed.

(** On the synthetic machine: the second attempt to take the lock
    fails. *)
Lemma publication_all_or_nothing_witness :
  exists s',
    run (time_env true 10 1 0) 4 (mkSim 0 [true; false]) demo_config blank
    = Ret s'
    /\ lock_at_publication (trace s') = Some false
    /\ res s' = blank.
Proof.
  eexists. split; [vm_compute; reflexivity|].
  split; [vm_compute; reflexivity|].
  match goal with
  | |- context [res ?s] =>
      assert (Hrun : run (time_env true 10 1 0) 4 (mkSim 0 [true; false])
                       demo_config blank = Ret s) by (vm_compute; reflexivity);
      assert (Hlock : lock_at_publication (trace s) = Some false)
        by (vm_compute; reflexivity);
      destruct (publication_all_or_nothing (time_env true 10 1 0) _ _ _ _ _
                  Hrun Hlock) as (_ & R & _)
  end.
  exact R.
Defined.

(** ** The pass-count-bounded mode *)

Section SizeBased.

Context {Machine : Type}.
Variable E : Env Machine.

(** A [for] loop of a size-based build calls its kernel, and assigns
    [next_address] and [p] only. *)
Lemma for_passes_spec (role : Role) (fuel : nat) :
  forall s s' : St Machine,
    for_passes E fuel role s = Ret s' ->
    exists calls,
      trace s' = trace s ++ calls
      /\ Forall (fun e => is_call role e = true) calls
      /\ start_tick (loc s') = start_tick (loc s)
      /\ stop_tick (loc s') = stop_tick (loc s)
      /\ elapsed_ticks (loc s') = elapsed_ticks (loc s)
      /\ elapsed_dummy_ticks (loc s') = elapsed_dummy_ticks (loc s)
      /\ cfg s' = cfg s.
Proof.
  induction fuel as [|fuel IH]; intros s s' H; simpl in H;
    destruct (p (loc s) <? passes (loc s)); try discriminate;
    try (injection H as <-; exists []; rewrite app_nil_r;
         repeat split; auto).
  apply bind_Ret in H. destruct H as (s1 & H1 & H2).
  destruct (IH _ _ H2) as (calls & T & F & A & B & C & D & G).
  unfold call_kernel in H1.
  destruct (_ =? 0); [discriminate|]. injection H1 as <-.
  cbn [trace loc cfg assign set_loc log set_mach set_p set_next_address
       start_tick stop_tick elapsed_ticks elapsed_dummy_ticks]
    in T, A, B, C, D, G.
  eexists (_ :: calls).
  split; [rewrite T, <- app_assoc; reflexivity|].
  split; [constructor; [destruct role; reflexivity | exact F]|].
  repeat split; assumption.
Qed.

(** What a size-based build records: for each of its two timed runs, the
    tick read before the loop minus the tick read after it, in 64 bits. *)
Lemma size_based_elapsed_reversed (fuel : nat) (m : Machine)
    (c : WorkerConfig) (r : WorkerResult) (s' : St Machine) :
  mode E = USE_SIZE_BASED_BENCHMARKS ->
  run E fuel m c r = Ret s' ->
  exists pre calls_r calls_d post t0 t1 t2 t3,
    trace s'
    = pre ++ EvStartTimer t0 :: calls_r
      ++ EvStopTimer t1 :: EvStartTimer t2 :: calls_d
      ++ EvStopTimer t3 :: post
    /\ Forall (fun e => is_measurement e = false) pre
    /\ Forall (fun e => is_call RealKernel e = true) calls_r
    /\ Forall (fun e => is_call DummyKernel e = true) calls_d
    /\ Forall (fun e => is_measurement e = false) post
    /\ elapsed_ticks (loc s') = sub64 t0 t1
    /\ elapsed_dummy_ticks (loc s') = sub64 t2 t3.
Proof.
  intros Hm H.
  destruct (run_anatomy E _ _ _ _ _ H)
    as (s0 & s1 & seg & ok & pinned & boosted & reverted & ok2 & Hs0 & Hb & Hs'
        & T0 & _ & _ & T2 & _).
  destruct (prologue_state E (mkSt m c r (declarations E) []))
    as (_ & _ & E0 & D0 & _).
  rewrite <- Hs0 in E0, D0. cbn [loc] in E0, D0.
  destruct (declarations_zero E) as (Z1 & Z2 & _).
  rewrite Z1 in E0. rewrite Z2 in D0.
  destruct (epilogue_locals E s1) as (_ & _ & E2 & D2 & _).
  cbv zeta in E2, D2. rewrite <- Hs' in E2, D2.
  unfold run_benchmark in Hb. rewrite Hm in Hb.
  unfold size_based_benchmark in Hb.
  apply bind_Ret in Hb. destruct Hb as (sr & Hr & Hb).
  apply bind_Ret in Hb. destruct Hb as (sd & Hd & Hb).
  injection Hb as Hb.
  destruct (for_passes_spec _ _ _ _ Hr)
    as (calls_r & Tr & Fr & Ar & _ & Cr & Dr & _).
  destruct (for_passes_spec _ _ _ _ Hd)
    as (calls_d & Td & Fd & Ad & _ & Cd & Dd & _).
  set (t0 := wrap64 (fst (start_timer E (mach s0)))) in *.
  set (t1 := wrap64 (fst (stop_timer E (mach sr)))) in *.
  cbn [trace loc assign set_loc log set_mach set_p set_next_address
       read_start_timer read_stop_timer set_start_tick set_stop_tick
       set_elapsed_ticks set_elapsed_dummy_ticks
       start_tick stop_tick elapsed_ticks elapsed_dummy_ticks]
    in Tr, Ar, Cr, Dr, Td, Ad, Cd, Dd.
  fold t0 in Tr, Ar. fold t1 in Td, Ad, Cd, Dd.
  set (t2 := wrap64 (fst (start_timer E (mach (read_stop_timer E sr))))) in *.
  set (t3 := wrap64 (fst (stop_timer E (mach sd)))) in *.
  exists (trace s0), calls_r, calls_d, (after_benchmark pinned reverted ok2),
    t0, t1, t2, t3.
  split.
  { rewrite T2, <- Hb.
    cbn [trace loc assign set_loc log set_mach read_stop_timer].
    fold t3. rewrite Td, Tr, <- !app_assoc. reflexivity. }
  split; [rewrite T0; apply before_priming_quiet|].
  split; [exact Fr|]. split; [exact Fd|].
  split; [apply after_benchmark_quiet|].
  rewrite E2, D2, <- Hb.
  cbn [loc assign set_loc log set_mach read_stop_timer set_stop_tick
       set_elapsed_dummy_ticks elapsed_ticks elapsed_dummy_ticks
       start_tick stop_tick].
  fold t3. rewrite Cd, Dd, Ad, Cr, Dr, Ar, E0, D0.
  unfold add64. split; apply wrap64_small, wrap64_range.
Qed.

End SizeBased.

(** C4 on the code.  Ten passes of a real kernel of 1000 ticks and of a
    dummy kernel of 100 ticks, the timer going up from 104 to 10104 and
    from 10104 to 11104: the intervals measured are of 10000 and 1000
    ticks, and the elapsed ticks recorded and published are those
    durations negated in 64 bits. *)
Lemma size_based_elapsed_is_start_minus_stop :
  exists s',
    run (size_env (flat_cost 1000 100) no_writes) 10 (mkSim 100 [])
      demo_config blank = Ret s'
    /\ measured None (trace s')
       = [mkInterval 10000 10 0 0; mkInterval 1000 0 10 0]
    /\ _elapsed_ticks (res s') = 2 ^ 64 - 10000
    /\ _elapsed_dummy_ticks (res s') = 2 ^ 64 - 1000
    /\ _adjusted_ticks (res s') = 2 ^ 64 - 9000
    /\ _warning (res s') = true.
Proof.
  eexists. split; [vm_compute; reflexivity|].
  repeat split; vm_compute; reflexivity.
Qed.

(** ** Isolation of the snapshot *)

(** C6 on the code.  Two size-based runs from the same machine and the same
    object, the controller moving the region during the second one, after
    the snapshot: the dummy kernel of the second run is started at the new
    address, and the published results differ. *)
Lemma size_based_dummy_run_reads_shared_config :
  exists s1 s2,
    run (size_env placed_cost no_writes) 10 (mkSim 100 []) demo_config blank
    = Ret s1
    /\ run (size_env placed_cost move_region) 10 (mkSim 100 []) demo_config
         blank = Ret s2
    /\ In (EvKernel DummyKernel 2 4096 1024) (trace s1)
    /\ In (EvKernel DummyKernel 2 8192 1024) (trace s2)
    /\ _elapsed_dummy_ticks (res s1) = 2 ^ 64 - 1000
    /\ _elapsed_dummy_ticks (res s2) = 2 ^ 64 - 7000
    /\ res s1 <> res s2.
Proof.
  eexists. eexists.
  split; [vm_compute; reflexivity|]. split; [vm_compute; reflexivity|].
  split; [do 21 right; left; reflexivity|].
  split; [do 21 right; left; reflexivity|].
  split; [vm_compute; reflexivity|]. split; [vm_compute; reflexivity|].
  intros Heq. discriminate Heq.
Qed.

(** In a time-based build nothing reads the shared configuration after the
    snapshot: every phase that follows commutes with a write to it. *)

Section TimeBasedIsolation.

Context {Machine : Type}.
Variable E : Env Machine.

Local Abbreviation State := (St Machine).

Lemma bind_omap (f : State -> State) (o : outcome State)
    (k k' : State -> outcome State) :
  (forall s, k' (f s) = omap f (k s)) ->
  bind (omap f o) k' = omap f (bind o k).
Proof. intros Hk. destruct o; simpl; auto. Qed.

Variable c : WorkerConfig.

Lemma call_kernel_cfg (role : Role) (fptr length_arg : Z) (s : State) :
  call_kernel E role fptr length_arg (set_cfg c s)
  = omap (set_cfg c) (call_kernel E role fptr length_arg s).
Proof. unfold call_kernel. destruct (fptr =? 0); reflexivity. Qed.

Lemma unroll_cfg (stmt : State -> outcome State) :
  (forall s, stmt (set_cfg c s) = omap (set_cfg c) (stmt s)) ->
  forall n s, unroll n stmt (set_cfg c s) = omap (set_cfg c) (unroll n stmt s).
Proof.
  intros Hstmt. induction n as [|n IH]; intros s; [reflexivity|].
  cbn [unroll]. rewrite Hstmt. apply bind_omap. exact IH.
Qed.

Lemma real_batch_cfg (s : State) :
  real_batch E (set_cfg c s) = omap (set_cfg c) (real_batch E s).
Proof.
  unfold real_batch, UNROLL256.
  change (read_start_timer E (set_cfg c s))
    with (set_cfg c (read_start_timer E s)).
  rewrite unroll_cfg by (intros s0; apply call_kernel_cfg).
  apply bind_omap. reflexivity.
Qed.

Lemma dummy_batch_cfg (s : State) :
  dummy_batch E (set_cfg c s) = omap (set_cfg c) (dummy_batch E s).
Proof.
  unfold dummy_batch, UNROLL256.
  change (read_start_timer E (set_cfg c s))
    with (set_cfg c (read_start_timer E s)).
  rewrite unroll_cfg by (intros s0; apply call_kernel_cfg).
  apply bind_omap. reflexivity.
Qed.

Lemma real_loop_cfg (fuel : nat) :
  forall s,
    real_loop E fuel (set_cfg c s) = omap (set_cfg c) (real_loop E fuel s).
Proof.
  induction fuel as [|fuel IH]; intros s; cbn [real_loop];
    change (loc (set_cfg c s)) with (loc s);
    destruct (elapsed_ticks (loc s) <? target_ticks (loc s)); try reflexivity.
  rewrite real_batch_cfg. apply bind_omap. exact IH.
Qed.

Lemma dummy_loop_cfg (fuel : nat) :
  forall s,
    dummy_loop E fuel (set_cfg c s) = omap (set_cfg c) (dummy_loop E fuel s).
Proof.
  induction fuel as [|fuel IH]; intros s; cbn [dummy_loop];
    change (loc (set_cfg c s)) with (loc s);
    destruct (p (loc s) <? passes (loc s)); try reflexivity.
  rewrite dummy_batch_cfg. apply bind_omap. exact IH.
Qed.

Lemma time_based_benchmark_cfg (fuel : nat) (s : State) :
  time_based_benchmark E fuel (set_cfg c s)
  = omap (set_cfg c) (time_based_benchmark E fuel s).
Proof.
  unfold time_based_benchmark.
  change (assign (fun l => set_next_address (mem_array l) l) (set_cfg c s))
    with (set_cfg c (assign (fun l => set_next_address (mem_array l) l) s)).
  rewrite real_loop_cfg. apply bind_omap. intros s1.
  change (assign (fun l => set_next_address (mem_array l) l) (set_cfg c s1))
    with (set_cfg c (assign (fun l => set_next_address (mem_array l) l) s1)).
  apply dummy_loop_cfg.
Qed.

Lemma set_processor_affinity_cfg (s : State) :
  set_processor_affinity E (set_cfg c s)
  = set_cfg c (set_processor_affinity E s).
Proof.
  unfold set_processor_affinity.
  change (loc (set_cfg c s)) with (loc s).
  change (mach (set_cfg c s)) with (mach s).
  destruct (fst (lock_thread_to_cpu E (cpu_affinity (loc s)) (mach s)));
    reflexivity.
Qed.

Lemma increase_scheduling_priority_cfg (s : State) :
  increase_scheduling_priority E (set_cfg c s)
  = set_cfg c (increase_scheduling_priority E s).
Proof.
  unfold increase_scheduling_priority.
  change (mach (set_cfg c s)) with (mach s).
  destruct (fst (boostSchedulingPriority E (mach s))); reflexivity.
Qed.

Lemma before_benchmark_cfg (s : State) :
  prime_memory E
    (increase_scheduling_priority E (set_processor_affinity E (set_cfg c s)))
  = set_cfg c
      (prime_memory E
         (increase_scheduling_priority E (set_processor_affinity E s))).
Proof.
  rewrite set_processor_affinity_cfg, increase_scheduling_priority_cfg.
  reflexivity.
Qed.

Lemma warn_if_fishy_cfg (s : State) :
  warn_if_fishy E (set_cfg c s) = set_cfg c (warn_if_fishy E s).
Proof.
  unfold warn_if_fishy. change (loc (set_cfg c s)) with (loc s).
  destruct (looks_fishy E (loc s)); reflexivity.
Qed.

Lemma unset_processor_affinity_cfg (s : State) :
  unset_processor_affinity E (set_cfg c s)
  = set_cfg c (unset_processor_affinity E s).
Proof.
  unfold unset_processor_affinity. change (loc (set_cfg c s)) with (loc s).
  destruct (locked (loc s)); reflexivity.
Qed.

Lemma revert_thread_priority_cfg (s : State) :
  revert_thread_priority E (set_cfg c s)
  = set_cfg c (revert_thread_priority E s).
Proof.
  unfold revert_thread_priority. change (mach (set_cfg c s)) with (mach s).
  destruct (fst (revertSchedulingPriority E (mach s))); reflexivity.
Qed.

Lemma update_object_state_cfg (s : State) :
  update_object_state E (set_cfg c s) = set_cfg c (update_object_state E s).
Proof.
  unfold update_object_state. change (mach (set_cfg c s)) with (mach s).
  destruct (fst (_acquireLock E (-1) (mach s))); reflexivity.
Qed.

Lemma epilogue_cfg (s : State) :
  apart_from_cfg (epilogue E (set_cfg c s)) = apart_from_cfg (epilogue E s).
Proof.
  unfold epilogue.
  change (subtract_overhead (set_cfg c s))
    with (set_cfg c (subtract_overhead s)).
  rewrite warn_if_fishy_cfg, unset_processor_affinity_cfg,
    revert_thread_priority_cfg, update_object_state_cfg.
  reflexivity.
Qed.

End TimeBasedIsolation.

Section ControllerIndependence.

Context {Machine : Type}.
Variable E : Env Machine.
Variable ctl : WorkerConfig -> WorkerConfig.

Local Abbreviation E' := (with_controller ctl E).

Lemma bind_ext {A B : Type} (o : outcome A) (k k' : A -> outcome B) :
  (forall a, k a = k' a) -> bind o k = bind o k'.
Proof. intros Hk. destruct o; simpl; auto. Qed.

Lemma unroll_ext (stmt stmt' : St Machine -> outcome (St Machine)) :
  (forall s, stmt s = stmt' s) ->
  forall n s, unroll n stmt s = unroll n stmt' s.
Proof.
  intros Hs. induction n as [|n IH]; intros s; [reflexivity|].
  cbn [unroll]. rewrite Hs. apply bind_ext. exact IH.
Qed.

Lemma real_batch_ctl (s : St Machine) : real_batch E' s = real_batch E s.
Proof.
  unfold real_batch, UNROLL256.
  change (read_start_timer E' s) with (read_start_timer E s).
  rewrite (unroll_ext _ (fun s => call_kernel E RealKernel
                                    (kernel_fptr (loc s)) 0 s))
    by reflexivity.
  apply bind_ext. reflexivity.
Qed.

Lemma dummy_batch_ctl (s : St Machine) : dummy_batch E' s = dummy_batch E s.
Proof.
  unfold dummy_batch, UNROLL256.
  change (read_start_timer E' s) with (read_start_timer E s).
  rewrite (unroll_ext _ (fun s => call_kernel E DummyKernel
                                    (kernel_dummy_fptr (loc s)) 0 s))
    by reflexivity.
  apply bind_ext. reflexivity.
Qed.

Lemma real_loop_ctl (fuel : nat) :
  forall s, real_loop E' fuel s = real_loop E fuel s.
Proof.
  induction fuel as [|fuel IH]; intros s; [reflexivity|].
  cbn [real_loop]. rewrite real_batch_ctl.
  destruct (elapsed_ticks (loc s) <? target_ticks (loc s)); [|reflexivity].
  apply bind_ext. exact IH.
Qed.

Lemma dummy_loop_ctl (fuel : nat) :
  forall s, dummy_loop E' fuel s = dummy_loop E fuel s.
Proof.
  induction fuel as [|fuel IH]; intros s; [reflexivity|].
  cbn [dummy_loop]. rewrite dummy_batch_ctl.
  destruct (p (loc s) <? passes (loc s)); [|reflexivity].
  apply bind_ext. exact IH.
Qed.

Lemma time_based_benchmark_ctl (fuel : nat) (s : St Machine) :
  time_based_benchmark E' fuel s = time_based_benchmark E fuel s.
Proof.
  unfold time_based_benchmark. rewrite real_loop_ctl.
  apply bind_ext. intros s1. apply dummy_loop_ctl.
Qed.

Lemma snapshot_ctl (s : St Machine) : snapshot E' s = snapshot E s.
Proof. reflexivity. Qed.

Lemma set_processor_affinity_ctl (s : St Machine) :
  set_processor_affinity E' s = set_processor_affinity E s.
Proof. reflexivity. Qed.

Lemma increase_scheduling_priority_ctl (s : St Machine) :
  increase_scheduling_priority E' s = increase_scheduling_priority E s.
Proof. reflexivity. Qed.

Lemma prime_memory_ctl (s : St Machine) : prime_memory E' s = prime_memory E s.
Proof. reflexivity. Qed.

Lemma warn_if_fishy_ctl (s : St Machine) :
  warn_if_fishy E' s = warn_if_fishy E s.
Proof. reflexivity. Qed.

Lemma unset_processor_affinity_ctl (s : St Machine) :
  unset_processor_affinity E' s = unset_processor_affinity E s.
Proof. reflexivity. Qed.

Lemma revert_thread_priority_ctl (s : St Machine) :
  revert_thread_priority E' s = revert_thread_priority E s.
Proof. reflexivity. Qed.

Lemma update_object_state_ctl (s : St Machine) :
  update_object_state E' s = update_object_state E s.
Proof. reflexivity. Qed.

Lemma epilogue_ctl (s : St Machine) : epilogue E' s = epilogue E s.
Proof.
  unfold epilogue.
  rewrite warn_if_fishy_ctl, unset_processor_affinity_ctl,
    revert_thread_priority_ctl, update_object_state_ctl.
  reflexivity.
Qed.

Lemma declarations_ctl : declarations E' = declarations E.
Proof. reflexivity. Qed.

End ControllerIndependence.

(** What a time-based run does after its snapshot, from the state [s] the
    snapshot leaves. *)
Lemma time_based_run_after_snapshot {Machine : Type} (E : Env Machine)
    (fuel : nat) (m : Machine) (c : WorkerConfig) (r : WorkerResult) :
  mode E = USE_TIME_BASED_BENCHMARKS ->
  omap apart_from_cfg (run E fuel m c r)
  = omap apart_from_cfg
      (s <- time_based_benchmark E fuel
              (prime_memory E
                 (increase_scheduling_priority E
                    (set_processor_affinity E
                       (snapshot E (mkSt m c r (declarations E) []))))) ;;
       Ret (epilogue E s)).
Proof.
  intros Hm. unfold run, run_benchmark, prologue, controller_writes.
  rewrite Hm, before_benchmark_cfg, time_based_benchmark_cfg.
  destruct (time_based_benchmark E fuel _) as [s1| |]; try reflexivity.
  cbn [omap bind]. rewrite epilogue_cfg. reflexivity.
Qed.

(** X2.  Whatever the controller writes after the snapshot, a time-based run
    returns the same machine, result, variables and events. *)
Lemma time_based_snapshot_isolated {Machine : Type} (E : Env Machine)
    (ctl : WorkerConfig -> WorkerConfig) (fuel : nat) (m : Machine)
    (c : WorkerConfig) (r : WorkerResult) :
  mode E = USE_TIME_BASED_BENCHMARKS ->
  omap apart_from_cfg (run (with_controller ctl E) fuel m c r)
  = omap apart_from_cfg (run E fuel m c r).
Proof.
  intros Hm.
  rewrite (time_based_run_after_snapshot E _ _ _ _ Hm).
  rewrite (time_based_run_after_snapshot (with_controller ctl E) _ _ _ _ Hm).
  rewrite declarations_ctl, snapshot_ctl, set_processor_affinity_ctl,
    increase_scheduling_priority_ctl, prime_memory_ctl,
    time_based_benchmark_ctl.
  apply (f_equal (omap apart_from_cfg)). apply bind_ext. intros s.
  rewrite epilogue_ctl. reflexivity.
Qed.

(** On the synthetic machine: the controller moves the region during a
    time-based run, and the run is the one it would have been. *)
Lemma time_based_snapshot_isolated_witness :
  omap apart_from_cfg
    (run (with_controller move_region (time_env true 10 1 0)) 4 (mkSim 0 [])
       demo_config blank)
  = omap apart_from_cfg
      (run (time_env true 10 1 0) 4 (mkSim 0 []) demo_config blank).
Proof.
  exact (time_based_snapshot_isolated (time_env true 10 1 0) move_region 4
           (mkSim 0 []) demo_config blank eq_refl).
Defined.

(** ** The synthetic machine, from any tick *)

(** On the synthetic machine a batch of the real kernel at 10 ticks a call
    takes 2560 ticks wherever the counter stands, wrap-around included, so
    that a time-based run returns from any starting tick: here from one
    that wraps around during the run. *)

Lemma sub64_of_sum (c d : Z) : sub64 (wrap64 (c + d)) (wrap64 c) = wrap64 d.
Proof.
  unfold sub64, wrap64. rewrite <- Zminus_mod. f_equal. lia.
Qed.

Lemma sim_calls_clock (n : nat) :
  forall s s' : St Sim,
    kernel_fptr (loc s) = 1 ->
    unroll n (fun s => call_kernel (time_env true 10 1 0) RealKernel
                         (kernel_fptr (loc s)) 0 s) s = Ret s' ->
    clock (mach s') = clock (mach s) + 10 * Z.of_nat n.
Proof.
  induction n as [|n IH]; intros s s' Hk H.
  - cbn [unroll] in H. injection H as <-. cbn [Z.of_nat]. lia.
  - cbn [unroll] in H. apply bind_Ret in H. destruct H as (s1 & H1 & H2).
    unfold call_kernel in H1. rewrite Hk in H1. cbn [Z.eqb Pos.eqb] in H1.
    injection H1 as <-.
    eapply IH in H2; [|exact Hk].
    rewrite H2, Nat2Z.inj_succ.
    cbn [clock mach assign set_loc log set_mach tick flat_cost Z.eqb Pos.eqb].
    lia.
Qed.

Lemma sim_real_batch (s : St Sim) :
  kernel_fptr (loc s) = 1 ->
  exists s',
    real_batch (time_env true 10 1 0) s = Ret s'
    /\ elapsed_ticks (loc s') = add64 (elapsed_ticks (loc s)) 2560.
Proof.
  intros Hk.
  assert (Hk0 : kernel_fptr (loc s) <> 0) by (rewrite Hk; discriminate).
  unfold real_batch, UNROLL256.
  destruct (unroll_returns (time_env true 10 1 0) RealKernel kernel_fptr 0
              (fun _ _ => eq_refl) 256
              (read_start_timer (time_env true 10 1 0) s) Hk0) as [s1 H1].
  rewrite H1. cbn [bind]. eexists. split; [reflexivity|].
  destruct (unroll_calls _ _ _ _ _ _ _ H1) as (calls & _ & _ & _ & Q).
  pose proof (sim_calls_clock 256
                (read_start_timer (time_env true 10 1 0) s) s1 Hk H1) as Hc.
  cbn [loc assign set_loc read_stop_timer log set_mach set_stop_tick
       set_elapsed_ticks set_passes elapsed_ticks stop_tick start_tick].
  rewrite Q.
  cbn [loc assign set_loc read_start_timer log set_mach set_start_tick
       set_next_address elapsed_ticks start_tick].
  f_equal.
  change (fst (stop_timer (time_env true 10 1 0) (mach s1)))
    with (clock (mach s1)).
  change (fst (start_timer (time_env true 10 1 0) (mach s)))
    with (clock (mach s)).
  rewrite Hc.
  change (clock (mach (read_start_timer (time_env true 10 1 0) s)))
    with (clock (mach s) + 0).
  replace (clock (mach s) + 0 + 10 * Z.of_nat 256)
    with (clock (mach s) + 2560) by (cbn; lia).
  apply sub64_of_sum.
Qed.

Lemma time_based_run_returns_witness :
  exists fuel s',
    run (time_env true 10 1 0) fuel (mkSim (2 ^ 64 - 1000) []) demo_config
      blank = Ret s'.
Proof.
  apply (time_based_run_returns (time_env true 10 1 0) eq_refl
           (fun s => kernel_fptr (loc s) = 1
                     /\ kernel_dummy_fptr (loc s) = 2
                     /\ target_ticks (loc s) = 4000
                     /\ 0 <= elapsed_ticks (loc s))).
  - intros s (K1 & K2 & T & G) Hlt.
    destruct (sim_real_batch s K1) as (s' & H & He).
    exists s'. split; [exact H|].
    destruct (measures_real_batch _ _ _ H) as (_ & _ & _ & _ & _ & S1 & _).
    destruct (setup_eq _ _ S1) as (_ & _ & _ & T1 & _ & _ & K1' & K2').
    assert (He' : elapsed_ticks (loc s') = elapsed_ticks (loc s) + 2560).
    { rewrite He. unfold add64. apply wrap64_small. unfold in_range. lia. }
    repeat split; try congruence; lia.
  - intros s (_ & K2 & _). rewrite K2. discriminate.
  - repeat split; try reflexivity; discriminate.
Defined.

(** * More of the run *)

(** ** Best-effort steps *)

Lemma filter_none (f : Event -> bool) (a : list Event) :
  Forall (fun e => f e = false) a -> filter f a = [].
Proof.
  induction 1 as [|e a He _ IH]; [reflexivity|].
  simpl. rewrite He. exact IH.
Qed.

(** X3.  Once the benchmark has returned, the run returns, whatever the
    outcomes of its three best-effort steps: no failed step stops it.  The
    steps are each attempted once, in the order pin, boost, revert, and a
    warning is printed right after each one that fails and after no
    other. *)
Theorem steps_and_warnings {Machine : Type} (E : Env Machine) (fuel : nat)
    (m : Machine) (c : WorkerConfig) (r : WorkerResult) (s1 : St Machine) :
  run_benchmark E fuel (prologue E (mkSt m c r (declarations E) [])) = Ret s1 ->
  exists s' pinned boosted reverted,
    run E fuel m c r = Ret s'
    /\ filter is_step (trace s')
       = attempt (EvLockThreadToCpu (cpu_affinity (loc s')) pinned)
           (FailedToLockThread (cpu_affinity (loc s'))) pinned
         ++ attempt (EvBoostPriority boosted) FailedToBoostPriority boosted
         ++ attempt (EvRevertPriority reverted) FailedToRevertPriority reverted
    /\ locked (loc s') = pinned.
Proof.
  intros Hb.
  assert (H : run E fuel m c r = Ret (epilogue E s1)).
  { unfold run. rewrite Hb. reflexivity. }
  remember (epilogue E s1) as s' eqn:Es'.
  destruct (run_anatomy E _ _ _ _ _ H)
    as (s0 & s1' & seg & ok & pinned & boosted & reverted & ok2 & _ & _ & _
        & T0 & T1 & F1 & T2 & _ & Hpin & _).
  exists s', pinned, boosted, reverted.
  split; [exact H|]. split; [|symmetry; exact Hpin].
  rewrite T2, T1, T0, !filter_app, (filter_none is_step seg).
  - destruct ok, pinned, boosted, reverted, ok2; reflexivity.
  - eapply Forall_impl; [|exact F1].
    intros e He; destruct e; try discriminate He; reflexivity.
Qed.

(** On the synthetic machine, the three steps failing: the run returns,
    with the three warnings. *)
Lemma steps_and_warnings_witness :
  exists s1 s',
    run_benchmark
      (sim_env USE_TIME_BASED_BENCHMARKS 1000 4 500 false false false
         (flat_cost 10 1) demo_chase 0 no_writes) 4
      (prologue
         (sim_env USE_TIME_BASED_BENCHMARKS 1000 4 500 false false false
            (flat_cost 10 1) demo_chase 0 no_writes)
         (mkSt (mkSim 0 []) demo_config blank
            (declarations
               (sim_env USE_TIME_BASED_BENCHMARKS 1000 4 500 false false
                  false (flat_cost 10 1) demo_chase 0 no_writes)) []))
    = Ret s1
    /\ run
         (sim_env USE_TIME_BASED_BENCHMARKS 1000 4 500 false false false
            (flat_cost 10 1) demo_chase 0 no_writes) 4 (mkSim 0 [])
         demo_config blank = Ret s'
    /\ filter is_step (trace s')
       = [EvLockThreadToCpu 3 false; EvCerr (FailedToLockThread 3);
          EvBoostPriority false; EvCerr FailedToBoostPriority;
          EvRevertPriority false; EvCerr FailedToRevertPriority].
Proof.
  set (E := sim_env USE_TIME_BASED_BENCHMARKS 1000 4 500 false false false
              (flat_cost 10 1) demo_chase 0 no_writes).
  assert (Hb : exists s1,
             run_benchmark E 4
               (prologue E
                  (mkSt (mkSim 0 []) demo_config blank (declarations E) []))
             = Ret s1)
    by (eexists; vm_compute; reflexivity).
  destruct Hb as [s1 Hb]. exists s1.
  destruct (steps_and_warnings E 4 (mkSim 0 []) demo_config blank s1 Hb)
    as (s' & pinned & boosted & reverted & Hrun & _).
  exists s'. split; [exact Hb|]. split; [exact Hrun|].
  assert (Hc : exists s,
             run E 4 (mkSim 0 []) demo_config blank = Ret s
             /\ filter is_step (trace s)
                = [EvLockThreadToCpu 3 false; EvCerr (FailedToLockThread 3);
                   EvBoostPriority false; EvCerr FailedToBoostPriority;
                   EvRevertPriority false; EvCerr FailedToRevertPriority]).
  { eexists. split; vm_compute; reflexivity. }
  destruct Hc as (s & Hs & Fs).
  rewrite Hrun in Hs. injection Hs as <-. exact Fs.
Defined.

(** ** The lock *)




(** ** When the dummy run is not the shorter one *)

(** X5.  When the published dummy ticks reach the published real ticks, the
    subtraction of line 177 wraps around: the adjusted ticks are 0 when the
    two are equal and 2^64 less the excess of the dummy ticks otherwise, and
    the warning is published. *)
Theorem adjusted_ticks_wrap {Machine : Type} (E : Env Machine) (fuel : nat)
    (m : Machine) (c : WorkerConfig) (r : WorkerResult) (s' : St Machine) :
  run E fuel m c r = Ret s' ->
  lock_at_publication (trace s') = Some true ->
  _elapsed_ticks (res s') <= _elapsed_dummy_ticks (res s') ->
  _warning (res s') = true
  /\ (_elapsed_dummy_ticks (res s') = _elapsed_ticks (res s') ->
      _adjusted_ticks (res s') = 0)
  /\ (_elapsed_ticks (res s') < _elapsed_dummy_ticks (res s') ->
      _adjusted_ticks (res s')
      = 2 ^ 64 - (_elapsed_dummy_ticks (res s') - _elapsed_ticks (res s'))).
Proof.
  intros H L.
  destruct (run_anatomy E _ _ _ _ _ H)
    as (s0 & s1 & seg & ok & pinned & boosted & reverted & ok2 & _ & _ & _
        & _ & _ & _ & _ & _ & _ & R2 & [Ge Gd] & A & W & Q).
  unfold lock_at_publication in L. rewrite Q in L. injection L as ->.
  rewrite R2. cbn [_warning _elapsed_ticks _elapsed_dummy_ticks _adjusted_ticks].
  intros Hle. unfold in_range in Ge, Gd.
  split.
  { rewrite W. unfold looks_fishy.
    replace (elapsed_dummy_ticks (loc s') >=? elapsed_ticks (loc s'))
      with true; [reflexivity|].
    symmetry. apply Z.geb_le. exact Hle. }
  rewrite A. unfold sub64, wrap64. split.
  - intros ->. rewrite Z.sub_diag. reflexivity.
  - intros Hlt.
    rewrite <- (Z_mod_plus_full _ 1). rewrite Z.mod_small by lia. lia.
Qed.

Lemma adjusted_ticks_wrap_witness :
  exists s',
    run (time_env true 10 20 0) 4 (mkSim 0 []) demo_config blank = Ret s'
    /\ _elapsed_ticks (res s') = 5120
    /\ _elapsed_dummy_ticks (res s') = 10240
    /\ _adjusted_ticks (res s') = 2 ^ 64 - 5120
    /\ _warning (res s') = true.
Proof.
  eexists. split; [vm_compute; reflexivity|].
  split; [reflexivity|]. split; [reflexivity|]. split; [reflexivity|].
  match goal with
  | |- context [res ?s] =>
      assert (Hrun : run (time_env true 10 20 0) 4 (mkSim 0 []) demo_config
                       blank = Ret s) by (vm_compute; reflexivity);
      assert (Hlock : lock_at_publication (trace s) = Some true)
        by (vm_compute; reflexivity);
      destruct (adjusted_ticks_wrap (time_env true 10 20 0) _ _ _ _ _ Hrun
                  Hlock) as (W & _)
  end.
  - vm_compute. discriminate.
  - exact W.
Defined.

(** ** Loops that run no iteration *)

Section EmptyLoops.

Context {Machine : Type}.
Variable E : Env Machine.

Lemma real_loop_done (fuel : nat) (s : St Machine) :
  target_ticks (loc s) <= elapsed_ticks (loc s) ->
  real_loop E fuel s = Ret s.
Proof.
  intros Hle. apply Z.ltb_ge in Hle.
  destruct fuel; cbn [real_loop]; rewrite Hle; reflexivity.
Qed.

Lemma dummy_loop_done (fuel : nat) (s : St Machine) :
  passes (loc s) <= p (loc s) ->
  dummy_loop E fuel s = Ret s.
Proof.
  intros Hle. apply Z.ltb_ge in Hle.
  destruct fuel; cbn [dummy_loop]; rewrite Hle; reflexivity.
Qed.

Lemma for_passes_done (fuel : nat) (role : Role) (s : St Machine) :
  passes (loc s) <= p (loc s) ->
  for_passes E fuel role s = Ret s.
Proof.
  intros Hle. apply Z.ltb_ge in Hle.
  destruct fuel; cbn [for_passes]; rewrite Hle; reflexivity.
Qed.

(** A call through [NULL] stops an unrolled batch at once. *)
Lemma unroll_fault (role : Role) (fp : Locals -> Z) (length_arg : Z)
    (n : nat) (s : St Machine) :
  fp (loc s) = 0 ->
  unroll (S n) (fun s => call_kernel E role (fp (loc s)) length_arg s) s
  = Fault.
Proof.
  intros Hz. cbn [unroll]. unfold call_kernel. rewrite Hz. reflexivity.
Qed.

End EmptyLoops.

(** ** What the snapshot leaves *)

(** The variables copied under the lock hold the configuration when the
    lock was obtained, and their initial values otherwise. *)
Lemma prologue_copies {Machine : Type} (E : Env Machine) (s : St Machine) :
  let ok := fst (_acquireLock E (-1) (mach s)) in
  let l := loc (prologue E s) in
  kernel_fptr l = (if ok then __kernel_fptr (cfg s) else kernel_fptr (loc s))
  /\ kernel_dummy_fptr l
     = (if ok then __kernel_dummy_fptr (cfg s) else kernel_dummy_fptr (loc s))
  /\ cpu_affinity l
     = (if ok then _cpu_affinity (cfg s) else cpu_affinity (loc s))
  /\ bytes_per_pass l
     = (if ok then mul64 (LATENCY_BENCHMARK_UNROLL_LENGTH E) 8
        else bytes_per_pass (loc s))
  /\ (mode E = USE_SIZE_BASED_BENCHMARKS ->
      passes l = (if ok then _passes_per_iteration (cfg s) else passes (loc s))).
Proof.
  destruct (prologue_spec E s) as (ok & pinned & boosted & Hok & L & _).
  cbv zeta. rewrite L, <- Hok. unfold copy_config.
  destruct ok, (mode E); repeat split; try reflexivity; intros; discriminate.
Qed.

Lemma declarations_null {Machine : Type} (E : Env Machine) :
  kernel_fptr (declarations E) = 0
  /\ kernel_dummy_fptr (declarations E) = 0
  /\ bytes_per_pass (declarations E) = 0
  /\ cpu_affinity (declarations E) = 0.
Proof. unfold declarations. destruct (mode E); repeat split; reflexivity. Qed.

(** X6.  In a time-based build with a positive target, a run that did not
    obtain the lock of the snapshot, or whose configuration holds a [NULL]
    real kernel, calls through a [NULL] function pointer in its first batch. *)
Theorem null_kernel_is_called {Machine : Type} (E : Env Machine) (fuel : nat)
    (m : Machine) (c : WorkerConfig) (r : WorkerResult) :
  mode E = USE_TIME_BASED_BENCHMARKS ->
  0 < mul64 (g_ticks_per_sec E) (BENCHMARK_DURATION_SEC E) ->
  fst (_acquireLock E (-1) m) = false \/ __kernel_fptr c = 0 ->
  run E (S fuel) m c r = Fault.
Proof.
  intros Hm Ht Hnull.
  set (s0 := prologue E (mkSt m c r (declarations E) [])).
  destruct (prologue_copies E (mkSt m c r (declarations E) []))
    as (K & _).
  destruct (prologue_state E (mkSt m c r (declarations E) []))
    as (_ & _ & E0 & _ & _ & G0 & _).
  fold s0 in K, E0, G0. cbn [mach cfg loc] in K, E0, G0.
  destruct (declarations_zero E) as (Z1 & _).
  destruct (declarations_null E) as (N1 & _).
  assert (G : target_ticks (declarations E)
              = mul64 (g_ticks_per_sec E) (BENCHMARK_DURATION_SEC E)).
  { unfold declarations. rewrite Hm. reflexivity. }
  assert (K0 : kernel_fptr (loc s0) = 0).
  { rewrite K. destruct Hnull as [-> | Hc]; [exact N1|].
    destruct (fst (_acquireLock E (-1) m)); [exact Hc | exact N1]. }
  unfold run, run_benchmark. rewrite Hm. fold s0.
  unfold time_based_benchmark. cbn [real_loop].
  cbn [loc assign set_loc set_next_address elapsed_ticks target_ticks].
  rewrite E0, G0, Z1, G.
  apply Z.ltb_lt in Ht. rewrite Ht.
  unfold real_batch, UNROLL256. change 256%nat with (S 255).
  rewrite (unroll_fault E RealKernel kernel_fptr 0 255); [reflexivity|].
  exact K0.
Qed.

Lemma null_kernel_is_called_witness :
  run (time_env true 10 1 0) 1 (mkSim 0 [false]) demo_config blank = Fault.
Proof.
  apply (null_kernel_is_called (time_env true 10 1 0) 0 (mkSim 0 [false])
           demo_config blank); [reflexivity | reflexivity | left; reflexivity].
Defined.

(** ** The loops of a size-based build *)

Section SizeBasedLoops.

Context {Machine : Type}.
Variable E : Env Machine.

(** A [for] loop makes one call per value of [p] from where it starts up
    to [passes]. *)
Lemma for_passes_count (role : Role) (fuel : nat) :
  forall s s' : St Machine,
    for_passes E fuel role s = Ret s' ->
    exists calls,
      trace s' = trace s ++ calls
      /\ Forall (fun e => is_call role e = true) calls
      /\ passes (loc s') = passes (loc s)
      /\ (0 <= p (loc s) <= passes (loc s) ->
          passes (loc s) < 2 ^ 64 ->
          Z.of_nat (length calls) = passes (loc s) - p (loc s)).
Proof.
  induction fuel as [|fuel IH]; intros s s' H; cbn [for_passes] in H;
    destruct (p (loc s) <? passes (loc s)) eqn:Hc; try discriminate;
    try (injection H as <-; exists []; rewrite app_nil_r;
         apply Z.ltb_ge in Hc;
         split; [reflexivity|]; split; [constructor|];
         split; [reflexivity|]; intros; cbn [length Z.of_nat]; lia).
  apply Z.ltb_lt in Hc.
  apply bind_Ret in H. destruct H as (s1 & H1 & H2).
  destruct (IH _ _ H2) as (calls & T & F & P & N).
  unfold call_kernel in H1.
  destruct (_ =? 0); [discriminate|]. injection H1 as <-.
  cbn [trace loc assign set_loc log set_mach set_p set_next_address
       passes p] in T, P, N.
  eexists (_ :: calls).
  split; [rewrite T, <- app_assoc; reflexivity|].
  split; [constructor; [destruct role; reflexivity | exact F]|].
  split; [exact P|].
  intros Hp Hb. cbn [length]. rewrite Nat2Z.inj_succ.
  unfold add64 in N. rewrite wrap64_small in N by (unfold in_range; lia).
  rewrite N by lia. lia.
Qed.

(** A [for] loop returns, given fuel for the calls still to make, when it
    has no call to make or its kernel is not [NULL]. *)
Lemma for_passes_returns (role : Role) (fuel : nat) :
  forall s : St Machine,
    role_fptr role (loc s) <> 0 \/ passes (loc s) <= p (loc s) ->
    0 <= p (loc s) ->
    passes (loc s) < 2 ^ 64 ->
    passes (loc s) - p (loc s) <= Z.of_nat fuel ->
    exists s', for_passes E fuel role s = Ret s'.
Proof.
  induction fuel as [|fuel IH]; intros s Hk Hp Hb Hf; cbn [for_passes];
    destruct (p (loc s) <? passes (loc s)) eqn:Hc;
    try (exists s; reflexivity).
  - apply Z.ltb_lt in Hc. exfalso. lia.
  - apply Z.ltb_lt in Hc.
    destruct Hk as [Hk|Hk]; [|exfalso; lia].
    unfold call_kernel. fold (role_fptr role (loc s)).
    destruct (role_fptr role (loc s) =? 0) eqn:Hz;
      [apply Z.eqb_eq in Hz; contradiction|].
    cbn [bind]. apply IH;
      cbn [loc assign set_loc log set_mach set_p set_next_address passes p].
    + left. destruct role; exact Hk.
    + unfold add64. rewrite wrap64_small by (unfold in_range; lia). lia.
    + exact Hb.
    + unfold add64. rewrite wrap64_small by (unfold in_range; lia). lia.
Qed.

End SizeBasedLoops.

(** One timer pair around a whole loop is measured as one interval. *)
Lemma timed_loop_measured (role : Role) (calls : list Event) (t0 t1 : Z)
    (rest : list Event) :
  Forall (fun e => is_call role e = true) calls ->
  measured None ((EvStartTimer t0 :: calls ++ [EvStopTimer t1]) ++ rest)
  = close t1 (calls_in role (length calls) (mkInterval t0 0 0 0))
    :: measured None rest.
Proof.
  intros F. rewrite measured_app. cbn [measured still_open].
  destruct (measured_calls role calls t1 F (mkInterval t0 0 0 0)) as [M O].
  rewrite M, O. reflexivity.
Qed.

Section SizeBasedRun.

Context {Machine : Type}.
Variable E : Env Machine.
Hypothesis size_based : mode E = USE_SIZE_BASED_BENCHMARKS.

(** The anatomy of a size-based run: one timed loop of the real kernel, one
    of the dummy kernel, and what is recorded of them. *)
Lemma size_based_anatomy (fuel : nat) (m : Machine) (c : WorkerConfig)
    (r : WorkerResult) (s' : St Machine) :
  run E fuel m c r = Ret s' ->
  exists t0 t1 t2 t3 calls_r calls_d pre post,
    trace s'
    = pre ++ (EvStartTimer t0 :: calls_r ++ [EvStopTimer t1])
      ++ (EvStartTimer t2 :: calls_d ++ [EvStopTimer t3]) ++ post
    /\ Forall (fun e => is_measurement e = false) pre
    /\ Forall (fun e => is_measurement e = false) post
    /\ Forall (fun e => is_call RealKernel e = true) calls_r
    /\ Forall (fun e => is_call DummyKernel e = true) calls_d
    /\ elapsed_ticks (loc s') = sub64 t0 t1
    /\ elapsed_dummy_ticks (loc s') = sub64 t2 t3
    /\ (in_range (passes (loc s')) ->
        Z.of_nat (length calls_r) = passes (loc s')
        /\ Z.of_nat (length calls_d) = passes (loc s'))
    /\ passes (loc s')
       = (if fst (_acquireLock E (-1) m) then _passes_per_iteration c else 0).
Proof.
  intros H.
  destruct (run_anatomy E _ _ _ _ _ H)
    as (s0 & s1 & seg & ok & pinned & boosted & reverted & ok2 & Hs0 & Hb & Hs'
        & T0 & _ & _ & T2 & _).
  destruct (prologue_state E (mkSt m c r (declarations E) []))
    as (_ & _ & E0 & D0 & _).
  destruct (prologue_copies E (mkSt m c r (declarations E) []))
    as (_ & _ & _ & _ & P0).
  specialize (P0 size_based).
  rewrite <- Hs0 in E0, D0, P0. cbn [loc mach cfg] in E0, D0, P0.
  destruct (declarations_zero E) as (Z1 & Z2 & Z3 & _).
  rewrite Z1 in E0. rewrite Z2 in D0. rewrite Z3 in P0.
  destruct (epilogue_locals E s1) as (_ & _ & E2 & D2 & P2 & _).
  cbv zeta in E2, D2, P2. rewrite <- Hs' in E2, D2, P2.
  unfold run_benchmark in Hb. rewrite size_based in Hb.
  unfold size_based_benchmark in Hb.
  apply bind_Ret in Hb. destruct Hb as (sr & Hr & Hb).
  apply bind_Ret in Hb. destruct Hb as (sd & Hd & Hb).
  injection Hb as Hb.
  destruct (for_passes_spec _ _ _ _ _ Hr)
    as (calls_r & Tr & Fr & Ar & _ & Cr & Dr & _).
  destruct (for_passes_spec _ _ _ _ _ Hd)
    as (calls_d & Td & Fd & Ad & _ & Cd & Dd & _).
  destruct (for_passes_count _ _ _ _ _ Hr) as (calls_r' & Tr' & _ & Pr & Nr).
  destruct (for_passes_count _ _ _ _ _ Hd) as (calls_d' & Td' & _ & Pd & Nd).
  rewrite Tr in Tr'. apply app_inv_head in Tr'. subst calls_r'.
  rewrite Td in Td'. apply app_inv_head in Td'. subst calls_d'.
  set (t0 := wrap64 (fst (start_timer E (mach s0)))) in *.
  set (t1 := wrap64 (fst (stop_timer E (mach sr)))) in *.
  cbn [trace loc assign set_loc log set_mach set_p set_next_address
       read_start_timer read_stop_timer set_start_tick set_stop_tick
       set_elapsed_ticks set_elapsed_dummy_ticks
       start_tick stop_tick elapsed_ticks elapsed_dummy_ticks passes p]
    in Tr, Ar, Cr, Dr, Td, Ad, Cd, Dd, Pr, Nr, Pd, Nd.
  fold t0 in Tr, Ar. fold t1 in Td, Ad, Cd, Dd.
  set (t2 := wrap64 (fst (start_timer E (mach (read_stop_timer E sr))))) in *.
  set (t3 := wrap64 (fst (stop_timer E (mach sd)))) in *.
  assert (Ps : passes (loc s') = passes (loc s0)).
  { rewrite P2, <- Hb.
    cbn [loc assign set_loc log set_mach read_stop_timer set_stop_tick
         set_elapsed_dummy_ticks passes].
    rewrite Pd, Pr. reflexivity. }
  exists t0, t1, t2, t3, calls_r, calls_d, (trace s0),
    (after_benchmark pinned reverted ok2).
  split.
  { rewrite T2, <- Hb.
    cbn [trace loc assign set_loc log set_mach read_stop_timer].
    fold t3. rewrite Td, Tr, <- !app_assoc. cbn [app].
    rewrite <- !app_assoc. reflexivity. }
  split; [rewrite T0; apply before_priming_quiet|].
  split; [apply after_benchmark_quiet|].
  split; [exact Fr|]. split; [exact Fd|].
  split.
  { rewrite E2, <- Hb.
    cbn [loc assign set_loc log set_mach read_stop_timer set_stop_tick
         set_elapsed_dummy_ticks elapsed_ticks].
    rewrite Cd, Cr, Ar, E0. unfold add64. apply wrap64_small, wrap64_range. }
  split.
  { rewrite D2, <- Hb.
    cbn [loc assign set_loc log set_mach read_stop_timer set_stop_tick
         set_elapsed_dummy_ticks elapsed_dummy_ticks start_tick stop_tick].
    fold t3. rewrite Dd, Ad, Dr, D0.
    unfold add64. apply wrap64_small, wrap64_range. }
  split; [|rewrite Ps; exact P0].
  rewrite Ps. intros [Hlo Hhi]. split.
  - rewrite Nr by lia. lia.
  - rewrite Nd, Pr by (rewrite ?Pr; lia). lia.
Qed.

End SizeBasedRun.

Section SizeBasedReturns.

Context {Machine : Type}.
Variable E : Env Machine.
Hypothesis size_based : mode E = USE_SIZE_BASED_BENCHMARKS.

Lemma size_based_benchmark_returns (fuel : nat) (s : St Machine) :
  (kernel_fptr (loc s) <> 0 /\ kernel_dummy_fptr (loc s) <> 0)
  \/ passes (loc s) <= 0 ->
  passes (loc s) < 2 ^ 64 ->
  passes (loc s) <= Z.of_nat fuel ->
  exists s', size_based_benchmark E fuel s = Ret s'.
Proof.
  intros Hk Hb Hf. unfold size_based_benchmark.
  set (a := assign (set_p 0)
              (read_start_timer E
                 (assign (fun l => set_next_address (mem_array l) l) s))).
  destruct (for_passes_returns E RealKernel fuel a) as (sr & Hr).
  { destruct Hk as [[K _]|K]; [left; exact K | right; exact K]. }
  { cbn. lia. }
  { exact Hb. }
  { cbn [a loc assign set_loc set_p p passes read_start_timer log set_mach
         set_start_tick set_next_address]. lia. }
  rewrite Hr. cbn [bind].
  destruct (for_passes_count E _ _ _ _ Hr) as (_ & _ & _ & Pr & _).
  destruct (measures_for_passes E _ _ _ _ Hr) as (_ & _ & _ & _ & _ & Sr & _).
  destruct (setup_eq _ _ Sr) as (_ & _ & _ & _ & _ & _ & _ & Kd).
  cbn [a loc assign set_loc set_p passes read_start_timer log set_mach
       set_start_tick set_next_address kernel_dummy_fptr] in Pr, Kd.
  match goal with
  | |- exists s', bind (for_passes E fuel DummyKernel ?b) _ = Ret s' =>
      destruct (for_passes_returns E DummyKernel fuel b) as (sd & Hd)
  end.
  { cbn [role_fptr loc assign set_loc set_p p passes read_start_timer
         read_stop_timer log set_mach set_start_tick set_stop_tick
         set_next_address set_elapsed_ticks kernel_dummy_fptr].
    rewrite Kd, Pr.
    destruct Hk as [[_ K]|K]; [left; exact K | right; exact K]. }
  { cbn. lia. }
  { cbn [loc assign set_loc set_p p passes read_start_timer
         read_stop_timer log set_mach set_start_tick set_stop_tick
         set_next_address set_elapsed_ticks].
    rewrite Pr. exact Hb. }
  { cbn [loc assign set_loc set_p p passes read_start_timer
         read_stop_timer log set_mach set_start_tick set_stop_tick
         set_next_address set_elapsed_ticks].
    rewrite Pr. lia. }
  rewrite Hd. cbn [bind]. eexists. reflexivity.
Qed.

Lemma size_based_run_returns_from (fuel : nat) (m : Machine)
    (c : WorkerConfig) (r : WorkerResult) :
  (fst (_acquireLock E (-1) m) = true ->
   in_range (_passes_per_iteration c)
   /\ __kernel_fptr c <> 0
   /\ __kernel_dummy_fptr c <> 0
   /\ (Z.to_nat (_passes_per_iteration c) <= fuel)%nat) ->
  exists s', run E fuel m c r = Ret s'.
Proof.
  intros Hk.
  set (s0 := prologue E (mkSt m c r (declarations E) [])).
  destruct (prologue_copies E (mkSt m c r (declarations E) []))
    as (K1 & K2 & _ & _ & P0).
  specialize (P0 size_based). fold s0 in K1, K2, P0.
  cbn [mach cfg loc] in K1, K2, P0.
  destruct (declarations_zero E) as (_ & _ & Z3 & _).
  rewrite Z3 in P0.
  destruct (size_based_benchmark_returns fuel s0) as (s1 & H1).
  { rewrite K1, K2, P0.
    destruct (fst (_acquireLock E (-1) m)).
    - destruct (Hk eq_refl) as (_ & Ka & Kb & _). left. split; assumption.
    - right. lia. }
  { rewrite P0. destruct (fst (_acquireLock E (-1) m)); [|lia].
    destruct (Hk eq_refl) as ([_ Hhi] & _). exact Hhi. }
  { rewrite P0. destruct (fst (_acquireLock E (-1) m)); [|lia].
    destruct (Hk eq_refl) as ([Hlo _] & _ & _ & Hf). lia. }
  exists (epilogue E s1).
  unfold run, run_benchmark. rewrite size_based. fold s0. rewrite H1.
  reflexivity.
Qed.

End SizeBasedReturns.

(** The intervals measured in a size-based run. *)
Lemma size_based_measured {Machine : Type} (E : Env Machine) (fuel : nat)
    (m : Machine) (c : WorkerConfig) (r : WorkerResult) (s' : St Machine) :
  mode E = USE_SIZE_BASED_BENCHMARKS ->
  run E fuel m c r = Ret s' ->
  exists d_r d_d n_r n_d,
    measured None (trace s') = [mkInterval d_r n_r 0 0; mkInterval d_d 0 n_d 0]
    /\ in_range d_r /\ in_range d_d
    /\ elapsed_ticks (loc s') = wrap64 (- d_r)
    /\ elapsed_dummy_ticks (loc s') = wrap64 (- d_d)
    /\ (in_range (passes (loc s')) ->
        Z.of_nat n_r = passes (loc s') /\ Z.of_nat n_d = passes (loc s'))
    /\ passes (loc s')
       = (if fst (_acquireLock E (-1) m) then _passes_per_iteration c else 0).
Proof.
  intros Hm H.
  destruct (size_based_anatomy E Hm _ _ _ _ _ H)
    as (t0 & t1 & t2 & t3 & calls_r & calls_d & pre & post & T & Fpre & Fpost
        & Fr & Fd & He & Hd & N & P).
  assert (Hsilent : forall a,
             Forall (fun e => is_measurement e = false) a ->
             Forall (fun e => is_timer e = false) a).
  { intros a Fa. eapply Forall_impl; [|exact Fa].
    intros e Hx. destruct e; try discriminate Hx; reflexivity. }
  destruct (measured_quiet pre (Hsilent _ Fpre)) as [Mpre Opre].
  destruct (measured_quiet post (Hsilent _ Fpost)) as [Mpost _].
  exists (sub64 t1 t0), (sub64 t3 t2), (length calls_r), (length calls_d).
  split.
  { rewrite T, measured_app, Mpre, Opre.
    rewrite (timed_loop_measured RealKernel _ _ _ _ Fr).
    rewrite (timed_loop_measured DummyKernel _ _ _ _ Fd).
    rewrite Mpost. cbn [app calls_in close ticks real_calls dummy_calls
      priming_reads]. rewrite !Nat.add_0_r. reflexivity. }
  split; [apply wrap64_range|]. split; [apply wrap64_range|].
  assert (Hneg : forall a b, sub64 a b = wrap64 (- sub64 b a)).
  { intros a b. unfold sub64, wrap64.
    rewrite <- (Z.sub_0_l ((b - a) mod 2 ^ 64)), Zminus_mod_idemp_r.
    f_equal. lia. }
  split; [rewrite He; apply Hneg|]. split; [rewrite Hd; apply Hneg|].
  split; assumption.
Qed.

(** ** The pass-count-bounded mode, run by run *)



(** X8.  A size-based run returns, given fuel for its pass count, when
    neither kernel of its configuration is [NULL]: it needs no progress of
    the timer. *)
Theorem size_based_run_returns {Machine : Type} (E : Env Machine)
    (fuel : nat) (m : Machine) (c : WorkerConfig) (r : WorkerResult) :
  mode E = USE_SIZE_BASED_BENCHMARKS ->
  in_range (_passes_per_iteration c) ->
  __kernel_fptr c <> 0 ->
  __kernel_dummy_fptr c <> 0 ->
  (Z.to_nat (_passes_per_iteration c) <= fuel)%nat ->
  exists s', run E fuel m c r = Ret s'.
Proof.
  intros Hm Hr K1 K2 Hf.
  apply (size_based_run_returns_from E Hm). intros _. auto.
Qed.

Lemma size_based_run_returns_witness :
  exists s',
    run (size_env (flat_cost 1000 100) no_writes) 10 (mkSim 100 [])
      demo_config blank = Ret s'.
Proof.
  apply (size_based_run_returns (size_env (flat_cost 1000 100) no_writes) 10
           (mkSim 100 []) demo_config blank).
  - reflexivity.
  - unfold in_range. cbn. lia.
  - discriminate.
  - discriminate.
  - cbn. lia.
Defined.

(** X9.  A size-based run that did not obtain the lock of the snapshot
    returns whatever the fuel: it reads the timer around two loops that make
    no call, on a pass count of zero. *)
Theorem size_based_without_snapshot {Machine : Type} (E : Env Machine)
    (fuel : nat) (m : Machine) (c : WorkerConfig) (r : WorkerResult) :
  mode E = USE_SIZE_BASED_BENCHMARKS ->
  fst (_acquireLock E (-1) m) = false ->
  exists s' d_r d_d,
    run E fuel m c r = Ret s'
    /\ measured None (trace s') = [mkInterval d_r 0 0 0; mkInterval d_d 0 0 0]
    /\ passes (loc s') = 0.
Proof.
  intros Hm Hok.
  destruct (size_based_run_returns_from E Hm fuel m c r) as (s' & H).
  { rewrite Hok. discriminate. }
  destruct (size_based_measured E _ _ _ _ _ Hm H)
    as (d_r & d_d & n_r & n_d & M & _ & _ & _ & _ & N & P).
  rewrite Hok in P. rewrite P in N.
  destruct N as [Nr Nd]; [unfold in_range; lia|].
  assert (n_r = 0%nat) by lia. assert (n_d = 0%nat) by lia. subst n_r n_d.
  exists s', d_r, d_d. repeat split; assumption.
Qed.

Lemma size_based_without_snapshot_witness :
  exists s' d_r d_d,
    run (size_env (flat_cost 1000 100) no_writes) 0 (mkSim 100 [false])
      demo_config blank = Ret s'
    /\ measured None (trace s') = [mkInterval d_r 0 0 0; mkInterval d_d 0 0 0]
    /\ passes (loc s') = 0.
Proof.
  apply (size_based_without_snapshot
           (size_env (flat_cost 1000 100) no_writes) 0 (mkSim 100 [false])
           demo_config blank); reflexivity.
Defined.

(** X10.  In a size-based build the ticks recorded for a loop are its
    measured duration negated in 64 bits. So whenever the dummy loop took
    some ticks and the real loop at least as many, the recorded dummy ticks
    reach the recorded real ticks and the warning is raised. *)
Theorem size_based_warning {Machine : Type} (E : Env Machine) (fuel : nat)
    (m : Machine) (c : WorkerConfig) (r : WorkerResult) (s' : St Machine)
    (i_r i_d : Interval) :
  mode E = USE_SIZE_BASED_BENCHMARKS ->
  run E fuel m c r = Ret s' ->
  measured None (trace s') = [i_r; i_d] ->
  0 < ticks i_d ->
  ticks i_d <= ticks i_r ->
  elapsed_ticks (loc s') = 2 ^ 64 - ticks i_r
  /\ elapsed_dummy_ticks (loc s') = 2 ^ 64 - ticks i_d
  /\ warning (loc s') = true.
Proof.
  intros Hm H M Hpos Hle.
  destruct (size_based_measured E _ _ _ _ _ Hm H)
    as (d_r & d_d & n_r & n_d & M' & [Hr0 Hr1] & [Hd0 Hd1] & He & Hd & _).
  rewrite M in M'. injection M' as -> ->. cbn [ticks] in Hpos, Hle.
  assert (Hneg : forall d, 0 < d < 2 ^ 64 -> wrap64 (- d) = 2 ^ 64 - d).
  { intros d Hd'. unfold wrap64. rewrite <- (Z_mod_plus_full _ 1).
    rewrite Z.mod_small by lia. lia. }
  rewrite Hneg in He by lia. rewrite Hneg in Hd by lia.
  cbn [ticks]. split; [exact He|]. split; [exact Hd|].
  destruct (run_anatomy E _ _ _ _ _ H)
    as (s0 & s1 & seg & ok & pinned & boosted & reverted & ok2 & _ & _ & _
        & _ & _ & _ & _ & _ & _ & _ & _ & _ & W & _).
  rewrite W. unfold looks_fishy.
  replace (elapsed_dummy_ticks (loc s') >=? elapsed_ticks (loc s'))
    with true; [reflexivity|].
  symmetry. apply Z.geb_le. lia.
Qed.

Lemma size_based_warning_witness :
  exists s',
    run (size_env (flat_cost 1000 100) no_writes) 10 (mkSim 100 [])
      demo_config blank = Ret s'
    /\ measured None (trace s')
       = [mkInterval 10000 10 0 0; mkInterval 1000 0 10 0]
    /\ warning (loc s') = true.
Proof.
  eexists. split; [vm_compute; reflexivity|].
  split; [vm_compute; reflexivity|].
  match goal with
  | |- context [loc ?s] =>
      assert (Hrun : run (size_env (flat_cost 1000 100) no_writes) 10
                       (mkSim 100 []) demo_config blank = Ret s)
        by (vm_compute; reflexivity);
      assert (Hm : measured None (trace s)
                   = [mkInterval 10000 10 0 0; mkInterval 1000 0 10 0])
        by (vm_compute; reflexivity);
      destruct (size_based_warning
                  (size_env (flat_cost 1000 100) no_writes) _ _ _ _ _ _ _
                  eq_refl Hrun Hm) as (_ & _ & W)
  end.
  - cbn. lia.
  - cbn. lia.
  - exact W.
Defined.

(** ** The duration-bounded mode at its edges *)

(** X11.  With a target of zero ticks (a tick rate of zero, for one) a
    time-based run returns whatever the fuel without reading the timer or
    calling a kernel: it measures no interval, counts no pass, and raises
    the warning. *)
Theorem zero_target_measures_nothing {Machine : Type} (E : Env Machine)
    (fuel : nat) (m : Machine) (c : WorkerConfig) (r : WorkerResult) :
  mode E = USE_TIME_BASED_BENCHMARKS ->
  mul64 (g_ticks_per_sec E) (BENCHMARK_DURATION_SEC E) = 0 ->
  exists s',
    run E fuel m c r = Ret s'
    /\ count is_timer (trace s') = 0%nat
    /\ (forall role, count (is_call role) (trace s') = 0%nat)
    /\ measured None (trace s') = []
    /\ passes (loc s') = 0
    /\ elapsed_ticks (loc s') = 0
    /\ warning (loc s') = true.
Proof.
  intros Hm Ht.
  set (s0 := prologue E (mkSt m c r (declarations E) [])).
  destruct (prologue_state E (mkSt m c r (declarations E) []))
    as (_ & _ & E0 & D0 & P0 & G0 & _ & Q0 & _).
  destruct (prologue_trace E (mkSt m c r (declarations E) []))
    as (ok & pinned & boosted & T0 & _).
  fold s0 in E0, D0, P0, G0, Q0, T0. specialize (Q0 Hm).
  cbn [loc trace app] in E0, D0, P0, G0, Q0, T0.
  destruct (declarations_zero E) as (Z1 & Z2 & Z3 & Z4 & _).
  rewrite Z1 in E0. rewrite Z2 in D0. rewrite Z3 in Q0. rewrite Z4 in P0.
  assert (G : target_ticks (loc s0) = 0).
  { rewrite G0. unfold declarations. rewrite Hm. exact Ht. }
  set (s1 := assign (fun l => set_next_address (mem_array l) l)
               (assign (fun l => set_next_address (mem_array l) l) s0)).
  assert (Hb : run_benchmark E fuel s0 = Ret s1).
  { unfold run_benchmark. rewrite Hm. unfold time_based_benchmark.
    rewrite real_loop_done
      by (change (target_ticks (loc s0) <= elapsed_ticks (loc s0)); lia).
    cbn [bind]. apply dummy_loop_done.
    change (passes (loc s0) <= p (loc s0)). lia. }
  exists (epilogue E s1).
  split; [unfold run; fold s0; rewrite Hb; reflexivity|].
  destruct (epilogue_trace E s1) as (reverted & ok2 & T2 & _).
  destruct (epilogue_locals E s1) as (_ & W2 & E2 & D2 & P2 & _).
  cbv zeta in W2, E2, D2, P2.
  assert (Fm : Forall (fun e => is_measurement e = false)
                 (trace (epilogue E s1))).
  { rewrite T2. change (trace s1) with (trace s0). rewrite T0.
    apply Forall_app. split; [apply Forall_app; split|].
    - destruct ok, pinned, boosted; repeat constructor.
    - repeat constructor.
    - destruct (locked (loc s1)), reverted, ok2; repeat constructor. }
  assert (Fq : Forall (fun e => is_timer e = false) (trace (epilogue E s1))).
  { eapply Forall_impl; [|exact Fm].
    intros e He. destruct e; try discriminate He; reflexivity. }
  split; [apply count_none; exact Fq|].
  split.
  { intros role. apply count_none. eapply Forall_impl; [|exact Fm].
    intros e He. destruct e; try discriminate He; destruct role; reflexivity. }
  split; [apply (measured_quiet _ Fq)|].
  split; [rewrite P2; exact Q0|].
  split; [rewrite E2; exact E0|].
  rewrite W2. unfold looks_fishy. rewrite E2, D2.
  change (elapsed_ticks (loc s1)) with (elapsed_ticks (loc s0)).
  change (elapsed_dummy_ticks (loc s1)) with (elapsed_dummy_ticks (loc s0)).
  rewrite E0, D0. cbn [Z.geb Z.compare orb]. apply orb_true_r.
Qed.

Lemma zero_target_measures_nothing_witness :
  exists s',
    run (sim_env USE_TIME_BASED_BENCHMARKS 0 4 500 true true true
           (flat_cost 10 1) demo_chase 0 no_writes)
      0 (mkSim 0 []) demo_config blank = Ret s'
    /\ count is_timer (trace s') = 0%nat
    /\ (forall role, count (is_call role) (trace s') = 0%nat)
    /\ measured None (trace s') = []
    /\ passes (loc s') = 0
    /\ elapsed_ticks (loc s') = 0
    /\ warning (loc s') = true.
Proof.
  apply (zero_target_measures_nothing
           (sim_env USE_TIME_BASED_BENCHMARKS 0 4 500 true true true
              (flat_cost 10 1) demo_chase 0 no_writes)
           0 (mkSim 0 []) demo_config blank); reflexivity.
Defined.

(** ** Where the first loop stops *)

Section FirstLoop.

Context {Machine : Type}.
Variable E : Env Machine.

(** The first loop runs a batch only while the ticks accumulated so far are
    below the target. *)
Lemma real_loop_minimal (fuel : nat) :
  forall (s s' : St Machine) (t seg0 : list Event) (ds0 : list Z),
    real_loop E fuel s = Ret s' ->
    trace s = t ++ seg0 ->
    batches RealKernel seg0 ds0 ->
    elapsed_ticks (loc s) = wrap64 (total ds0) ->
    exists seg ds,
      trace s' = t ++ seg
      /\ batches RealKernel seg (ds0 ++ ds)
      /\ forall k, (k < length ds)%nat ->
                   wrap64 (total (ds0 ++ firstn k ds)) < target_ticks (loc s).
Proof.
  induction fuel as [|fuel IH]; intros s s' t seg0 ds0 H T B He;
    simpl in H;
    destruct (elapsed_ticks (loc s) <? target_ticks (loc s)) eqn:Hc;
    try discriminate.
  - injection H as <-. exists seg0, []. rewrite app_nil_r.
    split; [exact T|]. split; [exact B|]. simpl. intros k Hk. lia.
  - apply bind_Ret in H. destruct H as (s1 & H1 & H2).
    destruct (real_batch_spec _ _ _ H1)
      as (t0 & calls & t1 & T1 & L & F & He1 & _ & _ & _ & Ht1).
    destruct (IH s1 s' t (seg0 ++ EvStartTimer t0 :: calls ++ [EvStopTimer t1])
                (ds0 ++ [sub64 t1 t0]) H2)
      as (seg & ds & T' & B' & M').
    + rewrite T1, T, <- app_assoc. reflexivity.
    + constructor; assumption.
    + rewrite He1, He, total_snoc. unfold add64. apply wrap64_add_l.
    + exists seg, (sub64 t1 t0 :: ds).
      split; [exact T'|].
      split; [rewrite <- app_assoc in B'; exact B'|].
      intros [|k] Hk.
      * cbn [firstn]. rewrite app_nil_r, <- He. apply Z.ltb_lt. exact Hc.
      * cbn [firstn length] in *.
        change (ds0 ++ sub64 t1 t0 :: firstn k ds)
          with (ds0 ++ [sub64 t1 t0] ++ firstn k ds).
        rewrite app_assoc, <- Ht1. apply M'. lia.
  - injection H as <-. exists seg0, []. rewrite app_nil_r.
    split; [exact T|]. split; [exact B|]. simpl. intros k Hk. lia.
Qed.

End FirstLoop.

Lemma batch_of_inj (role : Role) (ds ds' : list Z) :
  map (batch_of role) ds = map (batch_of role) ds' -> ds = ds'.
Proof.
  revert ds'. induction ds as [|d ds IH]; intros [|d' ds'] Heq;
    try discriminate; [reflexivity|].
  simpl in Heq. injection Heq as Hd Heq. f_equal; [|apply IH; exact Heq].
  destruct role; injection Hd as ->; reflexivity.
Qed.

(** X12.  In a time-based build the first loop is left at the first batch
    boundary where the accumulated ticks have reached the target: after
    every shorter run of its batches they were still below it. With a target
    above zero it therefore runs a batch at least. *)
Theorem first_loop_stops_at_first_crossing {Machine : Type} (E : Env Machine)
    (fuel : nat) (m : Machine) (c : WorkerConfig) (r : WorkerResult)
    (s' : St Machine) :
  mode E = USE_TIME_BASED_BENCHMARKS ->
  run E fuel m c r = Ret s' ->
  exists ds_r ds_d,
    measured None (trace s')
    = map (batch_of RealKernel) ds_r ++ map (batch_of DummyKernel) ds_d
    /\ (forall k, (k < length ds_r)%nat ->
                  wrap64 (total (firstn k ds_r))
                  < mul64 (g_ticks_per_sec E) (BENCHMARK_DURATION_SEC E))
    /\ mul64 (g_ticks_per_sec E) (BENCHMARK_DURATION_SEC E)
       <= wrap64 (total ds_r)
    /\ (0 < mul64 (g_ticks_per_sec E) (BENCHMARK_DURATION_SEC E) ->
        ds_r <> []).
Proof.
  intros Hm H.
  destruct (run_anatomy E _ _ _ _ _ H)
    as (s0 & s1 & seg & ok & pinned & boosted & reverted & ok2 & Hs0 & Hb
        & Hs' & T0 & _ & _ & T2 & _).
  destruct (prologue_state E (mkSt m c r (declarations E) []))
    as (_ & _ & E0 & D0 & P0 & G0 & _ & Q0 & _).
  rewrite <- Hs0 in E0, D0, P0, G0, Q0. specialize (Q0 Hm).
  cbn [loc] in E0, D0, P0, G0, Q0.
  destruct (declarations_zero E) as (Z1 & Z2 & Z3 & Z4 & _).
  rewrite Z1 in E0. rewrite Z2 in D0. rewrite Z3 in Q0. rewrite Z4 in P0.
  assert (G : target_ticks (declarations E)
              = mul64 (g_ticks_per_sec E) (BENCHMARK_DURATION_SEC E)).
  { unfold declarations. rewrite Hm. reflexivity. }
  rewrite G in G0.
  unfold run_benchmark in Hb. rewrite Hm in Hb.
  unfold time_based_benchmark in Hb. apply bind_Ret in Hb.
  destruct Hb as (sr & Hr & Hd).
  destruct (real_loop_spec E fuel _ sr (trace s0) [] [] Hr)
    as (seg_r & ds_r & Tr & Br & Er & Pr & Xr & Qr & Dr & Gr).
  { cbn [trace assign set_loc]. rewrite app_nil_r. reflexivity. }
  { constructor. }
  { exact E0. }
  { exact Q0. }
  destruct (real_loop_minimal E fuel _ sr (trace s0) [] [] Hr)
    as (seg_m & ds_m & Tm & Bm & Mm).
  { cbn [trace assign set_loc]. rewrite app_nil_r. reflexivity. }
  { constructor. }
  { exact E0. }
  cbn [app] in Bm, Mm.
  cbn [loc assign set_loc set_next_address p elapsed_dummy_ticks target_ticks]
    in Qr, Dr, Gr, Mm.
  assert (Hseg : seg_m = seg_r).
  { rewrite Tr in Tm. exact (eq_sym (app_inv_head _ _ _ Tm)). }
  subst seg_m.
  destruct (batches_measured _ _ _ Br) as [Mr Or].
  destruct (batches_measured _ _ _ Bm) as [Mr' _].
  assert (Hds : ds_m = ds_r).
  { apply (batch_of_inj RealKernel). rewrite <- Mr, <- Mr'. reflexivity. }
  subst ds_m.
  destruct (dummy_loop_spec E fuel _ s1 (trace s0 ++ seg_r) [] [] Hd)
    as (seg_d & ds_d & Td & Bd & _).
  { cbn [trace assign set_loc]. rewrite app_nil_r. exact Tr. }
  { constructor. }
  { cbn [loc assign set_loc set_next_address elapsed_dummy_ticks].
    rewrite Dr. exact D0. }
  { cbn [loc assign set_loc set_next_address p]. rewrite Qr. exact P0. }
  { cbn [loc assign set_loc set_next_address p passes]. rewrite Qr, P0, Pr.
    apply wrap64_range. }
  { cbn [loc assign set_loc set_next_address passes]. rewrite Pr.
    apply wrap64_mul256_mod. }
  { cbn [loc assign set_loc set_next_address passes]. rewrite Pr.
    apply wrap64_range. }
  destruct (batches_measured _ _ _ Bd) as [Md Od].
  assert (Hsilent : forall a,
             Forall (fun e => is_measurement e = false) a ->
             Forall (fun e => is_timer e = false) a).
  { intros a Fa. eapply Forall_impl; [|exact Fa].
    intros e He. destruct e; try discriminate He; reflexivity. }
  destruct (measured_quiet (trace s0)) as [Mpre Opre].
  { apply Hsilent. rewrite T0. apply before_priming_quiet. }
  destruct (measured_quiet (after_benchmark pinned reverted ok2))
    as [Mpost _].
  { apply Hsilent. apply after_benchmark_quiet. }
  assert (Hx : mul64 (g_ticks_per_sec E) (BENCHMARK_DURATION_SEC E)
               <= wrap64 (total ds_r)).
  { rewrite <- G0, <- Gr, <- Er. exact Xr. }
  exists ds_r, ds_d.
  split.
  { rewrite T2, Td, !measured_app, !still_open_app, Mpre, Opre, Mr, Or, Md,
      Od, Mpost.
    rewrite app_nil_r. reflexivity. }
  split; [intros k Hk; rewrite <- G0; apply Mm; exact Hk|].
  split; [exact Hx|].
  intros Hpos ->. cbn in Hx. lia.
Qed.

(** On the synthetic machine: two batches of 2560 ticks against a target of
    4000 ticks. *)
Lemma first_loop_stops_at_first_crossing_witness :
  exists s' ds_r ds_d,
    run (time_env true 10 1 0) 4 (mkSim 0 []) demo_config blank = Ret s'
    /\ measured None (trace s')
       = map (batch_of RealKernel) ds_r ++ map (batch_of DummyKernel) ds_d
    /\ mul64 1000 4 <= wrap64 (total ds_r)
    /\ ds_r <> [].
Proof.
  eexists.
  match goal with
  | |- exists ds_r ds_d, run ?E ?f ?m ?c ?r = Ret ?s /\ _ =>
      assert (Hrun : run (time_env true 10 1 0) 4 (mkSim 0 []) demo_config
                       blank = Ret s) by (vm_compute; reflexivity);
      destruct (first_loop_stops_at_first_crossing (time_env true 10 1 0) _ _
                  _ _ _ eq_refl Hrun) as (ds_r & ds_d & M & _ & X & N)
  end.
  exists ds_r, ds_d.
  split; [exact Hrun|]. split; [exact M|]. split; [exact X|].
  apply N. reflexivity.
Defined.

(** ** What the kernels are called with *)

Section KernelArguments.

Context {Machine : Type}.
Variable E : Env Machine.

Variable n : Locals -> Z.
Hypothesis n_setup : forall l l', setup l' = setup l -> n l' = n l.

Lemma calls_of_refl (s : St Machine) : calls_of n s s.
Proof. exists []. rewrite app_nil_r. split; [reflexivity|constructor]. Qed.

Lemma calls_of_trans (s1 s2 s3 : St Machine) :
  setup (loc s2) = setup (loc s1) ->
  calls_of n s1 s2 -> calls_of n s2 s3 -> calls_of n s1 s3.
Proof.
  intros S (g1 & T1 & F1) (g2 & T2 & F2).
  destruct (setup_eq _ _ S) as (_ & _ & _ & _ & _ & _ & K1 & K2).
  rewrite K1, K2, (n_setup _ _ S) in F2.
  exists (g1 ++ g2). split; [rewrite T2, T1, app_assoc; reflexivity|].
  apply Forall_app. split; assumption.
Qed.

Lemma calls_of_quiet (s s' : St Machine) :
  trace s' = trace s -> calls_of n s s'.
Proof.
  intros T. exists []. rewrite app_nil_r. split; [exact T|constructor].
Qed.

Lemma calls_of_timer (s s' : St Machine) (e : Event) :
  trace s' = trace s ++ [e] -> is_timer e = true -> calls_of n s s'.
Proof.
  intros T He. exists [e]. split; [exact T|].
  constructor; [|constructor]. destruct e; try discriminate He; exact I.
Qed.

Lemma calls_of_then_quiet (s t t' : St Machine) :
  calls_of n s t -> trace t' = trace t -> calls_of n s t'.
Proof. intros (g & T & F) T'. exists g. rewrite T'. split; assumption. Qed.

Lemma calls_of_then_timer (s t t' : St Machine) (e : Event) :
  calls_of n s t -> trace t' = trace t ++ [e] -> is_timer e = true ->
  calls_of n s t'.
Proof.
  intros (g & T & F) T' He. exists (g ++ [e]).
  split; [rewrite T', T, app_assoc; reflexivity|].
  apply Forall_app. split; [exact F|]. constructor; [|constructor].
  destruct e; try discriminate He; exact I.
Qed.

Lemma calls_of_call (role : Role) (s s' : St Machine) :
  call_kernel E role (role_fptr role (loc s)) (n (loc s)) s = Ret s' ->
  calls_of n s s'.
Proof.
  unfold call_kernel.
  destruct (role_fptr role (loc s) =? 0) eqn:Hz; [discriminate|].
  intros H. injection H as <-. apply Z.eqb_neq in Hz.
  exists [EvKernel role (role_fptr role (loc s)) (next_address (loc s))
            (n (loc s))].
  split; [reflexivity|]. constructor; [|constructor].
  cbn [called_with]. split; [destruct role; reflexivity|].
  split; [exact Hz|reflexivity].
Qed.

Lemma calls_of_unroll (role : Role) (k : nat) :
  forall s s' : St Machine,
    unroll k (fun s => call_kernel E role (role_fptr role (loc s))
                         (n (loc s)) s) s = Ret s' ->
    calls_of n s s'.
Proof.
  induction k as [|k IH]; cbn [unroll]; intros s s' H.
  - injection H as <-. apply calls_of_refl.
  - apply bind_Ret in H. destruct H as (s1 & H1 & H2).
    destruct (measures_call E _ _ _ _ _ H1) as (_ & _ & _ & _ & _ & S1 & _).
    exact (calls_of_trans _ _ _ S1 (calls_of_call _ _ _ H1) (IH _ _ H2)).
Qed.

Lemma calls_of_for_passes (role : Role) (fuel : nat) :
  (forall l, n l = len l) ->
  forall s s' : St Machine,
    for_passes E fuel role s = Ret s' -> calls_of n s s'.
Proof.
  intros Hn.
  induction fuel as [|fuel IH]; cbn [for_passes]; intros s s' H;
    destruct (p (loc s) <? passes (loc s));
    try discriminate; try (injection H as <-; apply calls_of_refl).
  apply bind_Ret in H. destruct H as (s1 & H1 & H2).
  destruct (measures_call E _ _ _ _ _ H1) as (_ & _ & _ & _ & _ & S1 & _).
  apply (calls_of_trans _ s1); [exact S1| |].
  - apply (calls_of_call role). rewrite Hn. exact H1.
  - apply (calls_of_trans _ (assign (fun l => set_p (add64 (p l) 1) l) s1));
      [reflexivity|apply calls_of_quiet; reflexivity|].
    apply IH. exact H2.
Qed.

End KernelArguments.

Section KernelArgumentsOfTheLoops.

Context {Machine : Type}.
Variable E : Env Machine.

(** Peels the straight-line steps off the end of the reached state. *)
Ltac peel_calls :=
  repeat match goal with
  | |- calls_of _ ?s ?s => apply calls_of_refl
  | |- calls_of _ _ (assign ?f ?t) =>
      apply (calls_of_then_quiet _ _ t); [|reflexivity]
  | |- calls_of _ _ (read_start_timer _ ?t) =>
      eapply (calls_of_then_timer _ _ t); [|reflexivity|reflexivity]
  | |- calls_of _ _ (read_stop_timer _ ?t) =>
      eapply (calls_of_then_timer _ _ t); [|reflexivity|reflexivity]
  end.

Lemma zero_setup (l l' : Locals) :
  setup l' = setup l -> (fun _ : Locals => 0) l' = (fun _ : Locals => 0) l.
Proof. reflexivity. Qed.

Lemma len_setup (l l' : Locals) : setup l' = setup l -> len l' = len l.
Proof. intros S. destruct (setup_eq _ _ S) as (_ & _ & L & _). exact L. Qed.

Lemma calls_of_real_batch (s s' : St Machine) :
  real_batch E s = Ret s' -> calls_of (fun _ => 0) s s'.
Proof.
  unfold real_batch, UNROLL256. intros H. apply bind_Ret in H.
  destruct H as (s1 & H1 & H2). injection H2 as <-.
  pose proof (calls_of_unroll E (fun _ => 0) zero_setup RealKernel _ _ _ H1)
    as C1.
  destruct C1 as (seg & T & F).
  exists (EvStartTimer (wrap64 (fst (start_timer E (mach s))))
            :: seg ++ [EvStopTimer (wrap64 (fst (stop_timer E (mach s1))))]).
  split.
  { cbn [trace assign set_loc read_stop_timer log set_mach]. rewrite T.
    cbn [trace assign set_loc read_start_timer log set_mach].
    rewrite <- !app_assoc. reflexivity. }
  constructor; [exact I|]. apply Forall_app. split; [exact F|].
  constructor; [exact I|constructor].
Qed.

Lemma calls_of_dummy_batch (s s' : St Machine) :
  dummy_batch E s = Ret s' -> calls_of (fun _ => 0) s s'.
Proof.
  unfold dummy_batch, UNROLL256. intros H. apply bind_Ret in H.
  destruct H as (s1 & H1 & H2). injection H2 as <-.
  pose proof (calls_of_unroll E (fun _ => 0) zero_setup DummyKernel _ _ _ H1)
    as C1.
  destruct C1 as (seg & T & F).
  exists (EvStartTimer (wrap64 (fst (start_timer E (mach s))))
            :: seg ++ [EvStopTimer (wrap64 (fst (stop_timer E (mach s1))))]).
  split.
  { cbn [trace assign set_loc read_stop_timer log set_mach]. rewrite T.
    cbn [trace assign set_loc read_start_timer log set_mach].
    rewrite <- !app_assoc. reflexivity. }
  constructor; [exact I|]. apply Forall_app. split; [exact F|].
  constructor; [exact I|constructor].
Qed.

Lemma calls_of_real_loop (fuel : nat) :
  forall s s' : St Machine,
    real_loop E fuel s = Ret s' -> calls_of (fun _ => 0) s s'.
Proof.
  induction fuel as [|fuel IH]; simpl; intros s s' H;
    destruct (elapsed_ticks (loc s) <? target_ticks (loc s));
    try discriminate; try (injection H as <-; apply calls_of_refl).
  apply bind_Ret in H. destruct H as (s1 & H1 & H2).
  destruct (measures_real_batch E _ _ H1) as (_ & _ & _ & _ & _ & S1 & _).
  exact (calls_of_trans (fun _ => 0) zero_setup _ _ _ S1
           (calls_of_real_batch _ _ H1) (IH _ _ H2)).
Qed.

Lemma calls_of_dummy_loop (fuel : nat) :
  forall s s' : St Machine,
    dummy_loop E fuel s = Ret s' -> calls_of (fun _ => 0) s s'.
Proof.
  induction fuel as [|fuel IH]; simpl; intros s s' H;
    destruct (p (loc s) <? passes (loc s));
    try discriminate; try (injection H as <-; apply calls_of_refl).
  apply bind_Ret in H. destruct H as (s1 & H1 & H2).
  destruct (measures_dummy_batch E _ _ H1) as (_ & _ & _ & _ & _ & S1 & _).
  exact (calls_of_trans (fun _ => 0) zero_setup _ _ _ S1
           (calls_of_dummy_batch _ _ H1) (IH _ _ H2)).
Qed.

Lemma calls_of_run_benchmark (fuel : nat) (s s' : St Machine) :
  run_benchmark E fuel s = Ret s' ->
  calls_of (length_argument (mode E)) s s'.
Proof.
  unfold run_benchmark. destruct (mode E); cbn [length_argument].
  - unfold time_based_benchmark. intros H. apply bind_Ret in H.
    destruct H as (s1 & H1 & H2).
    destruct (measures_real_loop E _ _ _ H1) as (_ & _ & _ & _ & _ & S1 & _).
    apply (calls_of_trans (fun _ => 0) zero_setup _
             (assign (fun l => set_next_address (mem_array l) l) s));
      [reflexivity|apply calls_of_quiet; reflexivity|].
    apply (calls_of_trans (fun _ => 0) zero_setup _ s1);
      [exact S1|apply calls_of_real_loop with fuel; exact H1|].
    apply (calls_of_trans (fun _ => 0) zero_setup _
             (assign (fun l => set_next_address (mem_array l) l) s1));
      [reflexivity|apply calls_of_quiet; reflexivity|].
    apply calls_of_dummy_loop with fuel. exact H2.
  - unfold size_based_benchmark. intros H. apply bind_Ret in H.
    destruct H as (s1 & H1 & H). apply bind_Ret in H.
    destruct H as (s2 & H2 & H). injection H as <-.
    destruct (measures_for_passes E _ _ _ _ H1)
      as (_ & _ & _ & _ & _ & S1 & _).
    pose proof (calls_of_for_passes E len len_setup _ _ (fun _ => eq_refl)
                  _ _ H1) as C1.
    pose proof (calls_of_for_passes E len len_setup _ _ (fun _ => eq_refl)
                  _ _ H2) as C2.
    match goal with
    | |- calls_of _ ?a ?b => change (calls_of len a b)
    end.
    peel_calls.
    match type of H2 with
    | for_passes _ _ _ ?a = _ => apply (calls_of_trans len len_setup s a s2)
    end; [transitivity (setup (loc s1)); [reflexivity|exact S1]| |exact C2].
    peel_calls.
    match type of H1 with
    | for_passes _ _ _ ?a = _ => apply (calls_of_trans len len_setup s a s1)
    end; [reflexivity| |exact C1].
    peel_calls.
Qed.

End KernelArgumentsOfTheLoops.

(** X13.  Every kernel call of a run that returns goes through the pointer
    the configuration held for its role, real or dummy, when the run began,
    and that pointer is not [NULL]; it passes the length 0 in a time-based
    build and what [len] denotes in a size-based build.  A run that returns
    without its snapshot has called no kernel. *)
Theorem kernels_called_as_configured {Machine : Type} (E : Env Machine)
    (fuel : nat) (m : Machine) (c : WorkerConfig) (r : WorkerResult)
    (s' : St Machine) :
  run E fuel m c r = Ret s' ->
  Forall (called_with (__kernel_fptr c) (__kernel_dummy_fptr c)
            match mode E with
            | USE_TIME_BASED_BENCHMARKS => 0
            | USE_SIZE_BASED_BENCHMARKS => size_len E
            end) (trace s')
  /\ (fst (_acquireLock E (-1) m) = false ->
      forall role, count (is_call role) (trace s') = 0%nat).
Proof.
  intros H.
  destruct (run_anatomy E _ _ _ _ _ H)
    as (s0 & s1 & seg & ok & pinned & boosted & reverted & ok2 & Hs0 & Hb
        & Hs' & T0 & _ & _ & T2 & _).
  destruct (calls_of_run_benchmark E _ _ _ Hb) as (calls & T1 & F1).
  destruct (prologue_copies E (mkSt m c r (declarations E) []))
    as (K1 & K2 & _).
  destruct (prologue_state E (mkSt m c r (declarations E) []))
    as (_ & _ & _ & _ & _ & _ & _ & _ & L0).
  destruct (declarations_null E) as (N1 & N2 & _).
  rewrite <- Hs0 in K1, K2, L0. cbn [loc cfg mach] in K1, K2, L0.
  rewrite N1 in K1. rewrite N2 in K2.
  assert (L : length_argument (mode E) (loc s0)
              = match mode E with
                | USE_TIME_BASED_BENCHMARKS => 0
                | USE_SIZE_BASED_BENCHMARKS => size_len E
                end).
  { destruct (mode E) eqn:Hm; [reflexivity|]. cbn [length_argument].
    destruct (L0 eq_refl) as [_ ->]. unfold declarations. rewrite Hm.
    reflexivity. }
  rewrite K1, K2, L in F1.
  assert (Hquiet : forall a role,
             Forall (fun e => is_measurement e = false) a ->
             count (is_call role) a = 0%nat).
  { intros a role Fa. apply count_none. eapply Forall_impl; [|exact Fa].
    intros e He. destruct e; try discriminate He; destruct role; reflexivity. }
  rewrite T2, T1, T0. split.
  - apply Forall_app.
    split; [apply Forall_app; split; [apply Forall_app; split|]|].
    + destruct ok, pinned, boosted; cbn [before_priming app];
        repeat (constructor; [exact I|]); constructor.
    + cbn [repeat]. repeat (constructor; [exact I|]). constructor.
    + eapply Forall_impl; [|exact F1]. intros e.
      destruct e as [| | | | | | | | | |role f a n|]; try (intros _; exact I).
      cbn [called_with]. intros (Hf & Hz & Hn).
      destruct (fst (_acquireLock E (-1) m)).
      * split; [exact Hf|]. split; [exact Hz|exact Hn].
      * exfalso. apply Hz. rewrite Hf. destruct role; reflexivity.
    + destruct pinned, reverted, ok2; cbn [after_benchmark publication app];
        repeat (constructor; [exact I|]); constructor.
  - intros Hno role. rewrite Hno in F1.
    rewrite (count_app _ (_ ++ calls)), (count_app _ _ calls),
      (Hquiet _ role (before_priming_quiet _ _ _ _ _ _)),
      (Hquiet _ role (after_benchmark_quiet _ _ _)).
    rewrite (count_none (is_call role) calls); [reflexivity|].
    eapply Forall_impl; [|exact F1]. intros e.
    destruct e as [| | | | | | | | | |role' f a n|];
      try (intros _; destruct role; reflexivity).
    cbn [called_with]. intros (Hf & Hz & _).
    exfalso. apply Hz. rewrite Hf. destruct role'; reflexivity.
Qed.

(** On the synthetic machine, a size-based build: every call goes through
    the kernel at 1 or the kernel at 2, with the length 1024. *)
Lemma kernels_called_as_configured_witness :
  exists s',
    run (size_env (flat_cost 1000 100) no_writes) 10 (mkSim 0 []) demo_config
      blank = Ret s'
    /\ Forall (called_with 1 2 1024) (trace s').
Proof.
  eexists. split; [vm_compute; reflexivity|].
  match goal with
  | |- context [trace ?s] =>
      assert (Hrun : run (size_env (flat_cost 1000 100) no_writes) 10
                       (mkSim 0 []) demo_config blank = Ret s)
        by (vm_compute; reflexivity);
      exact (proj1 (kernels_called_as_configured
                      (size_env (flat_cost 1000 100) no_writes) _ _ _ _ _
                      Hrun))
  end.
Defined.

(** ** The bytes of a pass *)

(** X14.  The bytes per pass a run publishes do not come from the
    configuration: they are eight times the unroll length of the build, in
    64 bits, when the snapshot was taken, and the 0 of line 81 when it was
    not. *)
Theorem published_bytes_per_pass {Machine : Type} (E : Env Machine)
    (fuel : nat) (m : Machine) (c : WorkerConfig) (r : WorkerResult)
    (s' : St Machine) :
  run E fuel m c r = Ret s' ->
  lock_at_publication (trace s') = Some true ->
  _bytes_per_pass (res s')
  = (if fst (_acquireLock E (-1) m)
     then mul64 (LATENCY_BENCHMARK_UNROLL_LENGTH E) 8
     else 0).
Proof.
  intros H L.
  destruct (run_anatomy E _ _ _ _ _ H)
    as (s0 & s1 & seg & ok & pinned & boosted & reverted & ok2 & Hs0 & Hb
        & Hs' & _ & _ & _ & _ & _ & _ & R2 & _ & _ & _ & Q).
  unfold lock_at_publication in L. rewrite Q in L. injection L as ->.
  rewrite R2. cbn [_bytes_per_pass].
  destruct (epilogue_spec E s1) as (rv & o & L2 & _).
  rewrite <- Hs' in L2. rewrite L2.
  cbn [bytes_per_pass set_warning set_adjusted_ticks].
  destruct (measures_run_benchmark E _ _ _ Hb) as (_ & _ & _ & _ & _ & S1 & _).
  assert (B : bytes_per_pass (loc s1) = bytes_per_pass (loc s0)).
  { unfold setup in S1. inversion S1. reflexivity. }
  rewrite B.
  destruct (prologue_copies E (mkSt m c r (declarations E) []))
    as (_ & _ & _ & K & _).
  destruct (declarations_null E) as (_ & _ & N & _).
  rewrite <- Hs0 in K. cbn [loc cfg mach] in K. rewrite N in K. exact K.
Qed.

(** On the synthetic machine, whose unroll length is 512: 4096 bytes when
    the snapshot was taken. *)
Lemma published_bytes_per_pass_witness :
  exists s',
    run (time_env true 10 1 0) 4 (mkSim 0 []) demo_config blank = Ret s'
    /\ _bytes_per_pass (res s') = 4096.
Proof.
  eexists. split; [vm_compute; reflexivity|].
  match goal with
  | |- context [res ?s] =>
      assert (Hrun : run (time_env true 10 1 0) 4 (mkSim 0 []) demo_config
                       blank = Ret s) by (vm_compute; reflexivity);
      exact (published_bytes_per_pass (time_env true 10 1 0) _ _ _ _ _ Hrun
               eq_refl)
  end.
Defined.
